(** * YellowTokService: a shallow embedding and its verified properties

    The service of [src/services/YellowTokService.js] is a single class whose
    methods read and write the fields of [this] and talk to four collaborators:
    the WebSocket to the ClearNode, the Nitrolite SDK (message builders and the
    on-chain client), the wallet with the chain reader, and the registered
    event handlers.

    The embedding keeps that shape.

    - The fields of [this] are the record [Service].
    - A method is a function in the monad [M]: it threads the [Service],
      may throw an [Error], and appends what it does to the outside world to
      the [log] of the service (events triggered, messages sent, chain reads,
      transactions submitted, waits, timers, promises settled).
    - What the outside world answers is given by an environment [Env] of
      oracles.  Every oracle receives the log so far, so an answer may depend
      on everything that happened before the call.
    - [await] on a collaborator is one step: the oracle answers with a value
      ([Ok]) or with the rejection ([Throw]).  Synchronous library helpers
      (constructors, unit conversions) return.
    - A JavaScript [number] is an exact rational ([Q]): no rounding, no NaN.
      A [bigint] read from a [uint256] is a natural number ([N]), any other
      [bigint] an integer ([Z]).
    - The two parts of the service that are driven by events rather than by
      calls, the reconnection after a close and the authentication
      handshake, are step functions over the events that can reach them. *)

From Stdlib Require Import ZArith QArith Qround Lqa String Bool Lia List Sorted.
Import ListNotations.
Open Scope string_scope.
Open Scope list_scope.


(* ================================================================= *)
(** * Part I: the embedding *)

(* ================================================================= *)
(** ** Values *)

Definition Address := string.
Definition ChannelId := string.
Definition TxHash := string.
Definition ChainId := Z.
Definition Socket := nat.

(** [RPCMethod] of the Nitrolite SDK, as far as the service names its
    members; any other discriminator is [OtherMethod]. *)
Inductive RPCMethod :=
| AuthChallenge | AuthVerify | RpcError | GetConfig | CreateChannel
| CloseChannel | ResizeChannel | Transfer | BalanceUpdate
| GetLedgerBalances | ChannelsUpdate | Assets
| OtherMethod (name : string).

Definition RPCMethod_eq_dec (a b : RPCMethod) : {a = b} + {a <> b}.
Proof. decide equality. apply string_dec. Defined.

Definition method_eqb (a b : RPCMethod) : bool :=
  if RPCMethod_eq_dec a b then true else false.

(** Errors the service throws itself, and errors that reach it from a
    collaborator ([External]) or from the language ([TypeError]). *)
Inductive Error :=
| NotConnected
| NoPublicClient
| ChainUnsupported (chain : ChainId) (supported : list ChainId)
| AuthPrerequisites
| AuthTimeout
| ConnectionLost
| SignatureRejected
| AuthFailed (reason : option string)
| SessionArgsRequired
| NoActiveSession
| NoSessionToEnd
| DifferentStreamer
| TipNotPositive
| InsufficientBalance
| RpcTimeout (method : RPCMethod)
| RpcFailed (reason : option string)
| TypeError (what : string)
| External (message : string).

Inductive Result (A : Type) :=
| Ok (a : A)
| Throw (e : Error).
Arguments Ok {A} a.
Arguments Throw {A} e.

(** JavaScript truthiness of the values the service tests. *)
Definition truthy_str (o : option string) : bool :=
  match o with
  | Some s => negb (String.eqb s EmptyString)
  | None => false
  end.

Definition truthy_num (q : Q) : bool := negb (Qeq_bool q 0).

Definition is_some {A} (o : option A) : bool :=
  match o with Some _ => true | None => false end.

(** [x || d] on an optional string. *)
Definition or_else (o : option string) (d : option string) : option string :=
  if truthy_str o then o else d.

(** [a <= b] and [a > b] on numbers, as booleans. *)
Definition num_le (a b : Q) : bool := Qle_bool a b.
Definition num_gt (a b : Q) : bool := negb (Qle_bool a b).

(* ================================================================= *)
(** ** Messages, transactions, events *)

(** What the SDK's [create...Message] builders are asked to sign. *)
Inductive Msg :=
| AuthRequestMsg
| AuthVerifyMsg
| GetConfigMsg
| GetLedgerBalancesMsg (participant : option Address)
| TransferMsg (destination : Address) (asset : string) (amount : Q)
| CreateChannelMsg (chain : ChainId) (token : Address)
| CloseChannelMsg (channel : ChannelId) (funds_destination : option Address)
| ResizeMsg (channel : ChannelId) (resize_amount : Z) (funds_destination : option Address)
| AllocateMsg (channel : ChannelId) (allocate_amount : Z) (funds_destination : option Address).

(** The co-signed state a channel response carries ([params.state],
    [params.channelId], [params.serverSignature], [params.channel]); the
    service only forwards it to the on-chain client. *)
Record SignedState := {
  st_channelId : ChannelId;
  st_version : Z;
  st_payload : string
}.

Record Network := {
  chainId : ChainId;
  custodyAddress : Address;
  adjudicatorAddress : Address
}.

(** One entry of [params.channels] in a channels update. *)
Record ChannelInfo := {
  ch_channelId : option ChannelId;
  ch_status : string
}.

(** What [parseAnyRPCResponse] returns, with the parts the service reads:
    the discriminator, and of [params] the co-signed state, the error text,
    the outcome and token of an authentication, the configuration, the
    balances (asset and amount) and the channels. *)
Record Response := {
  r_method : RPCMethod;
  r_state : option SignedState;
  r_error : option string;
  r_success : option bool;
  r_jwtToken : option string;
  r_brokerAddress : option Address;
  r_networks : option (list Network);
  r_balances : option (list (string * Q));
  r_channels : list ChannelInfo
}.

(** On-chain submissions: every call that asks the wallet for a
    transaction. *)
Inductive Tx :=
| TxApprove (token spender : Address) (amount : Z)
| TxDeposit (token : Address) (amount : Z)
| TxCreateChannel (st : SignedState)
| TxResize (st : SignedState) (proofState : string)
| TxCloseChannel (st : SignedState)
| TxWithdrawal (token : option Address) (amount : N).

(** Reads of chain state. *)
Inductive Query :=
| QAllowance (token : Address) (owner : option Address) (spender : Address)
| QAccountBalance (token : option Address)
| QChannelData (channel : ChannelId).

(** Waits that always come back: the three bounded waits of the deposit
    flow (each resolves on a push or on its timer, never rejects) and the
    pause of the cleanup.  A receipt is awaited by hash and may reject. *)
Inductive Wait :=
| WReceipt (hash : TxHash)
| WChannelReady (channel : ChannelId) (ms : Z)
| WResizeProcessed (channel : ChannelId) (ms : Z)
| WDepositConfirmed (ms : Z)
| WSleep (ms : Z).

Inductive EventName :=
| onConnected | onDisconnected | onAuthenticated | onConfigReady
| onDepositProgress | onSessionCreated | onTipReceived | onTipSent
| onBalanceUpdate | onSessionClosed | onWithdrawProgress | onError.

(** The texts of the progress events. *)
Inductive ProgressText :=
| TxtCleanupStart | TxtClosingChannels (n : nat) | TxtDraining
| TxtQueryingLedger | TxtCleanupComplete
| TxtClosingPrevious | TxtSettingUp | TxtCheckingApproval
| TxtApproving (amount : Q) | TxtDepositing (amount : Q)
| TxtCreatingChannel | TxtLocking | TxtMovingToUnified
| TxtConfirming | TxtReady (amount : Q)
| TxtClosingChannel | TxtWithdrawing | TxtWithdrawalComplete.

Inductive ErrorKind :=
| initialization_error | connection_error | session_creation_error
| tip_error | session_close_error | withdraw_error | clearnode_error
| max_reconnect_attempts.

Record TipInfo := {
  tip_amount : Q;
  tip_amountInUnits : Z;
  tip_recipient : Address;
  tip_message : string;
  tip_commission : Q;
  tip_creatorReceives : Q;
  tip_remainingBalance : Q;
  tip_totalSpent : Q
}.

Record SessionSummary := {
  sum_sessionId : Z;
  sum_duration : Z;
  sum_totalDeposited : Q;
  sum_totalSpent : Q;
  sum_unusedBalance : Q;
  sum_commissionRate : Q;
  sum_closeTxHash : option TxHash;
  sum_withdrawHash : option TxHash
}.

Inductive Payload :=
| NoData
| Progress (step total : nat) (text : ProgressText) (complete : bool)
| ErrorInfo (kind : ErrorKind) (reason : option Error)
| ErrorText (kind : ErrorKind) (text : option string)
| SessionInfo (sessionId : Z)
| TipData (t : TipInfo)
| SummaryData (s : SessionSummary)
| BalanceData (balances : option (list (string * Q)))
| ConfigData (networks : list Network) (broker : option Address).

(** What a timer does when it fires. *)
Inductive Task :=
| Reconnect
| KeepAlive.

(** One entry of the log: something the service did to a collaborator, to
    a timer or to a promise of its own. *)
Inductive Effect :=
| Event (name : EventName) (data : Payload)
| Send (socket : Socket) (m : Msg)
| Read (q : Query)
| Submit (t : Tx)
| Await (w : Wait)
| NewWebSocket (socket : Socket)
| CloseSocket (socket : Socket)
| SetTimeout (task : Task) (ms : Z)
| SetInterval (task : Task) (ms : Z)
| ClearInterval (task : Task)
| ClearTimeout (promise : nat)
| Resolve (promise : nat) (r : Response)
| Reject (promise : nat) (e : Error).

Definition is_submit (e : Effect) : bool :=
  match e with Submit _ => true | _ => false end.

Definition is_send (e : Effect) : bool :=
  match e with Send _ _ => true | _ => false end.

Definition is_withdrawal (e : Effect) : bool :=
  match e with Submit (TxWithdrawal _ _) => true | _ => false end.

Definition is_close_tx (e : Effect) : bool :=
  match e with Submit (TxCloseChannel _) => true | _ => false end.

Definition is_event (e : Effect) : bool :=
  match e with Event _ _ => true | _ => false end.

(* ================================================================= *)
(** ** The fields of the service *)

(** The part of [this.config] the modelled methods read. *)
Record Config := {
  standardCommission : Q;
  partnerCommission : Q;
  defaultAsset : string;
  assetDecimals : nat
}.

Inductive SessionStatus := active | closed.

(** The session object of [createStreamSession]; its id is the text
    [stream_] followed by the number [sessionId].  [activeSessions] keeps a
    second reference to it under its id; the service never reads that map,
    so only [activeStreamSession] is modelled. *)
Record Session := {
  sessionId : Z;
  streamerAddress : Address;
  viewerAddress : option Address;
  initialDeposit : Q;
  currentBalance : Q;
  spent : Q;
  commissionRate : Q;
  isPartner : bool;
  createdAt : Z;
  closedAt : option Z;
  status : SessionStatus
}.

(** [new NitroliteClient({ addresses: { custody, adjudicator }, chainId, ... })]. *)
Record Client := {
  client_custody : Address;
  client_adjudicator : Address;
  client_chainId : ChainId
}.

(** A pending request of [_sendRPC]: [{ resolve, reject, timer }].  The
    promise and its timer are created together; one number names both. *)
Record Pending := { promise : nat }.

(** The fields of [this].  The resolvers of the three bounded waits
    ([_channelReadyResolve], [_resizeProcessedResolve],
    [_depositConfirmedResolve]) live inside the waits and are not fields
    here; [_keepAliveInterval] is whether the interval is set. *)
Record Service := {
  config : Config;
  (* connection state *)
  ws : option Socket;
  connected : bool;
  authenticated : bool;
  reconnectAttempts : nat;
  (* user and session key *)
  userAddress : option Address;
  walletClient : bool;
  sessionKey : bool;
  sessionSigner : bool;
  (* session state *)
  activeStreamSession : option Session;
  (* channel and on-chain state *)
  _pendingRequests : list (RPCMethod * Pending);
  brokerAddress : option Address;
  networkConfig : option (list Network);
  channelId : option ChannelId;
  _existingChannelId : option ChannelId;
  _keepAliveInterval : bool;
  nitroliteClient : option Client;
  publicClient : bool;
  tokenAddress : option Address;
  isDeposited : bool;
  (* what the service did so far, oldest first *)
  log : list Effect
}.

Definition maxReconnectAttempts : nat := 5.

(** Field updates, one for each field the modelled methods assign. *)
Definition set_log (v : list Effect) (s : Service) : Service :=
  {| config := config s; ws := ws s; connected := connected s; 
     authenticated := authenticated s; 
     reconnectAttempts := reconnectAttempts s; 
     userAddress := userAddress s; walletClient := walletClient s; 
     sessionKey := sessionKey s; sessionSigner := sessionSigner s; 
     activeStreamSession := activeStreamSession s; 
     _pendingRequests := _pendingRequests s; 
     brokerAddress := brokerAddress s; networkConfig := networkConfig s; 
     channelId := channelId s; _existingChannelId := _existingChannelId s; 
     _keepAliveInterval := _keepAliveInterval s; 
     nitroliteClient := nitroliteClient s; publicClient := publicClient s; 
     tokenAddress := tokenAddress s; isDeposited := isDeposited s; 
     log := v |}.

Definition set_activeStreamSession (v : option Session) (s : Service) : Service :=
  {| config := config s; ws := ws s; connected := connected s; 
     authenticated := authenticated s; 
     reconnectAttempts := reconnectAttempts s; 
     userAddress := userAddress s; walletClient := walletClient s; 
     sessionKey := sessionKey s; sessionSigner := sessionSigner s; 
     activeStreamSession := v; _pendingRequests := _pendingRequests s; 
     brokerAddress := brokerAddress s; networkConfig := networkConfig s; 
     channelId := channelId s; _existingChannelId := _existingChannelId s; 
     _keepAliveInterval := _keepAliveInterval s; 
     nitroliteClient := nitroliteClient s; publicClient := publicClient s; 
     tokenAddress := tokenAddress s; isDeposited := isDeposited s; 
     log := log s |}.

Definition set_pendingRequests (v : list (RPCMethod * Pending)) (s : Service) : Service :=
  {| config := config s; ws := ws s; connected := connected s; 
     authenticated := authenticated s; 
     reconnectAttempts := reconnectAttempts s; 
     userAddress := userAddress s; walletClient := walletClient s; 
     sessionKey := sessionKey s; sessionSigner := sessionSigner s; 
     activeStreamSession := activeStreamSession s; _pendingRequests := v; 
     brokerAddress := brokerAddress s; networkConfig := networkConfig s; 
     channelId := channelId s; _existingChannelId := _existingChannelId s; 
     _keepAliveInterval := _keepAliveInterval s; 
     nitroliteClient := nitroliteClient s; publicClient := publicClient s; 
     tokenAddress := tokenAddress s; isDeposited := isDeposited s; 
     log := log s |}.

Definition set_channelId (v : option ChannelId) (s : Service) : Service :=
  {| config := config s; ws := ws s; connected := connected s; 
     authenticated := authenticated s; 
     reconnectAttempts := reconnectAttempts s; 
     userAddress := userAddress s; walletClient := walletClient s; 
     sessionKey := sessionKey s; sessionSigner := sessionSigner s; 
     activeStreamSession := activeStreamSession s; 
     _pendingRequests := _pendingRequests s; 
     brokerAddress := brokerAddress s; networkConfig := networkConfig s; 
     channelId := v; _existingChannelId := _existingChannelId s; 
     _keepAliveInterval := _keepAliveInterval s; 
     nitroliteClient := nitroliteClient s; publicClient := publicClient s; 
     tokenAddress := tokenAddress s; isDeposited := isDeposited s; 
     log := log s |}.

Definition set_existingChannelId (v : option ChannelId) (s : Service) : Service :=
  {| config := config s; ws := ws s; connected := connected s; 
     authenticated := authenticated s; 
     reconnectAttempts := reconnectAttempts s; 
     userAddress := userAddress s; walletClient := walletClient s; 
     sessionKey := sessionKey s; sessionSigner := sessionSigner s; 
     activeStreamSession := activeStreamSession s; 
     _pendingRequests := _pendingRequests s; 
     brokerAddress := brokerAddress s; networkConfig := networkConfig s; 
     channelId := channelId s; _existingChannelId := v; 
     _keepAliveInterval := _keepAliveInterval s; 
     nitroliteClient := nitroliteClient s; publicClient := publicClient s; 
     tokenAddress := tokenAddress s; isDeposited := isDeposited s; 
     log := log s |}.

Definition set_keepAliveInterval (v : bool) (s : Service) : Service :=
  {| config := config s; ws := ws s; connected := connected s; 
     authenticated := authenticated s; 
     reconnectAttempts := reconnectAttempts s; 
     userAddress := userAddress s; walletClient := walletClient s; 
     sessionKey := sessionKey s; sessionSigner := sessionSigner s; 
     activeStreamSession := activeStreamSession s; 
     _pendingRequests := _pendingRequests s; 
     brokerAddress := brokerAddress s; networkConfig := networkConfig s; 
     channelId := channelId s; _existingChannelId := _existingChannelId s; 
     _keepAliveInterval := v; nitroliteClient := nitroliteClient s; 
     publicClient := publicClient s; tokenAddress := tokenAddress s; 
     isDeposited := isDeposited s; log := log s |}.

Definition set_nitroliteClient (v : option Client) (s : Service) : Service :=
  {| config := config s; ws := ws s; connected := connected s; 
     authenticated := authenticated s; 
     reconnectAttempts := reconnectAttempts s; 
     userAddress := userAddress s; walletClient := walletClient s; 
     sessionKey := sessionKey s; sessionSigner := sessionSigner s; 
     activeStreamSession := activeStreamSession s; 
     _pendingRequests := _pendingRequests s; 
     brokerAddress := brokerAddress s; networkConfig := networkConfig s; 
     channelId := channelId s; _existingChannelId := _existingChannelId s; 
     _keepAliveInterval := _keepAliveInterval s; nitroliteClient := v; 
     publicClient := publicClient s; tokenAddress := tokenAddress s; 
     isDeposited := isDeposited s; log := log s |}.

Definition set_tokenAddress (v : option Address) (s : Service) : Service :=
  {| config := config s; ws := ws s; connected := connected s; 
     authenticated := authenticated s; 
     reconnectAttempts := reconnectAttempts s; 
     userAddress := userAddress s; walletClient := walletClient s; 
     sessionKey := sessionKey s; sessionSigner := sessionSigner s; 
     activeStreamSession := activeStreamSession s; 
     _pendingRequests := _pendingRequests s; 
     brokerAddress := brokerAddress s; networkConfig := networkConfig s; 
     channelId := channelId s; _existingChannelId := _existingChannelId s; 
     _keepAliveInterval := _keepAliveInterval s; 
     nitroliteClient := nitroliteClient s; publicClient := publicClient s; 
     tokenAddress := v; isDeposited := isDeposited s; log := log s |}.

Definition set_isDeposited (v : bool) (s : Service) : Service :=
  {| config := config s; ws := ws s; connected := connected s; 
     authenticated := authenticated s; 
     reconnectAttempts := reconnectAttempts s; 
     userAddress := userAddress s; walletClient := walletClient s; 
     sessionKey := sessionKey s; sessionSigner := sessionSigner s; 
     activeStreamSession := activeStreamSession s; 
     _pendingRequests := _pendingRequests s; 
     brokerAddress := brokerAddress s; networkConfig := networkConfig s; 
     channelId := channelId s; _existingChannelId := _existingChannelId s; 
     _keepAliveInterval := _keepAliveInterval s; 
     nitroliteClient := nitroliteClient s; publicClient := publicClient s; 
     tokenAddress := tokenAddress s; isDeposited := v; log := log s |}.

Definition set_reconnectAttempts (v : nat) (s : Service) : Service :=
  {| config := config s; ws := ws s; connected := connected s; 
     authenticated := authenticated s; reconnectAttempts := v; 
     userAddress := userAddress s; walletClient := walletClient s; 
     sessionKey := sessionKey s; sessionSigner := sessionSigner s; 
     activeStreamSession := activeStreamSession s; 
     _pendingRequests := _pendingRequests s; 
     brokerAddress := brokerAddress s; networkConfig := networkConfig s; 
     channelId := channelId s; _existingChannelId := _existingChannelId s; 
     _keepAliveInterval := _keepAliveInterval s; 
     nitroliteClient := nitroliteClient s; publicClient := publicClient s; 
     tokenAddress := tokenAddress s; isDeposited := isDeposited s; 
     log := log s |}.

Definition set_connected (v : bool) (s : Service) : Service :=
  {| config := config s; ws := ws s; connected := v; 
     authenticated := authenticated s; 
     reconnectAttempts := reconnectAttempts s; 
     userAddress := userAddress s; walletClient := walletClient s; 
     sessionKey := sessionKey s; sessionSigner := sessionSigner s; 
     activeStreamSession := activeStreamSession s; 
     _pendingRequests := _pendingRequests s; 
     brokerAddress := brokerAddress s; networkConfig := networkConfig s; 
     channelId := channelId s; _existingChannelId := _existingChannelId s; 
     _keepAliveInterval := _keepAliveInterval s; 
     nitroliteClient := nitroliteClient s; publicClient := publicClient s; 
     tokenAddress := tokenAddress s; isDeposited := isDeposited s; 
     log := log s |}.

Definition set_authenticated (v : bool) (s : Service) : Service :=
  {| config := config s; ws := ws s; connected := connected s; 
     authenticated := v; reconnectAttempts := reconnectAttempts s; 
     userAddress := userAddress s; walletClient := walletClient s; 
     sessionKey := sessionKey s; sessionSigner := sessionSigner s; 
     activeStreamSession := activeStreamSession s; 
     _pendingRequests := _pendingRequests s; 
     brokerAddress := brokerAddress s; networkConfig := networkConfig s; 
     channelId := channelId s; _existingChannelId := _existingChannelId s; 
     _keepAliveInterval := _keepAliveInterval s; 
     nitroliteClient := nitroliteClient s; publicClient := publicClient s; 
     tokenAddress := tokenAddress s; isDeposited := isDeposited s; 
     log := log s |}.

Definition set_ws (v : option Socket) (s : Service) : Service :=
  {| config := config s; ws := v; connected := connected s; 
     authenticated := authenticated s; 
     reconnectAttempts := reconnectAttempts s; 
     userAddress := userAddress s; walletClient := walletClient s; 
     sessionKey := sessionKey s; sessionSigner := sessionSigner s; 
     activeStreamSession := activeStreamSession s; 
     _pendingRequests := _pendingRequests s; 
     brokerAddress := brokerAddress s; networkConfig := networkConfig s; 
     channelId := channelId s; _existingChannelId := _existingChannelId s; 
     _keepAliveInterval := _keepAliveInterval s; 
     nitroliteClient := nitroliteClient s; publicClient := publicClient s; 
     tokenAddress := tokenAddress s; isDeposited := isDeposited s; 
     log := log s |}.

Definition set_brokerAddress (v : option Address) (s : Service) : Service :=
  {| config := config s; ws := ws s; connected := connected s; 
     authenticated := authenticated s; 
     reconnectAttempts := reconnectAttempts s; 
     userAddress := userAddress s; walletClient := walletClient s; 
     sessionKey := sessionKey s; sessionSigner := sessionSigner s; 
     activeStreamSession := activeStreamSession s; 
     _pendingRequests := _pendingRequests s; brokerAddress := v; 
     networkConfig := networkConfig s; channelId := channelId s; 
     _existingChannelId := _existingChannelId s; 
     _keepAliveInterval := _keepAliveInterval s; 
     nitroliteClient := nitroliteClient s; publicClient := publicClient s; 
     tokenAddress := tokenAddress s; isDeposited := isDeposited s; 
     log := log s |}.

Definition set_networkConfig (v : option (list Network)) (s : Service) : Service :=
  {| config := config s; ws := ws s; connected := connected s; 
     authenticated := authenticated s; 
     reconnectAttempts := reconnectAttempts s; 
     userAddress := userAddress s; walletClient := walletClient s; 
     sessionKey := sessionKey s; sessionSigner := sessionSigner s; 
     activeStreamSession := activeStreamSession s; 
     _pendingRequests := _pendingRequests s; 
     brokerAddress := brokerAddress s; networkConfig := v; 
     channelId := channelId s; _existingChannelId := _existingChannelId s; 
     _keepAliveInterval := _keepAliveInterval s; 
     nitroliteClient := nitroliteClient s; publicClient := publicClient s; 
     tokenAddress := tokenAddress s; isDeposited := isDeposited s; 
     log := log s |}.

(* ================================================================= *)
(** ** The collaborators *)

(** The outside world.  Each oracle is asked with the log so far.

    - [now]: [Date.now()].
    - [sdk_create]: the SDK's [create...Message] builders; they sign with
      the session key and may reject.
    - [socket_send]: [ws.send], which throws on a socket that is not open.
    - [rpc_reply]: how the promise of [_sendRPC] settles, given the expected
      method and the time-out in ms: the matching response, or the rejection
      (its time-out, or an error routed to it).
    - [allowance], [accountBalance], [channelData]: chain reads.
    - [submit]: the wallet and the chain on a transaction: its hash, or the
      rejection (user refusal, revert).
    - [createdChannel]: the channel id [createChannel] returns with the hash.
    - [receipt]: [waitForTransactionReceipt].
    - [parseUnits], [formatUnits]: viem's decimal conversions. *)
Record Env := {
  now : list Effect -> Z;
  sdk_create : list Effect -> Msg -> Result unit;
  socket_send : list Effect -> Socket -> Msg -> Result unit;
  rpc_reply : list Effect -> RPCMethod -> Z -> Result Response;
  allowance : list Effect -> Address -> option Address -> Address -> Result N;
  accountBalance : list Effect -> option Address -> Result N;
  channelData : list Effect -> ChannelId -> Result string;
  submit : list Effect -> Tx -> Result TxHash;
  createdChannel : list Effect -> SignedState -> ChannelId;
  receipt : list Effect -> TxHash -> Result unit;
  parseUnits : Q -> nat -> Z;
  formatUnits : N -> nat -> string
}.

(* ================================================================= *)
(** ** The monad of methods *)

Definition M (A : Type) : Type := Service -> Result A * Service.

Definition ret {A} (a : A) : M A := fun s => (Ok a, s).

Definition throw {A} (e : Error) : M A := fun s => (Throw e, s).

Definition bind {A B} (m : M A) (k : A -> M B) : M B :=
  fun s =>
    match m s with
    | (Ok a, s') => k a s'
    | (Throw e, s') => (Throw e, s')
    end.

(** [try { m } catch (e) { h e }]: what [m] did before it threw stays. *)
Definition try_catch {A} (m : M A) (h : Error -> M A) : M A :=
  fun s =>
    match m s with
    | (Ok a, s') => (Ok a, s')
    | (Throw e, s') => h e s'
    end.

Declare Scope js_scope.
Delimit Scope js_scope with js.
Notation "x <- m ;; k" := (bind m (fun x => k))
  (at level 61, m at next level, right associativity) : js_scope.
Notation "m ;; k" := (bind m (fun _ => k))
  (at level 61, right associativity) : js_scope.
Open Scope js_scope.

Definition get : M Service := fun s => (Ok s, s).

Definition modify (f : Service -> Service) : M unit := fun s => (Ok tt, f s).

Definition when (b : bool) (m : M unit) : M unit := if b then m else ret tt.

(** Append one entry to the log. *)
Definition record (e : Effect) : M unit :=
  modify (fun s => set_log (log s ++ [e]) s).

(** Ask an oracle, without an entry of its own. *)
Definition ask {A} (oracle : list Effect -> Result A) : M A :=
  fun s => (oracle (log s), s).

(** Do [e] and take the oracle's answer to it. *)
Definition perform {A} (e : Effect) (oracle : list Effect -> Result A) : M A :=
  record e ;; ask oracle.

(** The result and the final state of a run. *)
Definition result_of {A} (r : Result A * Service) : Result A := fst r.
Definition state_of {A} (r : Result A * Service) : Service := snd r.

(** [_triggerEvent(event, data)]: the handler registered for [event] is
    called with [data]; what it throws is caught and logged to the console. *)
Definition _triggerEvent (event : EventName) (data : Payload) : M unit :=
  record (Event event data).

Section Primitives.
Variable env : Env.

(** [this.ws.send(m)]: a [TypeError] when there is no socket. *)
Definition ws_send (m : Msg) : M unit :=
  s <- get ;;
  match ws s with
  | None => throw (TypeError "this.ws is null")
  | Some w => perform (Send w m) (fun l => socket_send env l w m)
  end.

(** [await create...Message(this.sessionSigner, ...)]. *)
Definition create (m : Msg) : M Msg :=
  ask (fun l => sdk_create env l m) ;; ret m.

(** A method of [this.nitroliteClient] or of the wallet that submits a
    transaction. *)
Definition send_tx (t : Tx) : M TxHash :=
  perform (Submit t) (fun l => submit env l t).

(** [await this.publicClient.waitForTransactionReceipt({ hash })]. *)
Definition waitForTransactionReceipt (h : TxHash) : M unit :=
  perform (Await (WReceipt h)) (fun l => receipt env l h).

(** [await this.nitroliteClient.getAccountBalance(token)]. *)
Definition getAccountBalance (token : option Address) : M N :=
  perform (Read (QAccountBalance token)) (fun l => accountBalance env l token).

End Primitives.

(* ================================================================= *)
(** ** RPC correlator *)

(** [this._pendingRequests]: a JavaScript [Map] keyed by the expected
    response method.  A [Map] iterates in insertion order of its keys, and
    [set] on a key that is present keeps the key's place; so it is a list of
    entries, oldest key first. *)
Module PendingMap.

Definition t := list (RPCMethod * Pending).

Fixpoint set (k : RPCMethod) (v : Pending) (m : t) : t :=
  match m with
  | [] => [(k, v)]
  | (k', v') :: m' =>
      if method_eqb k k' then (k, v) :: m' else (k', v') :: set k v m'
  end.

Definition delete (k : RPCMethod) (m : t) : t :=
  filter (fun kv => negb (method_eqb k (fst kv))) m.

Fixpoint get (k : RPCMethod) (m : t) : option Pending :=
  match m with
  | [] => None
  | (k', v) :: m' => if method_eqb k k' then Some v else get k m'
  end.

Definition has (k : RPCMethod) (m : t) : bool :=
  match get k m with Some _ => true | None => false end.

Definition size (m : t) : nat := length m.

(** [[...m.entries()]]. *)
Definition entries (m : t) : list (RPCMethod * Pending) := m.

(** No key twice: what [set] keeps. *)
Definition wf (m : t) : Prop := NoDup (map fst m).

End PendingMap.

(** The entry registered first and the entry registered last. *)
Definition oldest_entry (m : PendingMap.t) : option (RPCMethod * Pending) :=
  hd_error m.

Definition newest_entry (m : PendingMap.t) : option (RPCMethod * Pending) :=
  nth_error m (length m - 1).

(** What the message handler of the socket receives. *)
Inductive Inbound :=
| NonJson
| Malformed
| Parsed (r : Response).

Definition set_currentBalance (v : Q) (x : Session) : Session :=
  {| sessionId := sessionId x; streamerAddress := streamerAddress x;
     viewerAddress := viewerAddress x; initialDeposit := initialDeposit x;
     currentBalance := v; spent := spent x;
     commissionRate := commissionRate x; isPartner := isPartner x;
     createdAt := createdAt x; closedAt := closedAt x; status := status x |}.

(** [session.status = 'closed'; session.closedAt = t]. *)
Definition close_session (t : Z) (x : Session) : Session :=
  {| sessionId := sessionId x; streamerAddress := streamerAddress x;
     viewerAddress := viewerAddress x; initialDeposit := initialDeposit x;
     currentBalance := currentBalance x; spent := spent x;
     commissionRate := commissionRate x; isPartner := isPartner x;
     createdAt := createdAt x; closedAt := Some t; status := closed |}.

(** [session.spent += a; session.currentBalance -= a]. *)
Definition spend (a : Q) (x : Session) : Session :=
  {| sessionId := sessionId x; streamerAddress := streamerAddress x;
     viewerAddress := viewerAddress x; initialDeposit := initialDeposit x;
     currentBalance := currentBalance x - a; spent := spent x + a;
     commissionRate := commissionRate x; isPartner := isPartner x;
     createdAt := createdAt x; closedAt := closedAt x; status := status x |}.

Definition is_open (c : ChannelInfo) : bool :=
  String.eqb (ch_status c) "open" || String.eqb (ch_status c) "active".

Section Rpc.
Variable env : Env.

(** The default [timeout] of [_sendRPC], in ms. *)
Definition default_timeout : Z := 60000.

(** [_sendRPC(message, expectedMethod, timeout)], awaited.  The executor
    arms the timer, registers the entry and sends; a throw of [send]
    rejects the promise and leaves the entry to its timer.  Otherwise the
    promise settles with the response or the rejection, and whoever
    settles it ([_handleMessage], or the timer) has deleted the entry. *)
Definition _sendRPC (message : Msg) (expectedMethod : RPCMethod) (timeout : Z)
    : M Response :=
  s <- get ;;
  let p := {| promise := length (log s) |} in
  modify (fun s =>
    set_pendingRequests (PendingMap.set expectedMethod p (_pendingRequests s)) s) ;;
  ws_send env message ;;
  try_catch
    (response <- ask (fun l => rpc_reply env l expectedMethod timeout) ;;
     modify (fun s =>
       set_pendingRequests (PendingMap.delete expectedMethod (_pendingRequests s)) s) ;;
     ret response)
    (fun e =>
     modify (fun s =>
       set_pendingRequests (PendingMap.delete expectedMethod (_pendingRequests s)) s) ;;
     throw e).

(** The accesses [response.params.state...] of the flows. *)
Definition state_of_response (r : Response) : M SignedState :=
  match r_state r with
  | Some st => ret st
  | None => throw (TypeError "response.params.state is undefined")
  end.

(** [_getConfig()]: [None] is the [null] it returns when the request
    fails. *)
Definition _getConfig : M (option Response) :=
  try_catch
    (msg <- create env GetConfigMsg ;;
     response <- _sendRPC msg GetConfig 15000 ;;
     modify (set_networkConfig (r_networks response)) ;;
     modify (set_brokerAddress (r_brokerAddress response)) ;;
     let networks := match r_networks response with Some l => l | None => [] end in
     _triggerEvent onConfigReady (ConfigData networks (r_brokerAddress response)) ;;
     ret (Some response))
    (fun _ => ret None).

(** The balance of the default asset in a list of balances. *)
Definition asset_balance (s : Service) (balances : list (string * Q)) : option Q :=
  option_map snd
    (find (fun b => String.eqb (fst b) (defaultAsset (config s))) balances).

Definition on_balances (response : Response) : M unit :=
  s <- get ;;
  match r_balances response with
  | Some balances =>
      match asset_balance s balances, activeStreamSession s with
      | Some bal, Some session =>
          modify (set_activeStreamSession (Some (set_currentBalance bal session)))
      | _, _ => ret tt
      end
  | None => ret tt
  end ;;
  _triggerEvent onBalanceUpdate (BalanceData (r_balances response)).

(** The [switch] of [_handleMessage]: the standing handlers. *)
Definition standing_handler (response : Response) : M unit :=
  match r_method response with
  | BalanceUpdate => on_balances response
  | GetLedgerBalances => on_balances response
  | ChannelsUpdate =>
      s <- get ;;
      let channels := r_channels response in
      if (0 <? length channels)%nat && negb (truthy_str (channelId s)) then
        match find is_open channels with
        | Some openChannel =>
            modify (set_existingChannelId (ch_channelId openChannel))
        | None => ret tt
        end
      else ret tt
  | RpcError =>
      _triggerEvent onError
        (ErrorText clearnode_error (or_else (r_error response) None))
  | _ => ret tt
  end.

(** [_handleMessage(data)]. *)
Definition _handleMessage (data : Inbound) : M unit :=
  try_catch
    (match data with
     | NonJson => ret tt
     | Malformed => throw (External "parseAnyRPCResponse")
     | Parsed response =>
         s <- get ;;
         let pending := _pendingRequests s in
         match PendingMap.get (r_method response) pending with
         | Some p =>
             (* route to pending RPC requests first *)
             record (ClearTimeout (promise p)) ;;
             modify (set_pendingRequests
                       (PendingMap.delete (r_method response) pending)) ;;
             record (Resolve (promise p) response)
         | None =>
             if method_eqb (r_method response) RpcError
                && (0 <? PendingMap.size pending)%nat
             then
               (* route errors to pending requests *)
               let entries := PendingMap.entries pending in
               match nth_error entries (length entries - 1) with
               | Some (method, p) =>
                   record (ClearTimeout (promise p)) ;;
                   modify (set_pendingRequests (PendingMap.delete method pending)) ;;
                   record (Reject (promise p)
                             (RpcFailed (or_else (r_error response) None)))
               | None => throw (TypeError "entries[entries.length - 1] is undefined")
               end
             else standing_handler response
         end
     end)
    (fun _ => ret tt).

End Rpc.

(* ================================================================= *)
(** ** Channel lifecycle: cleanup, deposit, withdraw *)

Record Closed := {
  closed_channelId : ChannelId;
  closed_txHash : TxHash
}.

Record Drained := {
  amount : string;
  txHash : option TxHash
}.

(** The texts pushed to [results.errors]. *)
Inductive CleanupError :=
| CloseFailed (channel : ChannelId) (e : Error)
| DrainFailed (e : Error).

Record CleanupResults := {
  channelsClosed : list Closed;
  custodyDrained : option Drained;
  ledgerBalance : option string;
  errors : list CleanupError
}.

Record DepositResult := {
  dep_depositHash : TxHash;
  dep_channelId : ChannelId;
  dep_createTxHash : TxHash;
  dep_resizeTxHash : TxHash;
  dep_allocateTxHash : TxHash
}.

Record CloseResult := {
  closeTxHash : option TxHash;
  withdrawHash : option TxHash
}.

Definition push_closed (c : Closed) (r : CleanupResults) : CleanupResults :=
  {| channelsClosed := channelsClosed r ++ [c];
     custodyDrained := custodyDrained r;
     ledgerBalance := ledgerBalance r;
     errors := errors r |}.

Definition push_error (e : CleanupError) (r : CleanupResults) : CleanupResults :=
  {| channelsClosed := channelsClosed r;
     custodyDrained := custodyDrained r;
     ledgerBalance := ledgerBalance r;
     errors := errors r ++ [e] |}.

Definition set_custodyDrained (d : Drained) (r : CleanupResults) : CleanupResults :=
  {| channelsClosed := channelsClosed r;
     custodyDrained := Some d;
     ledgerBalance := ledgerBalance r;
     errors := errors r |}.

(** [(this.networkConfig?.networks || [])]. *)
Definition networks (s : Service) : list Network :=
  match networkConfig s with
  | Some l => l
  | None => []
  end.

Definition getSupportedChainIds (s : Service) : list ChainId :=
  map chainId (networks s).

Definition isChainSupported (s : Service) (chain : ChainId) : bool :=
  existsb (Z.eqb chain) (getSupportedChainIds s).

Definition _findNetworkForChain (s : Service) (chain : ChainId) : option Network :=
  find (fun n => Z.eqb (chainId n) chain) (networks s).

Definition new_NitroliteClient (custody adjudicator : Address) (chain : ChainId) : Client :=
  {| client_custody := custody;
     client_adjudicator := adjudicator;
     client_chainId := chain |}.

(** The [Set] of channel ids [deepCleanup] closes: the tracked one, then
    the observed one unless it is the same. *)
Definition channelsToClose (s : Service) : list ChannelId :=
  let tracked :=
    match channelId s with
    | Some c => if truthy_str (channelId s) then [c] else []
    | None => []
    end in
  match _existingChannelId s with
  | Some c =>
      if truthy_str (_existingChannelId s)
         && negb (existsb (String.eqb c) tracked)
      then tracked ++ [c] else tracked
  | None => tracked
  end.

Section Flows.
Variable env : Env.

(** [_closeStaleChannel(channelId, chainId, custodyAddress, adjudicatorAddress)]. *)
Definition _closeStaleChannel (channel : ChannelId) (chain : ChainId)
    (custody adjudicator : Address) : M unit :=
  s <- get ;;
  when (negb (is_some (nitroliteClient s)))
    (modify (set_nitroliteClient
               (Some (new_NitroliteClient custody adjudicator chain)))) ;;
  (* step 1: request close via WebSocket *)
  closeMsg <- create env (CloseChannelMsg channel (userAddress s)) ;;
  closeResponse <- _sendRPC env closeMsg CloseChannel default_timeout ;;
  (* step 2: close on-chain *)
  finalState <- state_of_response closeResponse ;;
  send_tx env (TxCloseChannel finalState) ;;
  (* step 3: withdraw any remaining custody balance *)
  try_catch
    (s <- get ;;
     if truthy_str (tokenAddress s) then
       custodyBalance <- getAccountBalance env (tokenAddress s) ;;
       if (0 <? custodyBalance)%N then
         wHash <- send_tx env (TxWithdrawal (tokenAddress s) custodyBalance) ;;
         waitForTransactionReceipt env wHash
       else ret tt
     else ret tt)
    (fun _ => ret tt) ;;
  modify (set_nitroliteClient None).

(** The loop of [deepCleanup] over the channels to close. *)
Fixpoint close_all (channels : list ChannelId) (results : CleanupResults)
    : M CleanupResults :=
  match channels with
  | [] => ret results
  | chId :: rest =>
      results' <-
        try_catch
          (s <- get ;;
           closeMsg <- create env (CloseChannelMsg chId (userAddress s)) ;;
           closeResponse <- _sendRPC env closeMsg CloseChannel default_timeout ;;
           finalState <- state_of_response closeResponse ;;
           closeTxHash <- send_tx env (TxCloseChannel finalState) ;;
           ret (push_closed {| closed_channelId := chId;
                               closed_txHash := closeTxHash |} results))
          (fun err => ret (push_error (CloseFailed chId err) results)) ;;
      close_all rest results'
  end.

(** [deepCleanup(chainId, tokenAddress)]. *)
Definition deepCleanup (chain : ChainId) (token : Address) : M CleanupResults :=
  s <- get ;;
  if negb (connected s) || negb (authenticated s) then throw NotConnected
  else if negb (publicClient s) then throw NoPublicClient
  else
    let results :=
      {| channelsClosed := []; custodyDrained := None;
         ledgerBalance := None; errors := [] |} in
    match _findNetworkForChain s chain with
    | None => throw (ChainUnsupported chain (getSupportedChainIds s))
    | Some network =>
        modify (set_tokenAddress (Some token)) ;;
        _triggerEvent onDepositProgress (Progress 1 4 TxtCleanupStart false) ;;
        (* step 1: ensure NitroliteClient *)
        when (negb (is_some (nitroliteClient s)))
          (modify (set_nitroliteClient
             (Some (new_NitroliteClient (custodyAddress network)
                      (adjudicatorAddress network) chain)))) ;;
        (* step 2: close all known channels *)
        let toClose := channelsToClose s in
        _triggerEvent onDepositProgress
          (Progress 2 4 (TxtClosingChannels (length toClose)) false) ;;
        results <- close_all toClose results ;;
        (* step 3: drain all custody balance *)
        _triggerEvent onDepositProgress (Progress 3 4 TxtDraining false) ;;
        results <-
          try_catch
            (custodyBalance <- getAccountBalance env (Some token) ;;
             if (0 <? custodyBalance)%N then
               let readable :=
                 formatUnits env custodyBalance (assetDecimals (config s)) in
               wHash <- send_tx env (TxWithdrawal (Some token) custodyBalance) ;;
               waitForTransactionReceipt env wHash ;;
               ret (set_custodyDrained
                      {| amount := readable; txHash := Some wHash |} results)
             else
               ret (set_custodyDrained
                      {| amount := "0"; txHash := None |} results))
            (fun err => ret (push_error (DrainFailed err) results)) ;;
        (* step 4: query ledger balance *)
        _triggerEvent onDepositProgress (Progress 4 4 TxtQueryingLedger false) ;;
        try_catch
          (balMsg <- create env (GetLedgerBalancesMsg None) ;;
           ws_send env balMsg ;;
           record (Await (WSleep 3000)))
          (fun _ => ret tt) ;;
        (* reset all internal state *)
        modify (set_channelId None) ;;
        modify (set_existingChannelId None) ;;
        modify (set_isDeposited false) ;;
        modify (set_nitroliteClient None) ;;
        modify (set_activeStreamSession None) ;;
        _triggerEvent onDepositProgress (Progress 4 4 TxtCleanupComplete true) ;;
        ret results
    end.

Definition TOTAL_STEPS : nat := 7.

(** Pre-check of the deposit: close a channel left from before. *)
Definition step0_close_stale (chain : ChainId) (custody adjudicator : Address)
    : M unit :=
  s <- get ;;
  let staleChannelId := or_else (channelId s) (_existingChannelId s) in
  match staleChannelId with
  | Some stale =>
      if truthy_str staleChannelId then
        _triggerEvent onDepositProgress (Progress 0 TOTAL_STEPS TxtClosingPrevious false) ;;
        try_catch (_closeStaleChannel stale chain custody adjudicator)
                  (fun _ => ret tt) ;;
        modify (set_channelId None) ;;
        modify (set_existingChannelId None) ;;
        modify (set_isDeposited false)
      else ret tt
  | None => ret tt
  end.

(** Step 1, and the drain of a custody balance left from before. *)
Definition step1_setup (chain : ChainId) (token custody adjudicator : Address)
    : M unit :=
  _triggerEvent onDepositProgress (Progress 1 TOTAL_STEPS TxtSettingUp false) ;;
  modify (set_nitroliteClient
            (Some (new_NitroliteClient custody adjudicator chain))) ;;
  try_catch
    (existingCustody <- getAccountBalance env (Some token) ;;
     if (0 <? existingCustody)%N then
       drainHash <- send_tx env (TxWithdrawal (Some token) existingCustody) ;;
       waitForTransactionReceipt env drainHash
     else ret tt)
    (fun _ => ret tt).

(** Step 2: approve the token for the custody contract. *)
Definition step2_approve (amount : Q) (amountInUnits : Z)
    (token custody : Address) : M unit :=
  _triggerEvent onDepositProgress (Progress 2 TOTAL_STEPS TxtCheckingApproval false) ;;
  s <- get ;;
  currentAllowance <-
    perform (Read (QAllowance token (userAddress s) custody))
            (fun l => allowance env l token (userAddress s) custody) ;;
  if (Z.of_N currentAllowance <? amountInUnits)%Z then
    _triggerEvent onDepositProgress
      (Progress 2 TOTAL_STEPS (TxtApproving amount) false) ;;
    approveHash <- send_tx env (TxApprove token custody amountInUnits) ;;
    waitForTransactionReceipt env approveHash
  else ret tt.

(** Step 3: deposit to custody. *)
Definition step3_deposit (amount : Q) (amountInUnits : Z) (token : Address)
    : M TxHash :=
  _triggerEvent onDepositProgress
    (Progress 3 TOTAL_STEPS (TxtDepositing amount) false) ;;
  depositHash <- send_tx env (TxDeposit token amountInUnits) ;;
  waitForTransactionReceipt env depositHash ;;
  ret depositHash.

(** Step 4: create the channel, over the socket and on-chain. *)
Definition step4_create_channel (chain : ChainId) (token : Address)
    : M (ChannelId * TxHash) :=
  _triggerEvent onDepositProgress (Progress 4 TOTAL_STEPS TxtCreatingChannel false) ;;
  createChannelMsg <- create env (CreateChannelMsg chain token) ;;
  channelResponse <- _sendRPC env createChannelMsg CreateChannel default_timeout ;;
  unsignedInitialState <- state_of_response channelResponse ;;
  createTxHash <- send_tx env (TxCreateChannel unsignedInitialState) ;;
  created <- ask (fun l => Ok (createdChannel env l unsignedInitialState)) ;;
  modify (set_channelId (Some created)) ;;
  record (Await (WChannelReady created 30000)) ;;
  ret (created, createTxHash).

(** Step 5: resize, custody to channel. *)
Definition step5_resize (channel : ChannelId) (amountInUnits : Z) : M TxHash :=
  _triggerEvent onDepositProgress (Progress 5 TOTAL_STEPS TxtLocking false) ;;
  s <- get ;;
  resizeMsg <- create env (ResizeMsg channel amountInUnits (userAddress s)) ;;
  resizeResponse <- _sendRPC env resizeMsg ResizeChannel default_timeout ;;
  prevStateForResize <-
    perform (Read (QChannelData channel)) (fun l => channelData env l channel) ;;
  resizeState <- state_of_response resizeResponse ;;
  resizeTxHash <- send_tx env (TxResize resizeState prevStateForResize) ;;
  record (Await (WResizeProcessed channel 30000)) ;;
  ret resizeTxHash.

(** Step 6: allocate, channel to unified balance. *)
Definition step6_allocate (channel : ChannelId) (amountInUnits : Z) : M TxHash :=
  _triggerEvent onDepositProgress (Progress 6 TOTAL_STEPS TxtMovingToUnified false) ;;
  s <- get ;;
  allocateMsg <- create env (AllocateMsg channel amountInUnits (brokerAddress s)) ;;
  allocateResponse <- _sendRPC env allocateMsg ResizeChannel default_timeout ;;
  prevStateForAllocate <-
    perform (Read (QChannelData channel)) (fun l => channelData env l channel) ;;
  resizeState <- state_of_response allocateResponse ;;
  send_tx env (TxResize resizeState prevStateForAllocate).

(** Step 7: wait for the ledger balance. *)
Definition step7_confirm (amount : Q) : M unit :=
  _triggerEvent onDepositProgress (Progress 7 TOTAL_STEPS TxtConfirming false) ;;
  record (Await (WDepositConfirmed 120000)) ;;
  modify (set_isDeposited true) ;;
  _triggerEvent onDepositProgress
    (Progress TOTAL_STEPS TOTAL_STEPS (TxtReady amount) true).

(** [depositAndOpenChannel(amount, chainId, tokenAddress)]. *)
Definition depositAndOpenChannel (amount : Q) (chain : ChainId) (token : Address)
    : M DepositResult :=
  s <- get ;;
  if negb (connected s) || negb (authenticated s) then throw NotConnected
  else if negb (publicClient s) then throw NoPublicClient
  else
    match _findNetworkForChain s chain with
    | None => throw (ChainUnsupported chain (getSupportedChainIds s))
    | Some network =>
        modify (set_tokenAddress (Some token)) ;;
        let custody := custodyAddress network in
        let adjudicator := adjudicatorAddress network in
        let amountInUnits := parseUnits env amount (assetDecimals (config s)) in
        step0_close_stale chain custody adjudicator ;;
        step1_setup chain token custody adjudicator ;;
        step2_approve amount amountInUnits token custody ;;
        depositHash <- step3_deposit amount amountInUnits token ;;
        created <- step4_create_channel chain token ;;
        resizeTxHash <- step5_resize (fst created) amountInUnits ;;
        allocateTxHash <- step6_allocate (fst created) amountInUnits ;;
        step7_confirm amount ;;
        ret {| dep_depositHash := depositHash;
               dep_channelId := fst created;
               dep_createTxHash := snd created;
               dep_resizeTxHash := resizeTxHash;
               dep_allocateTxHash := allocateTxHash |}
    end.

(** [closeChannelAndWithdraw()]: [None] is the [null] it returns without
    a client. *)
Definition closeChannelAndWithdraw : M (option CloseResult) :=
  s <- get ;;
  if negb (is_some (nitroliteClient s)) then ret None
  else
    try_catch
      (let TOTAL_STEPS := if truthy_str (channelId s) then 2%nat else 1%nat in
       (* step 1: close channel (WS + on-chain) *)
       closeTxHash <-
         match channelId s with
         | Some channel =>
             if truthy_str (channelId s) then
               _triggerEvent onWithdrawProgress
                 (Progress 1 TOTAL_STEPS TxtClosingChannel false) ;;
               closeMsg <- create env (CloseChannelMsg channel (userAddress s)) ;;
               closeResponse <- _sendRPC env closeMsg CloseChannel default_timeout ;;
               finalState <- state_of_response closeResponse ;;
               hash <- send_tx env (TxCloseChannel finalState) ;;
               ret (Some hash)
             else ret None
         | None => ret None
         end ;;
       (* step 2: withdraw remaining funds from custody *)
       _triggerEvent onWithdrawProgress
         (Progress TOTAL_STEPS TOTAL_STEPS TxtWithdrawing false) ;;
       withdrawHash <-
         try_catch
           (custodyBalance <- getAccountBalance env (tokenAddress s) ;;
            if (0 <? custodyBalance)%N then
              hash <- send_tx env (TxWithdrawal (tokenAddress s) custodyBalance) ;;
              (* [withdrawHash] is assigned before the receipt is awaited *)
              try_catch (waitForTransactionReceipt env hash) (fun _ => ret tt) ;;
              ret (Some hash)
            else ret None)
           (fun _ => ret None) ;;
       (* clean up channel state *)
       modify (set_channelId None) ;;
       modify (set_isDeposited false) ;;
       _triggerEvent onWithdrawProgress
         (Progress TOTAL_STEPS TOTAL_STEPS TxtWithdrawalComplete true) ;;
       ret (Some {| closeTxHash := closeTxHash; withdrawHash := withdrawHash |}))
      (fun err =>
       _triggerEvent onError (ErrorInfo withdraw_error (Some err)) ;;
       throw err).

End Flows.

(* ================================================================= *)
(** ** Session ledger *)

Record SessionCreated := {
  created_sessionId : Z;
  created_deposit : Q;
  created_commissionRate : Q;
  created_session : Session
}.

Record TipResult := {
  tipAmount : Q;
  commission : Q;
  creatorReceives : Q;
  remainingBalance : Q;
  totalSpent : Q
}.

(** [_toAssetUnits(dollarAmount)]. *)
Definition _toAssetUnits (s : Service) (dollarAmount : Q) : Z :=
  Qfloor (dollarAmount * inject_Z (10 ^ Z.of_nat (assetDecimals (config s)))).

Section Ledger.
Variable env : Env.

(** [createStreamSession(streamerAddress, depositAmount, { isPartner })]. *)
Definition createStreamSession (streamer : Address) (depositAmount : Q)
    (partner : bool) : M SessionCreated :=
  s <- get ;;
  if negb (connected s) || negb (authenticated s) then throw NotConnected
  else if negb (truthy_str (Some streamer)) || negb (truthy_num depositAmount)
  then throw SessionArgsRequired
  else
    try_catch
      (let rate :=
         if partner then partnerCommission (config s)
         else standardCommission (config s) in
       t <- ask (fun l => Ok (now env l)) ;;
       let session :=
         {| sessionId := t;
            streamerAddress := streamer;
            viewerAddress := userAddress s;
            initialDeposit := depositAmount;
            currentBalance := depositAmount;
            spent := 0;
            commissionRate := rate;
            isPartner := partner;
            createdAt := t;
            closedAt := None;
            status := active |} in
       modify (set_activeStreamSession (Some session)) ;;
       when (sessionSigner s)
         (try_catch
            (balancePayload <- create env (GetLedgerBalancesMsg (userAddress s)) ;;
             ws_send env balancePayload)
            (fun _ => ret tt)) ;;
       _triggerEvent onSessionCreated (SessionInfo t) ;;
       ret {| created_sessionId := t;
              created_deposit := depositAmount;
              created_commissionRate := rate;
              created_session := session |})
      (fun error =>
       _triggerEvent onError (ErrorInfo session_creation_error (Some error)) ;;
       throw error).

(** [sendTip(tipAmount, streamerAddress, message)]. *)
Definition sendTip (tip : Q) (streamer : Address) (message : string)
    : M TipResult :=
  s <- get ;;
  match activeStreamSession s with
  | None => throw NoActiveSession
  | Some session =>
      if negb (String.eqb (streamerAddress session) streamer)
      then throw DifferentStreamer
      else if num_le tip 0 then throw TipNotPositive
      else if num_gt tip (currentBalance session) then throw InsufficientBalance
      else
        try_catch
          (let commissionAmount := tip * (commissionRate session / 100) in
           let receives := tip - commissionAmount in
           (* send transfer via Nitrolite SDK *)
           when (sessionSigner s && connected s && authenticated s)
             (try_catch
                (transferPayload <-
                   create env (TransferMsg streamer (defaultAsset (config s)) tip) ;;
                 ws_send env transferPayload)
                (fun _ => ret tt)) ;;
           (* update local session state (optimistic) *)
           let session' := spend tip session in
           modify (set_activeStreamSession (Some session')) ;;
           _triggerEvent onTipSent
             (TipData
                {| tip_amount := tip;
                   tip_amountInUnits := _toAssetUnits s tip;
                   tip_recipient := streamer;
                   tip_message := message;
                   tip_commission := commissionAmount;
                   tip_creatorReceives := receives;
                   tip_remainingBalance := currentBalance session';
                   tip_totalSpent := spent session' |}) ;;
           ret {| tipAmount := tip;
                  commission := commissionAmount;
                  creatorReceives := receives;
                  remainingBalance := currentBalance session';
                  totalSpent := spent session' |})
          (fun error =>
           _triggerEvent onError (ErrorInfo tip_error (Some error)) ;;
           throw error)
  end.

(** [endStreamSession()]. *)
Definition endStreamSession : M SessionSummary :=
  s <- get ;;
  match activeStreamSession s with
  | None => throw NoSessionToEnd
  | Some session0 =>
      try_catch
        (t <- ask (fun l => Ok (now env l)) ;;
         let session := close_session t session0 in
         modify (set_activeStreamSession (Some session)) ;;
         withdrawn <-
           (if is_some (nitroliteClient s) then
              try_catch (closeChannelAndWithdraw env) (fun _ => ret None)
            else ret None) ;;
         let sessionSummary :=
           {| sum_sessionId := sessionId session;
              sum_duration := t - createdAt session;
              sum_totalDeposited := initialDeposit session;
              sum_totalSpent := spent session;
              sum_unusedBalance := currentBalance session;
              sum_commissionRate := commissionRate session;
              sum_closeTxHash :=
                match withdrawn with Some r => closeTxHash r | None => None end;
              sum_withdrawHash :=
                match withdrawn with Some r => withdrawHash r | None => None end |} in
         _triggerEvent onSessionClosed (SummaryData sessionSummary) ;;
         modify (set_activeStreamSession None) ;;
         ret sessionSummary)
        (fun error =>
         _triggerEvent onError (ErrorInfo session_close_error (Some error)) ;;
         throw error)
  end.




End Ledger.


(* ================================================================= *)
(** ** Connection manager *)

Section Connection.

(** [_stopKeepAlive()] and [_startKeepAlive()]. *)
Definition _stopKeepAlive : M unit :=
  s <- get ;;
  if _keepAliveInterval s then
    record (ClearInterval KeepAlive) ;;
    modify (set_keepAliveInterval false)
  else ret tt.

Definition _startKeepAlive : M unit :=
  _stopKeepAlive ;;
  record (SetInterval KeepAlive 25000) ;;
  modify (set_keepAliveInterval true).

(** The delay [Math.min(1000 * Math.pow(2, attempts), 30000)]. *)
Definition reconnect_delay (attempts : nat) : Z :=
  Z.min (1000 * 2 ^ Z.of_nat attempts) 30000.

(** [_attemptReconnect()]: the timer it sets runs [reconnect_task]. *)
Definition _attemptReconnect : M unit :=
  s <- get ;;
  if (reconnectAttempts s <? maxReconnectAttempts)%nat then
    modify (set_reconnectAttempts (S (reconnectAttempts s))) ;;
    s <- get ;;
    let delay := reconnect_delay (reconnectAttempts s) in
    record (SetTimeout Reconnect delay)
  else
    _triggerEvent onError
      (ErrorText max_reconnect_attempts
                 (Some "Could not reconnect to Yellow Network")).

(** The handlers [_connectToClearNode] installs on the socket. *)
Definition ws_onopen : M unit :=
  modify (set_connected true) ;;
  modify (set_reconnectAttempts 0) ;;
  _startKeepAlive ;;
  _triggerEvent onConnected NoData.

Definition ws_onerror : M unit :=
  _triggerEvent onError
    (ErrorText connection_error (Some "Failed to connect to Yellow Network")).

Definition ws_onclose : M unit :=
  modify (set_connected false) ;;
  modify (set_authenticated false) ;;
  _stopKeepAlive ;;
  _triggerEvent onDisconnected NoData ;;
  _attemptReconnect.

(** The synchronous part of [_connectToClearNode()]: a new socket. *)
Definition _connectToClearNode : M unit :=
  s <- get ;;
  let socket := length (log s) in
  record (NewWebSocket socket) ;;
  modify (set_ws (Some socket)).

(** A reconnect attempt that fails: the timer fires, the new socket
    reports an error and closes without having opened. *)
Definition failed_attempt : M unit :=
  _connectToClearNode ;; ws_onerror ;; ws_onclose.



(** [disconnect()]. *)
Definition disconnect : M unit :=
  _stopKeepAlive ;;
  s <- get ;;
  match ws s with
  | Some socket => record (CloseSocket socket) ;; modify (set_ws None)
  | None => ret tt
  end ;;
  modify (set_connected false) ;;
  modify (set_authenticated false) ;;
  modify (set_channelId None) ;;
  modify (set_nitroliteClient None) ;;
  modify (set_isDeposited false) ;;
  s <- get ;;
  fold_right (fun kv m => record (ClearTimeout (promise (snd kv))) ;; m)
             (ret tt) (_pendingRequests s) ;;
  modify (set_pendingRequests []).

End Connection.

(** The delays of the reconnect timers set in a stretch of log, the
    sockets opened in it, and the terminal errors raised in it. *)
Definition reconnect_delays (l : list Effect) : list Z :=
  flat_map (fun e => match e with SetTimeout Reconnect ms => [ms] | _ => [] end) l.

Definition sockets_opened (l : list Effect) : nat :=
  length (filter (fun e => match e with NewWebSocket _ => true | _ => false end) l).

Definition terminal_errors (l : list Effect) : nat :=
  length (filter (fun e =>
            match e with
            | Event onError (ErrorText max_reconnect_attempts _) => true
            | _ => false
            end) l).

(* ================================================================= *)
(** ** Authenticator *)

(** [_authenticateWithNitrolite()] returns a promise and leaves behind a
    timer and two listeners on the socket; what happens next is decided by
    the events that reach them.  The handshake is therefore a state and a
    step function over those events.  The awaited calls inside the
    handlers ([createAuthRequestMessage], [createAuthVerifyMessage]) are
    suspension points: their continuation is an event of its own, and any
    other event may come first. *)
Module Auth.

(** The two temporary handlers of the handshake. *)
Inductive Temporary := onAuthMessage | onClose.

(** A listener registered on a socket: a temporary handler of this
    handshake, or some other listener (the persistent message handler of
    the connection, a handler of an earlier handshake). *)
Inductive Listener :=
| Temp (h : Temporary)
| Other (id : nat).

Inductive Outcome :=
| Resolved
| Rejected (e : Error).

(** The service, the listeners registered per socket, the 30 s timer,
    the promise ([None] while pending), whether the request is still being
    built, how many challenge handlers wait for the wallet's signature, and
    the stored token. *)
Record Handshake := {
  service : Service;
  listeners : list (Socket * Listener);
  authTimeout : bool;
  settled : option Outcome;
  requesting : bool;
  signing : nat;
  jwt : option string
}.

Definition set_service (v : Service) (st : Handshake) : Handshake :=
  {| service := v; listeners := listeners st; authTimeout := authTimeout st;
     settled := settled st; requesting := requesting st;
     signing := signing st; jwt := jwt st |}.

Definition set_listeners (v : list (Socket * Listener)) (st : Handshake) : Handshake :=
  {| service := service st; listeners := v; authTimeout := authTimeout st;
     settled := settled st; requesting := requesting st;
     signing := signing st; jwt := jwt st |}.

Definition set_authTimeout (v : bool) (st : Handshake) : Handshake :=
  {| service := service st; listeners := listeners st; authTimeout := v;
     settled := settled st; requesting := requesting st;
     signing := signing st; jwt := jwt st |}.

Definition set_settled (v : option Outcome) (st : Handshake) : Handshake :=
  {| service := service st; listeners := listeners st; authTimeout := authTimeout st;
     settled := v; requesting := requesting st;
     signing := signing st; jwt := jwt st |}.

Definition set_requesting (v : bool) (st : Handshake) : Handshake :=
  {| service := service st; listeners := listeners st; authTimeout := authTimeout st;
     settled := settled st; requesting := v;
     signing := signing st; jwt := jwt st |}.

Definition set_signing (v : nat) (st : Handshake) : Handshake :=
  {| service := service st; listeners := listeners st; authTimeout := authTimeout st;
     settled := settled st; requesting := requesting st;
     signing := v; jwt := jwt st |}.

Definition set_jwt (v : option string) (st : Handshake) : Handshake :=
  {| service := service st; listeners := listeners st; authTimeout := authTimeout st;
     settled := settled st; requesting := requesting st;
     signing := signing st; jwt := v |}.

Definition is_temp (l : Listener) : bool :=
  match l with Temp _ => true | Other _ => false end.

Definition temp_eqb (a b : Temporary) : bool :=
  match a, b with
  | onAuthMessage, onAuthMessage => true
  | onClose, onClose => true
  | _, _ => false
  end.

Definition is_handler (w : Socket) (h : Temporary) (e : Socket * Listener) : bool :=
  match snd e with
  | Temp h' => Nat.eqb (fst e) w && temp_eqb h h'
  | Other _ => false
  end.

(** [w.addEventListener(kind, h)] and [w.removeEventListener(kind, h)]. *)
Definition addEventListener (w : Socket) (h : Temporary) (st : Handshake) : Handshake :=
  set_listeners (listeners st ++ [(w, Temp h)]) st.

Definition removeEventListener (w : Socket) (h : Temporary) (st : Handshake) : Handshake :=
  set_listeners (filter (fun e => negb (is_handler w h e)) (listeners st)) st.

Definition registered (w : Socket) (h : Temporary) (st : Handshake) : bool :=
  existsb (is_handler w h) (listeners st).

(** The temporary handlers still registered, on any socket. *)
Definition temporary_listeners (st : Handshake) : list (Socket * Listener) :=
  filter (fun e => is_temp (snd e)) (listeners st).

(** The [cleanup] helper. *)
Definition cleanup (st : Handshake) : Handshake :=
  let st := set_authTimeout false st in
  match ws (service st) with
  | Some w => removeEventListener w onClose (removeEventListener w onAuthMessage st)
  | None => st
  end.

(** [resolve()] and [reject(e)]: a settled promise stays as it is. *)
Definition settle (o : Outcome) (st : Handshake) : Handshake :=
  match settled st with
  | None => set_settled (Some o) st
  | Some _ => st
  end.

(** What can reach the handshake: an event on a socket, the timer, and the
    return of an awaited call. *)
Inductive Input :=
| Message (w : Socket) (data : Inbound)
| SocketClosed (w : Socket)
| TimerFired
| RequestReady
| SignatureReady.

Section Steps.
Variable env : Env.

(** The call itself, up to the first [await]. *)
Definition start (s : Service) (others : list (Socket * nat)) : Handshake :=
  let st :=
    {| service := s;
       listeners := map (fun e => (fst e, Other (snd e))) others;
       authTimeout := false; settled := None; requesting := false;
       signing := 0; jwt := None |} in
  if negb (walletClient s) || negb (sessionKey s) then
    set_settled (Some (Rejected AuthPrerequisites)) st
  else
    let st := set_authTimeout true st in
    match ws s with
    | None =>
        (* [this.ws.addEventListener] throws inside the executor: the
           promise stays pending, only the timer is left *)
        st
    | Some w =>
        set_requesting true
          (addEventListener w onAuthMessage (addEventListener w onClose st))
    end.

(** The body of [onAuthMessage] for a parsed response. *)
Definition on_response (response : Response) (st : Handshake) : Handshake :=
  match r_method response with
  | AuthChallenge => set_signing (S (signing st)) st
  | AuthVerify =>
      match r_success response with
      | Some false => st
      | _ =>
          let st := set_service (set_authenticated true (service st)) st in
          let st := cleanup st in
          let st :=
            if truthy_str (r_jwtToken response)
            then set_jwt (r_jwtToken response) st else st in
          settle Resolved st
      end
  | RpcError =>
      settle (Rejected (AuthFailed (or_else (r_error response) None)))
             (cleanup st)
  | _ => st
  end.

Definition step (i : Input) (st : Handshake) : Handshake :=
  match i with
  | Message w data =>
      if registered w onAuthMessage st then
        match data with
        | NonJson => st
        | Malformed => st
        | Parsed response => on_response response st
        end
      else st
  | SocketClosed w =>
      if registered w onClose st
      then settle (Rejected ConnectionLost) (cleanup st)
      else st
  | TimerFired =>
      if authTimeout st
      then settle (Rejected AuthTimeout) (cleanup st)
      else st
  | RequestReady =>
      if requesting st then
        let st := set_requesting false st in
        match (authPayload <- create env AuthRequestMsg ;;
               ws_send env authPayload) (service st) with
        | (Ok _, s') => set_service s' st
        | (Throw err, s') => settle (Rejected err) (cleanup (set_service s' st))
        end
      else st
  | SignatureReady =>
      match signing st with
      | O => st
      | S n =>
          let st := set_signing n st in
          match (verifyPayload <- create env AuthVerifyMsg ;;
                 ws_send env verifyPayload) (service st) with
          | (Ok _, s') => set_service s' st
          | (Throw _, s') =>
              settle (Rejected SignatureRejected) (cleanup (set_service s' st))
          end
      end
  end.

Definition run (inputs : list Input) (st : Handshake) : Handshake :=
  fold_left (fun st i => step i st) inputs st.

End Steps.



End Auth.

(* ================================================================= *)
(** ** The constructor, and concrete worlds to run the model in *)

(** [new YellowTokService(config)] with the default configuration. *)
Definition default_config : Config :=
  {| standardCommission := 10;
     partnerCommission := 3;
     defaultAsset := "usdc";
     assetDecimals := 6 |}.

Definition new_YellowTokService (c : Config) : Service :=
  {| config := c;
     ws := None; connected := false; authenticated := false;
     reconnectAttempts := 0;
     userAddress := None; walletClient := false;
     sessionKey := false; sessionSigner := false;
     activeStreamSession := None;
     _pendingRequests := []; brokerAddress := None; networkConfig := None;
     channelId := None; _existingChannelId := None;
     _keepAliveInterval := false;
     nitroliteClient := None; publicClient := false; tokenAddress := None;
     isDeposited := false;
     log := [] |}.

Module Demo.

Definition state0 : SignedState :=
  {| st_channelId := "0xc1"; st_version := 1; st_payload := "" |}.

Definition reply (m : RPCMethod) : Response :=
  {| r_method := m; r_state := Some state0; r_error := None;
     r_success := None; r_jwtToken := None;
     r_brokerAddress := None; r_networks := None;
     r_balances := None; r_channels := [] |}.

(** A world where every call succeeds and custody holds [custody]. *)
Definition world (custody : N) (allowed : N) : Env :=
  {| now := fun _ => 1700000000000%Z;
     sdk_create := fun _ _ => Ok tt;
     socket_send := fun _ _ _ => Ok tt;
     rpc_reply := fun _ m _ => Ok (reply m);
     allowance := fun _ _ _ _ => Ok allowed;
     accountBalance := fun _ _ => Ok custody;
     channelData := fun _ _ => Ok "last";
     submit := fun _ _ => Ok "0xhash";
     createdChannel := fun _ _ => "0xc1";
     receipt := fun _ _ => Ok tt;
     parseUnits := fun q d => Qfloor (q * inject_Z (10 ^ Z.of_nat d));
     formatUnits := fun _ _ => "n" |}.

(** The same world with a socket that throws on [send]. *)
Definition broken_socket : Env :=
  {| now := fun _ => 1700000000000%Z;
     sdk_create := fun _ _ => Ok tt;
     socket_send := fun _ _ _ => Throw (External "WebSocket is not open");
     rpc_reply := fun _ m _ => Ok (reply m);
     allowance := fun _ _ _ _ => Ok 0%N;
     accountBalance := fun _ _ => Ok 0%N;
     channelData := fun _ _ => Ok "last";
     submit := fun _ _ => Ok "0xhash";
     createdChannel := fun _ _ => "0xc1";
     receipt := fun _ _ => Ok tt;
     parseUnits := fun q d => Qfloor (q * inject_Z (10 ^ Z.of_nat d));
     formatUnits := fun _ _ => "n" |}.

(** A world whose wallet refuses to sign the verification. *)
Definition refusing_wallet : Env :=
  {| now := fun _ => 1700000000000%Z;
     sdk_create := fun _ m =>
       match m with
       | AuthVerifyMsg => Throw (External "User rejected the request")
       | _ => Ok tt
       end;
     socket_send := fun _ _ _ => Ok tt;
     rpc_reply := fun _ m _ => Ok (reply m);
     allowance := fun _ _ _ _ => Ok 0%N;
     accountBalance := fun _ _ => Ok 0%N;
     channelData := fun _ _ => Ok "last";
     submit := fun _ _ => Ok "0xhash";
     createdChannel := fun _ _ => "0xc1";
     receipt := fun _ _ => Ok tt;
     parseUnits := fun q d => Qfloor (q * inject_Z (10 ^ Z.of_nat d));
     formatUnits := fun _ _ => "n" |}.

Definition base_network : Network :=
  {| chainId := 8453%Z; custodyAddress := "0xcustody";
     adjudicatorAddress := "0xadjudicator" |}.

(** The service after a successful [initialize]: socket open,
    authenticated, configuration fetched. *)
Definition online : Service :=
  {| config := default_config;
     ws := Some 1%nat; connected := true; authenticated := true;
     reconnectAttempts := 0;
     userAddress := Some "0xviewer"; walletClient := true;
     sessionKey := true; sessionSigner := true;
     activeStreamSession := None;
     _pendingRequests := []; brokerAddress := Some "0xbroker";
     networkConfig := Some [base_network];
     channelId := None; _existingChannelId := None;
     _keepAliveInterval := true;
     nitroliteClient := None; publicClient := true; tokenAddress := None;
     isDeposited := false;
     log := [] |}.

(** The same service after its connection dropped. *)
Definition offline : Service :=
  set_authenticated false (set_connected false online).

Definition client : Client :=
  new_NitroliteClient "0xcustody" "0xadjudicator" 8453%Z.

(** After a deposit: a client and a channel. *)
Definition deposited : Service :=
  set_tokenAddress (Some "0xusdc")
    (set_channelId (Some "0xc1") (set_nitroliteClient (Some client) online)).

(** With a client but no channel. *)
Definition no_channel : Service :=
  set_tokenAddress (Some "0xusdc") (set_nitroliteClient (Some client) online).

(** [createStreamSession("0xstreamer", budget)] on [online]: what it
    returns with the session it creates, and the service afterwards. *)
Definition open_session (budget : Q) : SessionCreated * Session :=
  let session :=
    {| sessionId := 1700000000000; streamerAddress := "0xstreamer";
       viewerAddress := Some "0xviewer"; initialDeposit := budget;
       currentBalance := budget; spent := 0; commissionRate := 10;
       isPartner := false; createdAt := 1700000000000; closedAt := None;
       status := active |} in
  ({| created_sessionId := 1700000000000; created_deposit := budget;
      created_commissionRate := 10; created_session := session |}, session).

Definition funded : Service :=
  state_of (createStreamSession (world 0 0) "0xstreamer" 5 false online).


(** Two requests in flight, [GetConfig] sent before [CloseChannel],
    and an error message of the node. *)
Definition two_pending : Service :=
  set_pendingRequests
    (PendingMap.set CloseChannel {| promise := 2 |}
       (PendingMap.set GetConfig {| promise := 1 |} []))
    online.

Definition failure : Response :=
  {| r_method := RpcError; r_state := None; r_error := Some "boom";
     r_success := None; r_jwtToken := None;
     r_brokerAddress := None; r_networks := None;
     r_balances := None; r_channels := [] |}.

(** The service between [_connectToClearNode] and the handshake, with
    the persistent message handler of the connection on its socket. *)
Definition connecting : Service := set_authenticated false online.

Definition persistent : list (Socket * nat) := [(1%nat, 0%nat)].

Definition challenge : Response := reply AuthChallenge.

Definition verified : Response :=
  {| r_method := AuthVerify; r_state := None; r_error := None;
     r_success := Some true; r_jwtToken := Some "jwt";
     r_brokerAddress := None; r_networks := None;
     r_balances := None; r_channels := [] |}.

End Demo.

(* ================================================================= *)
(** ** Vocabulary of the properties *)

(** The checks of [sendTip], in the order the method makes them. *)
Definition tip_rejection (s : Service) (tip : Q) (streamer : Address) : option Error :=
  match activeStreamSession s with
  | None => Some NoActiveSession
  | Some session =>
      if negb (String.eqb (streamerAddress session) streamer) then Some DifferentStreamer
      else if num_le tip 0 then Some TipNotPositive
      else if num_gt tip (currentBalance session) then Some InsufficientBalance
      else None
  end.

(** The payload of the [onTipSent] event for an accepted tip. *)
Definition tip_info (s : Service) (session : Session) (tip : Q)
    (streamer : Address) (message : string) : TipInfo :=
  {| tip_amount := tip;
     tip_amountInUnits := _toAssetUnits s tip;
     tip_recipient := streamer;
     tip_message := message;
     tip_commission := tip * (commissionRate session / 100);
     tip_creatorReceives := tip - tip * (commissionRate session / 100);
     tip_remainingBalance := currentBalance session - tip;
     tip_totalSpent := spent session + tip |}.


(** The attempt of [sendTip] to reach the remote node. *)
Definition transfer_attempt (env : Env) (s : Service) (tip : Q) (streamer : Address)
    : M unit :=
  transferPayload <- create env (TransferMsg streamer (defaultAsset (config s)) tip) ;;
  ws_send env transferPayload.

(** The withdrawal a balance read calls for: none when the read fails or
    answers zero. *)
Definition withdrawal_for (token : option Address) (answer : Result N) : list Effect :=
  match answer with
  | Ok b => if (b =? 0)%N then [] else [Submit (TxWithdrawal token b)]
  | Throw _ => []
  end.

(** What the withdrawal stage may do after its balance read: submit the
    withdrawal, await its receipt, report completion. *)
Definition withdrawal_step (e : Effect) : bool :=
  match e with
  | Submit (TxWithdrawal _ _) => true
  | Await (WReceipt _) => true
  | Event onWithdrawProgress _ => true
  | _ => false
  end.

(** What [deepCleanup] reports when there was nothing to clean. *)
Definition idle_summary : CleanupResults :=
  {| channelsClosed := [];
     custodyDrained := Some {| amount := "0"; txHash := None |};
     ledgerBalance := None;
     errors := [] |}.

(* ================================================================= *)
(** ** Batches and queries of the session ledger *)






Section Batch.
Variable env : Env.



End Batch.



(** The four objects [checkSpendingLimit] returns.  The [message] of the
    warning is a text made of [percentUsed]. *)
Inductive LimitCheck :=
| LimitNoSession
| LimitExceeded (currentSpent limit wouldBe : Q) (percent : option Q)
| LimitWarning (percent : option Q)
| LimitOk (percent : option Q).

Definition allowed (r : LimitCheck) : bool :=
  match r with
  | LimitWarning _ | LimitOk _ => true
  | LimitNoSession | LimitExceeded _ _ _ _ => false
  end.




(** The [sessionSummary] of [endStreamSession] for a session closed at
    time [t], with what the withdrawal returned. *)
Definition summary_of (x : Session) (t : Z) (withdrawn : option CloseResult)
    : SessionSummary :=
  {| sum_sessionId := sessionId x;
     sum_duration := t - createdAt x;
     sum_totalDeposited := initialDeposit x;
     sum_totalSpent := spent x;
     sum_unusedBalance := currentBalance x;
     sum_commissionRate := commissionRate x;
     sum_closeTxHash :=
       match withdrawn with Some r => closeTxHash r | None => None end;
     sum_withdrawHash :=
       match withdrawn with Some r => withdrawHash r | None => None end |}.

(* ================================================================= *)
(** ** The connection under its events *)

(** What reaches the connection manager: a call of [_connectToClearNode]
    (by [initialize], or by a reconnect timer that fires), the three events
    of the socket it installs handlers for, and a call of [disconnect]. *)
Inductive ConnEvent :=
| EvConnect
| EvOpen
| EvError
| EvClose
| EvDisconnect.

Definition conn_step (e : ConnEvent) : M unit :=
  match e with
  | EvConnect => _connectToClearNode
  | EvOpen => ws_onopen
  | EvError => ws_onerror
  | EvClose => ws_onclose
  | EvDisconnect => disconnect
  end.

Fixpoint conn_run (es : list ConnEvent) : M unit :=
  match es with
  | [] => ret tt
  | e :: rest => conn_step e ;; conn_run rest
  end.

(** Keep-alive intervals set and cleared in a stretch of log. *)
Definition intervals_set (l : list Effect) : nat :=
  length (filter (fun e => match e with SetInterval KeepAlive _ => true | _ => false end) l).

Definition intervals_cleared (l : list Effect) : nat :=
  length (filter (fun e => match e with ClearInterval KeepAlive => true | _ => false end) l).

(** The promises settled in a stretch of log. *)
Definition is_settlement (e : Effect) : bool :=
  match e with
  | Resolve _ _ | Reject _ _ => true
  | _ => false
  end.

(** The timers of the pending requests. *)
Definition pending_timers (m : PendingMap.t) : list Effect :=
  map (fun kv => ClearTimeout (promise (snd kv))) m.

(** What the connection keeps under every sequence of events: the
    keep-alive interval is set exactly while the service is connected; every
    interval that was set and is not the current one was cleared; the
    counter of reconnect attempts stays within its maximum; and every
    reconnect timer was set with a delay between 2 and 30 seconds. *)
Record conn_invariant (s : Service) : Prop := {
  interval_while_connected : _keepAliveInterval s = connected s;
  intervals_balanced :
    intervals_set (log s)
    = (intervals_cleared (log s) + (if _keepAliveInterval s then 1 else 0))%nat;
  attempts_bounded : (reconnectAttempts s <= maxReconnectAttempts)%nat;
  delays_in_range :
    Forall (fun d => (2000 <= d <= 30000)%Z) (reconnect_delays (log s))
}.

(** What a handshake keeps besides its listeners: while its promise is
    pending its timer is armed; and the service is marked authenticated
    exactly when the promise was resolved. *)
Definition armed (st : Auth.Handshake) : Prop :=
  Auth.settled st = None -> Auth.authTimeout st = true.

Record progress (st : Auth.Handshake) : Prop := {
  timer_while_pending : Auth.settled st = None -> Auth.authTimeout st = true;
  authenticated_iff_resolved :
    authenticated (Auth.service st) = true <-> Auth.settled st = Some Auth.Resolved
}.

(* ================================================================= *)
(** ** Specifications of runs *)

(** A run of [m] from [s] ends in a result and a state that satisfy [Q]. *)
Definition sat {A} (m : M A) (s : Service) (Q : Result A -> Service -> Prop) : Prop :=
  Q (result_of (m s)) (state_of (m s)).

(** The errors of a cleanup that are failed closes. *)
Definition is_close_failure (e : CleanupError) : bool :=
  match e with CloseFailed _ _ => true | DrainFailed _ => false end.

(** What the stages of the deposit leave alone. *)
Definition untouched (s s' : Service) : Prop :=
  isDeposited s' = isDeposited s
  /\ channelId s' = channelId s
  /\ activeStreamSession s' = activeStreamSession s
  /\ tokenAddress s' = tokenAddress s
  /\ _existingChannelId s' = _existingChannelId s.


(** The account of a cleanup: channels closed and closes that failed. *)
Definition closes_accounted (r : CleanupResults) : nat :=
  (length (channelsClosed r) + length (filter is_close_failure (errors r)))%nat.

(* ================================================================= *)
(** ** The session key and its storage *)

(** [_initSessionKey()] works on the session key of the service and on
    one entry of [localStorage].  It is modelled on its own state: the key
    pair, the key the signer was made from, and the stored entry. *)
Module SessionKey.

(** The settings the fingerprint is made of.  The fingerprint is the JSON
    text of their object; two such texts are equal exactly when the three
    settings are. *)
Record Fingerprint := {
  fp_asset : string;
  fp_scope : string;
  fp_app : string
}.

Definition fingerprint_eqb (a b : Fingerprint) : bool :=
  String.eqb (fp_asset a) (fp_asset b)
  && String.eqb (fp_scope a) (fp_scope b)
  && String.eqb (fp_app a) (fp_app b).

(** [{ privateKey, address }]. *)
Record Key := {
  privateKey : string;
  address : string
}.

(** What the entry holds, as [JSON.parse] reads it: no entry ([null]); the
    empty text; a text that does not parse, or that parses to [null], so
    that reading a property of it throws; or a value with the three
    properties the method reads, each absent or present.  A stored
    fingerprint that is not the text of a fingerprint equals no
    fingerprint and counts as absent. *)
Inductive Stored :=
| NoEntry
| EmptyText
| Unreadable
| Entry (privateKey address : option string) (configFingerprint : option Fingerprint).

(** The storage of the browser: it may refuse to be read (every access
    throws), to delete, or to write. *)
Record Storage := {
  readable : bool;
  removable : bool;
  writable : bool
}.

Record KeyState := {
  sessionKey : option Key;
  sessionSigner : option string;
  stored : Stored
}.

Definition matches (fp : Fingerprint) (o : option Fingerprint) : bool :=
  match o with
  | Some fp' => fingerprint_eqb fp' fp
  | None => false
  end.

Section Init.
Variable storage : Storage.
(** [privateKeyToAccount(privateKey).address]. *)
Variable address_of : string -> string.
(** Whether [createECDSAMessageSigner] accepts a stored key; it accepts
    the keys [generatePrivateKey()] returns. *)
Variable accepted : string -> bool.

(** The second half of the method: a fresh key is made, installed and
    written; a write that throws is ignored. *)
Definition generate (fp : Fingerprint) (fresh : string) (st : KeyState) : KeyState :=
  let key := {| privateKey := fresh; address := address_of fresh |} in
  {| sessionKey := Some key;
     sessionSigner := Some fresh;
     stored :=
       if writable storage
       then Entry (Some fresh) (Some (address_of fresh)) (Some fp)
       else stored st |}.

(** [_initSessionKey()], for the fingerprint [fp] of the current
    configuration and the key [fresh] that [generatePrivateKey()] would
    return. *)
Definition _initSessionKey (fp : Fingerprint) (fresh : string) (st : KeyState)
    : KeyState :=
  if negb (readable storage) then generate fp fresh st
  else
    match stored st with
    | NoEntry | EmptyText => generate fp fresh st
    | Unreadable => generate fp fresh st
    | Entry pk addr stored_fp =>
        match pk, addr with
        | Some pk', Some addr' =>
            if truthy_str pk && truthy_str addr && matches fp stored_fp then
              if accepted pk' then
                {| sessionKey := Some {| privateKey := pk'; address := addr' |};
                   sessionSigner := Some pk';
                   stored := stored st |}
              else
                (* the signer throws after the key was assigned: caught *)
                generate fp fresh st
            else
              generate fp fresh
                {| sessionKey := sessionKey st;
                   sessionSigner := sessionSigner st;
                   stored := if removable storage then NoEntry else stored st |}
        | _, _ =>
            generate fp fresh
              {| sessionKey := sessionKey st;
                 sessionSigner := sessionSigner st;
                 stored := if removable storage then NoEntry else stored st |}
        end
    end.

End Init.

End SessionKey.

(* ================================================================= *)
(** ** Initialisation *)

(** The assignments at the start of [initialize]: the checksummed
    address, the wallet and the chain reader as passed, and the session key
    with its signer, which [_initSessionKey] installs. *)
Definition with_wallet (address : Address) (wallet reader : bool) (s : Service)
    : Service :=
  {| config := config s; ws := ws s; connected := connected s;
     authenticated := authenticated s;
     reconnectAttempts := reconnectAttempts s;
     userAddress := Some address; walletClient := wallet;
     sessionKey := true; sessionSigner := true;
     activeStreamSession := activeStreamSession s;
     _pendingRequests := _pendingRequests s;
     brokerAddress := brokerAddress s; networkConfig := networkConfig s;
     channelId := channelId s; _existingChannelId := _existingChannelId s;
     _keepAliveInterval := _keepAliveInterval s;
     nitroliteClient := nitroliteClient s; publicClient := reader;
     tokenAddress := tokenAddress s; isDeposited := isDeposited s;
     log := log s |}.

(** [{ success: true, address }] or [{ success: false, error }]. *)
Inductive InitResult :=
| InitOk (address : string)
| InitFailed (error : Error).

Section Initialize.
Variable env : Env.
(** [getAddress] of viem: the checksummed address, or its throw on a text
    that is no address. *)
Variable getAddress : string -> Result Address.
(** The awaited [_connectToClearNode()] and [_authenticateWithNitrolite()]:
    whatever they and the events that arrive meanwhile do to the service,
    until their promise resolves or rejects. *)
Variable connecting : M unit.
Variable authenticating : M unit.

(** [initialize(userAddress, walletClient, publicClient)]. *)
Definition initialize (userAddress : string) (walletClient publicClient : bool)
    : M InitResult :=
  try_catch
    (checksummed <- ask (fun _ => getAddress userAddress) ;;
     modify (with_wallet checksummed walletClient publicClient) ;;
     connecting ;;
     authenticating ;;
     _getConfig env ;;
     ret (InitOk userAddress))
    (fun error =>
     _triggerEvent onError (ErrorInfo initialization_error (Some error)) ;;
     ret (InitFailed error)).

End Initialize.

(* ================================================================= *)
(** * Part II: properties *)

(* ================================================================= *)
(** ** Running the model *)

(** The truth tests stay folded while a run is simplified. *)
Arguments truthy_str : simpl never.
Arguments truthy_num : simpl never.

(** Run the monad as far as the answers of the oracles are known. *)
Ltac exec :=
  repeat (progress (cbv beta iota zeta delta
            [bind ret throw try_catch get modify when record ask perform
             _triggerEvent create ws_send send_tx waitForTransactionReceipt
             getAccountBalance state_of_response _sendRPC state_of result_of
             _stopKeepAlive _startKeepAlive _attemptReconnect ws_onopen
             ws_onerror ws_onclose _connectToClearNode failed_attempt];
          simpl)).

(** Take the cases of the next answer the run waits for. *)
Ltac answer :=
  match goal with
  | |- context [match ?o with Ok _ => _ | Throw _ => _ end] =>
      lazymatch o with
      | context [match _ with Ok _ => _ | Throw _ => _ end] => fail
      | _ => destruct o eqn:?
      end
  end;
  repeat match goal with u : unit |- _ => destruct u end.

Lemma set_log_same s : set_log (log s) s = s.
Proof. destruct s; reflexivity. Qed.

(* ================================================================= *)
(** ** Session ledger: spending within the budget *)

(** A guarded, swallowed send: [try { send(await create(m)) } catch {}]
    returns, and leaves at most the entry of its [send] in the log. *)
Lemma swallowed_send env m s :
  exists l,
    try_catch (payload <- create env m ;; ws_send env payload) (fun _ => ret tt) s
    = (Ok tt, set_log (log s ++ l) s)
    /\ (l = [] \/ exists w, ws s = Some w /\ l = [Send w m]).
Proof.
  exec. destruct (sdk_create env (log s) m) as [[]|e]; exec.
  - destruct (ws s) as [w|] eqn:Hw; exec.
    + exists [Send w m]. split; [|right; eauto].
      answer; reflexivity.
    + exists []. rewrite app_nil_r, set_log_same. auto.
  - exists []. rewrite app_nil_r, set_log_same. auto.
Qed.

Lemma num_le_spec a b : num_le a b = true <-> (a <= b)%Q.
Proof. apply Qle_bool_iff. Qed.

Lemma num_gt_spec a b : num_gt a b = true <-> (b < a)%Q.
Proof.
  unfold num_gt. rewrite negb_true_iff. split; intros H.
  - apply Qnot_le_lt. intros Hle. apply Qle_bool_iff in Hle. congruence.
  - destruct (Qle_bool a b) eqn:E; auto. apply Qle_bool_iff in E.
    exfalso. apply (Qlt_not_le _ _ H E).
Qed.

Lemma sendTip_rejects env tip streamer message s e :
  tip_rejection s tip streamer = Some e ->
  sendTip env tip streamer message s = (Throw e, s).
Proof.
  unfold tip_rejection, sendTip, bind, get.
  destruct (activeStreamSession s) as [session|]; [|intros [= <-]; reflexivity].
  destruct (negb (String.eqb (streamerAddress session) streamer)); [intros [= <-]; reflexivity|].
  destruct (num_le tip 0); [intros [= <-]; reflexivity|].
  destruct (num_gt tip (currentBalance session)); [intros [= <-]; reflexivity|].
  discriminate.
Qed.

Lemma sendTip_accepts env tip streamer message s session :
  activeStreamSession s = Some session ->
  tip_rejection s tip streamer = None ->
  exists attempt,
    sendTip env tip streamer message s
    = (Ok {| tipAmount := tip;
             commission := tip * (commissionRate session / 100);
             creatorReceives := tip - tip * (commissionRate session / 100);
             remainingBalance := currentBalance session - tip;
             totalSpent := spent session + tip |},
       set_log (log s ++ attempt
                  ++ [Event onTipSent (TipData (tip_info s session tip streamer message))])
               (set_activeStreamSession (Some (spend tip session)) s))
    /\ (attempt = []
        \/ exists w, ws s = Some w
             /\ attempt = [Send w (TransferMsg streamer (defaultAsset (config s)) tip)]).
Proof.
  intros Hs. unfold tip_rejection, sendTip. rewrite Hs.
  unfold bind at 1. unfold get at 1. rewrite Hs.
  destruct (negb (String.eqb (streamerAddress session) streamer)); [discriminate|].
  destruct (num_le tip 0); [discriminate|].
  destruct (num_gt tip (currentBalance session)); [discriminate|]. intros _.
  unfold try_catch at 1. unfold bind at 1.
  destruct (sessionSigner s && connected s && authenticated s); unfold when.
  - destruct (swallowed_send env (TransferMsg streamer (defaultAsset (config s)) tip) s)
      as (attempt & Heq & Hat).
    rewrite Heq. exists attempt. split; [|exact Hat].
    exec. rewrite <- app_assoc. reflexivity.
  - exists []. split; [|auto]. exec. reflexivity.
Qed.








(** C9.  With an active session for the streamer and
    [0 < tip <= remaining], on a service that has a session signer and is
    connected and authenticated, if building or sending the transfer message
    throws, [sendTip] still returns its result: spent grows by the tip,
    remaining shrinks by it, the [onTipSent] event is triggered, and the
    failed attempt leaves no event of its own (no [onError]). *)
Theorem sendTip_swallows_send_failure env s session tip streamer message e :
  activeStreamSession s = Some session ->
  streamerAddress session = streamer ->
  (0 < tip)%Q ->
  (tip <= currentBalance session)%Q ->
  sessionSigner s = true -> connected s = true -> authenticated s = true ->
  result_of (transfer_attempt env s tip streamer s) = Throw e ->
  exists attempt,
    sendTip env tip streamer message s
    = (Ok {| tipAmount := tip;
             commission := tip * (commissionRate session / 100);
             creatorReceives := tip - tip * (commissionRate session / 100);
             remainingBalance := currentBalance session - tip;
             totalSpent := spent session + tip |},
       set_log (log s ++ attempt
                  ++ [Event onTipSent (TipData (tip_info s session tip streamer message))])
               (set_activeStreamSession (Some (spend tip session)) s))
    /\ filter is_event attempt = [].
Proof.
  intros Hs Hst Hpos Hle _ _ _ _.
  assert (Hr : tip_rejection s tip streamer = None).
  { unfold tip_rejection. rewrite Hs, Hst, String.eqb_refl. simpl.
    destruct (num_le tip 0) eqn:H1.
    { apply num_le_spec in H1. lra. }
    destruct (num_gt tip (currentBalance session)) eqn:H2; [|reflexivity].
    apply num_gt_spec in H2. lra. }
  destruct (sendTip_accepts env tip streamer message s session Hs Hr)
    as (attempt & Heq & Hat).
  exists attempt. split; [exact Heq|].
  destruct Hat as [->|(w & _ & ->)]; reflexivity.
Qed.

(** A run for C9: the socket throws on [send], the tip of 2 is booked. *)
Lemma sendTip_swallows_send_failure_witness :
  (activeStreamSession Demo.funded = Some (snd (Demo.open_session 5))
   /\ (0 < 2)%Q /\ (2 <= 5)%Q
   /\ result_of (transfer_attempt Demo.broken_socket Demo.funded 2 "0xstreamer" Demo.funded)
      = Throw (External "WebSocket is not open"))
  /\ exists attempt,
    sendTip Demo.broken_socket 2 "0xstreamer" "gg" Demo.funded
    = (Ok {| tipAmount := 2;
             commission := 2 * (10 / 100);
             creatorReceives := 2 - 2 * (10 / 100);
             remainingBalance := 5 - 2;
             totalSpent := 0 + 2 |},
       set_log (log Demo.funded ++ attempt
                  ++ [Event onTipSent
                        (TipData (tip_info Demo.funded (snd (Demo.open_session 5)) 2
                                           "0xstreamer" "gg"))])
               (set_activeStreamSession (Some (spend 2 (snd (Demo.open_session 5))))
                                        Demo.funded))
    /\ filter is_event attempt = [].
Proof.
  split.
  - repeat split; vm_compute; congruence.
  - apply (sendTip_swallows_send_failure Demo.broken_socket Demo.funded
             (snd (Demo.open_session 5)) 2 "0xstreamer" "gg"
             (External "WebSocket is not open"));
      try reflexivity; vm_compute; congruence.
Defined.

(* ================================================================= *)
(** ** Channel lifecycle *)

Ltac norm_log := repeat rewrite <- app_assoc; simpl.

(** C10.  Without an on-chain client, [closeChannelAndWithdraw] returns
    [null] and the service is as it was, log included: nothing was triggered,
    sent or submitted, whether a channel id is recorded or not. *)
Theorem closeChannelAndWithdraw_without_client env s :
  nitroliteClient s = None ->
  closeChannelAndWithdraw env s = (Ok None, s).
Proof.
  intros H. unfold closeChannelAndWithdraw. exec. rewrite H. reflexivity.
Qed.

(** A run for C10, with a channel id recorded and custody holding 3. *)
Lemma closeChannelAndWithdraw_without_client_witness :
  (nitroliteClient (set_channelId (Some "0xc1") Demo.online) = None
   /\ channelId (set_channelId (Some "0xc1") Demo.online) = Some "0xc1")
  /\ closeChannelAndWithdraw (Demo.world 3 0) (set_channelId (Some "0xc1") Demo.online)
     = (Ok None, set_channelId (Some "0xc1") Demo.online).
Proof.
  split; [split; reflexivity|].
  apply (closeChannelAndWithdraw_without_client (Demo.world 3 0)). reflexivity.
Defined.

(** C6.  [closeChannelAndWithdraw] with an on-chain client.

    With no channel id recorded, the run starts with the progress event of
    the withdrawal and the read of the custodial balance; it sends nothing
    and submits no close; after the read come only steps of the withdrawal,
    and a withdrawal is submitted exactly when the balance read is not zero,
    for that balance.

    With a channel id recorded, when the close request is built and sent,
    answered with a co-signed state, and the on-chain close returns its
    hash, the run goes on with the same balance read, and what follows it
    holds a withdrawal exactly when the balance read is not zero, and none
    when it is zero. *)
Theorem closeChannelAndWithdraw_stages env s client :
  nitroliteClient s = Some client ->
  (truthy_str (channelId s) = false ->
   let asked :=
     log s ++ [Event onWithdrawProgress (Progress 1 1 TxtWithdrawing false);
               Read (QAccountBalance (tokenAddress s))] in
   exists rest withdrawn,
     log (state_of (closeChannelAndWithdraw env s)) = asked ++ rest
     /\ result_of (closeChannelAndWithdraw env s)
        = Ok (Some {| closeTxHash := None; withdrawHash := withdrawn |})
     /\ filter is_send (asked ++ rest) = filter is_send (log s)
     /\ filter is_close_tx (asked ++ rest) = filter is_close_tx (log s)
     /\ forallb withdrawal_step rest = true
     /\ filter is_withdrawal rest
        = withdrawal_for (tokenAddress s) (accountBalance env asked (tokenAddress s)))
  /\ (forall channel w response finalState hash,
      channelId s = Some channel ->
      truthy_str (channelId s) = true ->
      ws s = Some w ->
      let closeMsg := CloseChannelMsg channel (userAddress s) in
      let l1 := log s ++ [Event onWithdrawProgress (Progress 1 2 TxtClosingChannel false)] in
      let l2 := l1 ++ [Send w closeMsg] in
      let l3 := l2 ++ [Submit (TxCloseChannel finalState)] in
      sdk_create env l1 closeMsg = Ok tt ->
      socket_send env l2 w closeMsg = Ok tt ->
      rpc_reply env l2 CloseChannel default_timeout = Ok response ->
      r_state response = Some finalState ->
      submit env l3 (TxCloseChannel finalState) = Ok hash ->
      let asked :=
        l3 ++ [Event onWithdrawProgress (Progress 2 2 TxtWithdrawing false);
               Read (QAccountBalance (tokenAddress s))] in
      exists rest withdrawn,
        log (state_of (closeChannelAndWithdraw env s)) = asked ++ rest
        /\ result_of (closeChannelAndWithdraw env s)
           = Ok (Some {| closeTxHash := Some hash; withdrawHash := withdrawn |})
        /\ filter is_withdrawal rest
           = withdrawal_for (tokenAddress s) (accountBalance env asked (tokenAddress s))
        /\ forallb withdrawal_step rest = true).
Proof.
  intros Hc. split.
  - intros Hch asked. unfold closeChannelAndWithdraw. exec. rewrite Hc. exec.
    assert (Hskip : match channelId s with
                    | Some channel => truthy_str (channelId s) = false
                    | None => True end) by (destruct (channelId s); auto).
    destruct (channelId s) as [channel|]; [rewrite Hskip|]; exec.
    all: norm_log; fold asked.
    all: destruct (accountBalance env asked (tokenAddress s)) as [[|b]|e]; exec.
    all: try (answer; exec; try answer; exec).
    all: do 2 eexists; (split; [norm_log; reflexivity|]); (split; [reflexivity|]).
    all: unfold asked; rewrite !filter_app; simpl; rewrite ?app_nil_r; auto.
  - intros channel w response finalState hash Hch Htr Hw closeMsg l1 l2 l3
           Hcreate Hsend Hreply Hstate Hsubmit asked.
    rewrite Hch in Htr.
    unfold closeChannelAndWithdraw. exec. rewrite Hc, Hch. exec. rewrite Htr. exec.
    fold closeMsg. fold l1. rewrite Hcreate. exec. rewrite Hw. exec.
    norm_log. fold l2. rewrite Hsend. exec. rewrite Hreply. exec. rewrite Hstate. exec.
    norm_log. fold l3. rewrite Hsubmit. exec.
    norm_log. fold asked.
    destruct (accountBalance env asked (tokenAddress s)) as [[|b]|e]; exec.
    all: try (answer; exec; try answer; exec).
    all: do 2 eexists; (split; [norm_log; reflexivity|]); (split; [reflexivity|]).
    all: simpl; auto.
Qed.

(** Runs for C6: no channel and custody 3, a withdrawal of 3; a channel
    and custody 0, the close and no withdrawal. *)
Lemma closeChannelAndWithdraw_stages_witness :
  (nitroliteClient Demo.no_channel = Some Demo.client
   /\ truthy_str (channelId Demo.no_channel) = false
   /\ nitroliteClient Demo.deposited = Some Demo.client
   /\ channelId Demo.deposited = Some "0xc1")
  /\ (exists rest,
      log (state_of (closeChannelAndWithdraw (Demo.world 3 0) Demo.no_channel))
      = (log Demo.no_channel
           ++ [Event onWithdrawProgress (Progress 1 1 TxtWithdrawing false);
               Read (QAccountBalance (Some "0xusdc"))]) ++ rest
      /\ filter is_withdrawal rest = [Submit (TxWithdrawal (Some "0xusdc") 3)])
  /\ (exists rest,
      log (state_of (closeChannelAndWithdraw (Demo.world 0 0) Demo.deposited))
      = (log Demo.deposited
           ++ [Event onWithdrawProgress (Progress 1 2 TxtClosingChannel false);
               Send 1%nat (CloseChannelMsg "0xc1" (Some "0xviewer"));
               Submit (TxCloseChannel Demo.state0);
               Event onWithdrawProgress (Progress 2 2 TxtWithdrawing false);
               Read (QAccountBalance (Some "0xusdc"))]) ++ rest
      /\ filter is_withdrawal rest = []).
Proof.
  split; [repeat split|]. split.
  - destruct (proj1 (closeChannelAndWithdraw_stages (Demo.world 3 0) Demo.no_channel
                       Demo.client eq_refl) eq_refl)
      as (rest & withdrawn & Hlog & _ & _ & _ & _ & Hw).
    exists rest. split; [exact Hlog | exact Hw].
  - destruct (proj2 (closeChannelAndWithdraw_stages (Demo.world 0 0) Demo.deposited
                       Demo.client eq_refl)
                    "0xc1" 1%nat (Demo.reply CloseChannel) Demo.state0 "0xhash"
                    eq_refl eq_refl eq_refl eq_refl eq_refl eq_refl eq_refl eq_refl)
      as (rest & withdrawn & Hlog & _ & Hw & _).
    exists rest. split; [exact Hlog | exact Hw].
Defined.

(* ----------------------------------------------------------------- *)

Lemma find_network_absent s chain :
  ~ In chain (getSupportedChainIds s) -> _findNetworkForChain s chain = None.
Proof.
  unfold getSupportedChainIds, _findNetworkForChain.
  induction (networks s) as [|n l IH]; simpl; intros H; [reflexivity|].
  destruct (Z.eqb_spec (chainId n) chain) as [E|E].
  - exfalso. apply H. now left.
  - apply IH. intros Hin. apply H. now right.
Qed.

Lemma find_network_present s chain :
  In chain (getSupportedChainIds s) ->
  exists network, _findNetworkForChain s chain = Some network.
Proof.
  unfold getSupportedChainIds, _findNetworkForChain.
  induction (networks s) as [|n l IH]; simpl; intros H; [contradiction|].
  destruct (Z.eqb_spec (chainId n) chain) as [E|E]; [eauto|].
  destruct H as [H|H]; [contradiction|auto].
Qed.

(** C3, as amended.  For a chain id that is not in the fetched network
    configuration, [depositAndOpenChannel] throws and leaves the service as
    it was: no stage ran, nothing was submitted, token, channel and deposit
    state are unchanged.  On a service that is connected and authenticated
    and has a chain reader, the error is the chain-unsupported one, naming
    the chain and the supported chains. *)
Theorem depositAndOpenChannel_unsupported_chain env s amount chain token :
  ~ In chain (getSupportedChainIds s) ->
  exists e,
    depositAndOpenChannel env amount chain token s = (Throw e, s)
    /\ (connected s = true -> authenticated s = true -> publicClient s = true ->
        e = ChainUnsupported chain (getSupportedChainIds s))
    /\ (connected s = false \/ authenticated s = false -> e = NotConnected)
    /\ (connected s = true -> authenticated s = true -> publicClient s = false ->
        e = NoPublicClient).
Proof.
  intros H. apply find_network_absent in H.
  unfold depositAndOpenChannel. exec. rewrite H.
  destruct (connected s), (authenticated s), (publicClient s); simpl;
    eexists; (split; [reflexivity|]); repeat split; intros;
    try congruence; intuition congruence.
Qed.

(** A run for C3: chain 1 against a configuration that holds chain 8453. *)
Lemma depositAndOpenChannel_unsupported_chain_witness :
  ~ In 1%Z (getSupportedChainIds Demo.online)
  /\ exists e,
    depositAndOpenChannel (Demo.world 0 0) 5 1%Z "0xusdc" Demo.online
    = (Throw e, Demo.online)
    /\ (connected Demo.online = true -> authenticated Demo.online = true ->
        publicClient Demo.online = true ->
        e = ChainUnsupported 1%Z (getSupportedChainIds Demo.online))
    /\ (connected Demo.online = false \/ authenticated Demo.online = false ->
        e = NotConnected)
    /\ (connected Demo.online = true -> authenticated Demo.online = true ->
        publicClient Demo.online = false ->
        e = NoPublicClient).
Proof.
  assert (Habsent : ~ In 1%Z (getSupportedChainIds Demo.online))
    by (simpl; intros [H|[]]; discriminate).
  split; [exact Habsent|].
  exact (depositAndOpenChannel_unsupported_chain (Demo.world 0 0) Demo.online 5 1%Z
           "0xusdc" Habsent).
Defined.

(** C3 as stated fails on a service whose connection dropped: the
    configuration is still the fetched one, chain 1 is not in it, and the
    call fails with the not-connected error of the first guard. *)
Lemma depositAndOpenChannel_offline :
  depositAndOpenChannel (Demo.world 0 0) 5 1%Z "0xusdc" Demo.offline
  = (Throw NotConnected, Demo.offline)
  /\ getSupportedChainIds Demo.offline = [8453%Z]
  /\ NotConnected <> ChainUnsupported 1%Z [8453%Z].
Proof. repeat split. discriminate. Qed.

(* ----------------------------------------------------------------- *)

(** C7.  The approve stage of the deposit flow first reads the allowance
    of the token to the custody address.  When the allowance read is below
    the deposit amount, the stage submits one transaction, the approval for
    that amount, and when the wallet returns its hash the stage awaits the
    receipt of that hash; when the wallet refuses, the stage throws.  When
    the allowance is not below the amount, the stage does nothing more and
    returns.  When the read fails, the stage throws having submitted
    nothing. *)
Theorem step2_approve_when_allowance_short env s amount amountInUnits token custody :
  let checking := Event onDepositProgress (Progress 2 TOTAL_STEPS TxtCheckingApproval false) in
  let read := Read (QAllowance token (userAddress s) custody) in
  let approving :=
    Event onDepositProgress (Progress 2 TOTAL_STEPS (TxtApproving amount) false) in
  let approve := TxApprove token custody amountInUnits in
  let run := step2_approve env amount amountInUnits token custody s in
  exists rest,
    log (state_of run) = log s ++ [checking; read] ++ rest
    /\ match allowance env (log s ++ [checking; read]) token (userAddress s) custody with
       | Ok currentAllowance =>
           if (Z.of_N currentAllowance <? amountInUnits)%Z then
             filter is_submit rest = [Submit approve]
             /\ match submit env (log s ++ [checking; read; approving; Submit approve]) approve with
                | Ok approveHash =>
                    rest = [approving; Submit approve; Await (WReceipt approveHash)]
                | Throw e =>
                    rest = [approving; Submit approve] /\ result_of run = Throw e
                end
           else
             rest = [] /\ result_of run = Ok tt
       | Throw e => rest = [] /\ result_of run = Throw e
       end.
Proof.
  intros checking read approving approve run. unfold run, step2_approve. exec.
  norm_log. fold checking. fold read.
  destruct (allowance env (log s ++ [checking; read]) token (userAddress s) custody)
    as [a|e]; exec.
  - destruct (Z.of_N a <? amountInUnits)%Z; exec.
    + norm_log. fold approving. fold approve.
      destruct (submit env (log s ++ [checking; read; approving; Submit approve]) approve)
        as [h|e]; exec.
      * eexists. split; [norm_log; reflexivity|]. simpl. auto.
      * eexists. split; [norm_log; reflexivity|]. simpl. auto.
    + exists []. auto.
  - exists []. auto.
Qed.

(* ----------------------------------------------------------------- *)

Arguments channelsToClose : simpl never.

Lemma channelsToClose_none s :
  truthy_str (channelId s) = false ->
  truthy_str (_existingChannelId s) = false ->
  channelsToClose s = [].
Proof.
  unfold channelsToClose. intros -> H.
  destruct (channelId s), (_existingChannelId s); try rewrite H; reflexivity.
Qed.

(** C4, as amended.  [deepCleanup] with no channel id tracked or observed
    and a custodial balance read as zero submits no transaction.  On a
    service that is connected and authenticated and has a chain reader, for
    a chain of the network configuration, it returns the summary with no
    channel closed, custody drained of the amount ["0"] with no hash, no
    ledger balance and no error; when one of these conditions fails it
    throws and leaves the service as it was. *)
Theorem deepCleanup_idle env s chain token :
  truthy_str (channelId s) = false ->
  truthy_str (_existingChannelId s) = false ->
  let asked :=
    log s ++ [Event onDepositProgress (Progress 1 4 TxtCleanupStart false);
              Event onDepositProgress (Progress 2 4 (TxtClosingChannels 0) false);
              Event onDepositProgress (Progress 3 4 TxtDraining false);
              Read (QAccountBalance (Some token))] in
  accountBalance env asked (Some token) = Ok 0%N ->
  let run := deepCleanup env chain token s in
  filter is_submit (log (state_of run)) = filter is_submit (log s)
  /\ (connected s = true -> authenticated s = true -> publicClient s = true ->
      In chain (getSupportedChainIds s) ->
      result_of run = Ok idle_summary)
  /\ (connected s = false \/ authenticated s = false \/ publicClient s = false
      \/ ~ In chain (getSupportedChainIds s) ->
      exists e, run = (Throw e, s)).
Proof.
  intros Hc He asked Hbal run.
  assert (Hin : forall network, _findNetworkForChain s chain = Some network ->
                                In chain (getSupportedChainIds s)).
  { unfold _findNetworkForChain, getSupportedChainIds.
    induction (networks s) as [|n l IH]; simpl; [discriminate|].
    destruct (Z.eqb_spec (chainId n) chain); [now left | right; eauto]. }
  assert (Hout : _findNetworkForChain s chain = None ->
                 ~ In chain (getSupportedChainIds s)).
  { intros Hn Hi. apply find_network_present in Hi. destruct Hi. congruence. }
  set (P := fun r : Result CleanupResults * Service =>
    (exists e, r = (Throw e, s)
       /\ (connected s = false \/ authenticated s = false \/ publicClient s = false
           \/ ~ In chain (getSupportedChainIds s)))
    \/ (connected s = true /\ authenticated s = true /\ publicClient s = true
        /\ In chain (getSupportedChainIds s)
        /\ result_of r = Ok idle_summary
        /\ filter is_submit (log (state_of r)) = filter is_submit (log s))).
  assert (Hrun : P run).
  { unfold run, deepCleanup. unfold bind at 1. unfold get at 1.
    destruct (connected s) eqn:Hcon; simpl; [|left; exec; eauto].
    destruct (authenticated s) eqn:Hau; simpl; [|left; exec; eauto].
    destruct (publicClient s) eqn:Hpc; simpl; [|left; exec; eauto 6].
    destruct (_findNetworkForChain s chain) as [network|] eqn:Hn;
      [|left; exec; eauto 8].
    exec. rewrite (channelsToClose_none s Hc He).
    exec. destruct (nitroliteClient s); exec; norm_log; fold asked; rewrite Hbal; exec.
    all: answer; exec.
    all: try (destruct (ws s); exec; try answer; exec).
    all: right; repeat split; eauto.
    all: unfold state_of; simpl; unfold asked; rewrite !filter_app; simpl;
      rewrite ?app_nil_r; reflexivity. }
  destruct Hrun as [(e & Hrun & Hwhy)|(H1 & H2 & H3 & H4 & Hres & Hsub)].
  - rewrite Hrun. simpl. repeat split; eauto.
    intros. destruct Hwhy as [H'|[H'|[H'|H']]]; try congruence; contradiction.
  - repeat split; auto.
    intros [H|[H|[H|H]]]; try congruence; contradiction.
Qed.

(** A run for C4 on the initialized service. *)
Lemma deepCleanup_idle_witness :
  (truthy_str (channelId Demo.online) = false
   /\ truthy_str (_existingChannelId Demo.online) = false
   /\ connected Demo.online = true /\ authenticated Demo.online = true
   /\ publicClient Demo.online = true
   /\ In 8453%Z (getSupportedChainIds Demo.online))
  /\ filter is_submit (log (state_of (deepCleanup (Demo.world 0 0) 8453%Z "0xusdc" Demo.online)))
  = filter is_submit (log Demo.online)
  /\ result_of (deepCleanup (Demo.world 0 0) 8453%Z "0xusdc" Demo.online) = Ok idle_summary.
Proof.
  destruct (deepCleanup_idle (Demo.world 0 0) Demo.online 8453%Z "0xusdc"
              eq_refl eq_refl eq_refl) as (Hsub & Hres & _).
  split; [repeat split; simpl; auto|].
  split; [exact Hsub|]. apply Hres; try reflexivity. simpl. now left.
Defined.

(** C4 as stated fails on a service whose connection dropped: nothing is
    tracked, custody is empty, and the call throws instead of returning the
    summary. *)
Lemma deepCleanup_offline :
  truthy_str (channelId Demo.offline) = false
  /\ truthy_str (_existingChannelId Demo.offline) = false
  /\ deepCleanup (Demo.world 0 0) 8453%Z "0xusdc" Demo.offline
     = (Throw NotConnected, Demo.offline).
Proof. repeat split. Qed.

(** The scenarios of the flows, run in a world where every call succeeds. *)

(** Deposit of 5 with no allowance on a supported chain: approve, deposit,
    create channel, resize, allocate, then the final progress event. *)
Example deposit_scenario :
  let run := depositAndOpenChannel (Demo.world 0 0) 5 8453%Z "0xusdc" Demo.online in
  result_of run
  = Ok {| dep_depositHash := "0xhash"; dep_channelId := "0xc1";
          dep_createTxHash := "0xhash"; dep_resizeTxHash := "0xhash";
          dep_allocateTxHash := "0xhash" |}
  /\ filter is_submit (log (state_of run))
     = [Submit (TxApprove "0xusdc" "0xcustody" 5000000);
        Submit (TxDeposit "0xusdc" 5000000);
        Submit (TxCreateChannel Demo.state0);
        Submit (TxResize Demo.state0 "last");
        Submit (TxResize Demo.state0 "last")]
  /\ last (log (state_of run)) (Await (WSleep 0))
     = Event onDepositProgress (Progress 7 7 (TxtReady 5) true)
  /\ channelId (state_of run) = Some "0xc1"
  /\ isDeposited (state_of run) = true.
Proof. repeat split. Qed.

(** With an allowance that covers the amount, no approval. *)
Example deposit_scenario_approved :
  filter is_submit
    (log (state_of (depositAndOpenChannel (Demo.world 0 5000000) 5 8453%Z "0xusdc"
                                          Demo.online)))
  = [Submit (TxDeposit "0xusdc" 5000000);
     Submit (TxCreateChannel Demo.state0);
     Submit (TxResize Demo.state0 "last");
     Submit (TxResize Demo.state0 "last")].
Proof. reflexivity. Qed.

(** Close with a known channel: custody 3, the close then the withdrawal of
    3; custody 0, the close only. *)
Example withdraw_scenario :
  filter is_submit
    (log (state_of (closeChannelAndWithdraw (Demo.world 3 0) Demo.deposited)))
  = [Submit (TxCloseChannel Demo.state0); Submit (TxWithdrawal (Some "0xusdc") 3)]
  /\ filter is_submit
       (log (state_of (closeChannelAndWithdraw (Demo.world 0 0) Demo.deposited)))
     = [Submit (TxCloseChannel Demo.state0)].
Proof. split; reflexivity. Qed.

(** A stale channel and a stale custody balance are cleared by the cleanup. *)
Example cleanup_scenario :
  let run := deepCleanup (Demo.world 3 0) 8453%Z "0xusdc" Demo.deposited in
  result_of run
  = Ok {| channelsClosed := [ {| closed_channelId := "0xc1"; closed_txHash := "0xhash" |} ];
          custodyDrained := Some {| amount := "n"; txHash := Some "0xhash" |};
          ledgerBalance := None;
          errors := [] |}
  /\ channelId (state_of run) = None
  /\ nitroliteClient (state_of run) = None.
Proof. repeat split. Qed.

(* ================================================================= *)
(** ** RPC correlator *)

Lemma newest_entry_some m :
  m <> [] -> exists k p, newest_entry m = Some (k, p).
Proof.
  intros H. unfold newest_entry.
  destruct (nth_error m (length m - 1)) as [[k p]|] eqn:E; [eauto|].
  apply nth_error_None in E. destruct m; [congruence|simpl in E; lia].
Qed.

Lemma newest_entry_last m k p :
  newest_entry m = Some (k, p) -> exists front, m = front ++ [(k, p)].
Proof.
  unfold newest_entry. intros H.
  destruct m as [|x m]; [discriminate|].
  destruct (@exists_last _ (x :: m)) as (front & a & E); [discriminate|].
  rewrite E in H |- *. exists front.
  rewrite length_app, nth_error_app2 in H by (simpl; lia).
  replace (length front + length [a] - 1 - length front)%nat with 0%nat in H
    by (simpl; lia).
  simpl in H. congruence.
Qed.

Lemma method_eqb_refl k : method_eqb k k = true.
Proof. unfold method_eqb. destruct (RPCMethod_eq_dec k k); congruence. Qed.

Lemma method_eqb_neq k k' : k <> k' -> method_eqb k k' = false.
Proof. unfold method_eqb. destruct (RPCMethod_eq_dec k k'); congruence. Qed.

Lemma delete_absent k m : ~ In k (map fst m) -> PendingMap.delete k m = m.
Proof.
  unfold PendingMap.delete. induction m as [|[k' v] m IH]; simpl; intros H; [reflexivity|].
  rewrite method_eqb_neq by (intros ->; apply H; now left). simpl.
  f_equal. apply IH. intros Hin. apply H. now right.
Qed.

Lemma get_delete k m : PendingMap.get k (PendingMap.delete k m) = None.
Proof.
  unfold PendingMap.delete. induction m as [|[k' v] m IH]; simpl; [reflexivity|].
  destruct (method_eqb k k') eqn:E; simpl; [exact IH|]. rewrite E. exact IH.
Qed.

(** Deleting the newest key of a map leaves the older entries as they are. *)
Lemma delete_newest m k p :
  PendingMap.wf m -> newest_entry m = Some (k, p) ->
  m = PendingMap.delete k m ++ [(k, p)].
Proof.
  intros Hwf H. destruct (newest_entry_last m k p H) as (front & ->).
  unfold PendingMap.wf in Hwf. rewrite map_app in Hwf. simpl in Hwf.
  apply NoDup_remove_2 in Hwf. rewrite app_nil_r in Hwf.
  unfold PendingMap.delete. rewrite filter_app. simpl.
  rewrite method_eqb_refl. simpl. rewrite app_nil_r.
  fold (PendingMap.delete k front). rewrite delete_absent by exact Hwf. reflexivity.
Qed.

(** [set] keeps the keys distinct, and so does [delete]. *)
Lemma set_keys k v m :
  map fst (PendingMap.set k v m)
  = if PendingMap.has k m then map fst m else map fst m ++ [k].
Proof.
  unfold PendingMap.has. induction m as [|[k' v'] m IH]; simpl; [reflexivity|].
  unfold method_eqb at 1 2. destruct (RPCMethod_eq_dec k k') as [->|N]; simpl; [reflexivity|].
  rewrite IH. destruct (PendingMap.get k m); reflexivity.
Qed.

Lemma get_none_absent k m : PendingMap.get k m = None -> ~ In k (map fst m).
Proof.
  induction m as [|[k' v'] m IH]; simpl; [tauto|].
  unfold method_eqb. destruct (RPCMethod_eq_dec k k') as [->|N]; [discriminate|].
  intros H [E|Hin]; [congruence|apply (IH H Hin)].
Qed.

Lemma set_wf k v m : PendingMap.wf m -> PendingMap.wf (PendingMap.set k v m).
Proof.
  unfold PendingMap.wf. intros H. rewrite set_keys. unfold PendingMap.has.
  destruct (PendingMap.get k m) eqn:E; [exact H|].
  apply get_none_absent in E. 
  apply NoDup_rev in H. rewrite <- (rev_involutive (map fst m ++ [k])).
  apply NoDup_rev. rewrite rev_app_distr. simpl. constructor; [|exact H].
  rewrite <- in_rev. exact E.
Qed.

Lemma delete_wf k m : PendingMap.wf m -> PendingMap.wf (PendingMap.delete k m).
Proof.
  unfold PendingMap.wf, PendingMap.delete. induction m as [|[k' v'] m IH]; simpl; intros H; [constructor|].
  inversion H as [|? ? Hn Hd]; subst.
  destruct (method_eqb k k'); simpl; [auto|].
  constructor; [|auto]. intros Hin. apply Hn.
  clear - Hin. induction m as [|[k2 v2] m IH]; simpl in *; [contradiction|].
  destruct (method_eqb k k2); simpl in *; [right; auto|]. destruct Hin; auto.
Qed.

(** C1, as amended.  When an error message arrives that matches no
    pending kind and the map of pending requests is not empty, the error goes
    to the newest entry, the last in the insertion order of the map: its
    timer is cleared, the entry is deleted, and its promise is rejected with
    the reported reason.  With the keys of the map distinct, the older
    entries stay as they were; when one request is pending, the newest entry
    is the oldest one too. *)
Theorem handleMessage_error_goes_to_newest s response :
  r_method response = RpcError ->
  PendingMap.has RpcError (_pendingRequests s) = false ->
  _pendingRequests s <> [] ->
  exists method p,
    newest_entry (_pendingRequests s) = Some (method, p)
    /\ _handleMessage (Parsed response) s
       = (Ok tt,
          set_log (log s ++ [ClearTimeout (promise p);
                             Reject (promise p)
                                    (RpcFailed (or_else (r_error response) None))])
                  (set_pendingRequests
                     (PendingMap.delete method (_pendingRequests s)) s))
    /\ PendingMap.has method (PendingMap.delete method (_pendingRequests s)) = false
    /\ (PendingMap.wf (_pendingRequests s) ->
        _pendingRequests s
        = PendingMap.delete method (_pendingRequests s) ++ [(method, p)])
    /\ (length (_pendingRequests s) = 1%nat ->
        oldest_entry (_pendingRequests s) = Some (method, p)).
Proof.
  intros Hm Hno Hne.
  destruct (newest_entry_some _ Hne) as (method & p & Hnew).
  exists method, p. split; [exact Hnew|]. split; [|split; [|split]].
  - unfold _handleMessage. exec. rewrite Hm.
    unfold PendingMap.has in Hno.
    destruct (PendingMap.get RpcError (_pendingRequests s)); [discriminate|].
    unfold PendingMap.size. destruct (_pendingRequests s) as [|x m] eqn:E; [congruence|].
    change (method_eqb RpcError RpcError) with true. simpl andb. cbv iota.
    unfold PendingMap.entries. unfold newest_entry in Hnew. rewrite Hnew.
    exec. norm_log. reflexivity.
  - unfold PendingMap.has. rewrite get_delete. reflexivity.
  - intros Hwf. now apply delete_newest.
  - intros Hlen. unfold newest_entry in Hnew. rewrite Hlen in Hnew.
    unfold oldest_entry. destruct (_pendingRequests s); [discriminate|exact Hnew].
Qed.

(** A run for C1 with two requests pending. *)
Lemma handleMessage_error_goes_to_newest_witness :
  (r_method Demo.failure = RpcError
   /\ PendingMap.has RpcError (_pendingRequests Demo.two_pending) = false
   /\ length (_pendingRequests Demo.two_pending) = 2%nat)
  /\ exists method p,
    newest_entry (_pendingRequests Demo.two_pending) = Some (method, p)
    /\ _handleMessage (Parsed Demo.failure) Demo.two_pending
       = (Ok tt,
          set_log (log Demo.two_pending
                     ++ [ClearTimeout (promise p);
                         Reject (promise p)
                                (RpcFailed (or_else (r_error Demo.failure) None))])
                  (set_pendingRequests
                     (PendingMap.delete method (_pendingRequests Demo.two_pending))
                     Demo.two_pending))
    /\ PendingMap.has method
         (PendingMap.delete method (_pendingRequests Demo.two_pending)) = false
    /\ (PendingMap.wf (_pendingRequests Demo.two_pending) ->
        _pendingRequests Demo.two_pending
        = PendingMap.delete method (_pendingRequests Demo.two_pending) ++ [(method, p)])
    /\ (length (_pendingRequests Demo.two_pending) = 1%nat ->
        oldest_entry (_pendingRequests Demo.two_pending) = Some (method, p)).
Proof.
  split; [repeat split|].
  apply (handleMessage_error_goes_to_newest Demo.two_pending Demo.failure).
  - reflexivity.
  - reflexivity.
  - discriminate.
Defined.

(** C1 as stated fails with two requests pending: the error rejects the
    request registered last, and the oldest entry stays pending with its
    timer. *)
Lemma handleMessage_error_spares_oldest :
  oldest_entry (_pendingRequests Demo.two_pending) = Some (GetConfig, {| promise := 1 |})
  /\ newest_entry (_pendingRequests Demo.two_pending)
     = Some (CloseChannel, {| promise := 2 |})
  /\ _handleMessage (Parsed Demo.failure) Demo.two_pending
     = (Ok tt,
        set_log [ClearTimeout 2; Reject 2 (RpcFailed (Some "boom"))]
                (set_pendingRequests [(GetConfig, {| promise := 1 |})]
                                     Demo.two_pending)).
Proof. repeat split. Qed.

(* ================================================================= *)
(** ** Connection manager: reconnection *)

Lemma reconnect_delays_app l1 l2 :
  reconnect_delays (l1 ++ l2) = reconnect_delays l1 ++ reconnect_delays l2.
Proof. unfold reconnect_delays. apply flat_map_app. Qed.









(** The five delays. *)
Example reconnect_delays_values :
  map reconnect_delay (seq 1 5) = [2000; 4000; 8000; 16000; 30000]%Z.
Proof. reflexivity. Qed.

(* ================================================================= *)
(** ** Authenticator: no handler is left behind *)

Module AuthFacts.
Import Auth.










End AuthFacts.


(** The exit paths, run: before any of them the timer is armed and the two
    temporary handlers are on the socket; after each of them the promise is
    settled and only the persistent handler is left. *)
Example handshake_started :
  let st := Auth.start Demo.connecting Demo.persistent in
  Auth.settled st = None
  /\ Auth.authTimeout st = true
  /\ Auth.temporary_listeners st
     = [(1%nat, Auth.Temp Auth.onClose); (1%nat, Auth.Temp Auth.onAuthMessage)].
Proof. repeat split. Qed.

Example handshake_success :
  let st := Auth.run (Demo.world 0 0)
              [Auth.RequestReady; Auth.Message 1%nat (Parsed Demo.challenge);
               Auth.SignatureReady; Auth.Message 1%nat (Parsed Demo.verified)]
              (Auth.start Demo.connecting Demo.persistent) in
  Auth.settled st = Some Auth.Resolved
  /\ authenticated (Auth.service st) = true
  /\ Auth.jwt st = Some "jwt"
  /\ filter is_send (log (Auth.service st))
     = [Send 1%nat AuthRequestMsg; Send 1%nat AuthVerifyMsg]
  /\ Auth.listeners st = [(1%nat, Auth.Other 0)]
  /\ Auth.authTimeout st = false.
Proof. repeat split. Qed.

Example handshake_failure_response :
  let st := Auth.run (Demo.world 0 0)
              [Auth.RequestReady; Auth.Message 1%nat (Parsed Demo.failure)]
              (Auth.start Demo.connecting Demo.persistent) in
  Auth.settled st = Some (Auth.Rejected (AuthFailed (Some "boom")))
  /\ Auth.listeners st = [(1%nat, Auth.Other 0)]
  /\ Auth.authTimeout st = false.
Proof. repeat split. Qed.

Example handshake_signer_rejection :
  let st := Auth.run Demo.refusing_wallet
              [Auth.RequestReady; Auth.Message 1%nat (Parsed Demo.challenge);
               Auth.SignatureReady]
              (Auth.start Demo.connecting Demo.persistent) in
  Auth.settled st = Some (Auth.Rejected SignatureRejected)
  /\ Auth.listeners st = [(1%nat, Auth.Other 0)]
  /\ Auth.authTimeout st = false.
Proof. repeat split. Qed.

Example handshake_timeout :
  let st := Auth.run (Demo.world 0 0)
              [Auth.RequestReady; Auth.Message 1%nat (Parsed Demo.challenge); Auth.TimerFired]
              (Auth.start Demo.connecting Demo.persistent) in
  Auth.settled st = Some (Auth.Rejected AuthTimeout)
  /\ Auth.listeners st = [(1%nat, Auth.Other 0)]
  /\ Auth.authTimeout st = false.
Proof. repeat split. Qed.

Example handshake_connection_lost :
  let st := Auth.run (Demo.world 0 0)
              [Auth.RequestReady; Auth.SocketClosed 1%nat]
              (Auth.start Demo.connecting Demo.persistent) in
  Auth.settled st = Some (Auth.Rejected ConnectionLost)
  /\ Auth.listeners st = [(1%nat, Auth.Other 0)]
  /\ Auth.authTimeout st = false.
Proof. repeat split. Qed.

Example handshake_request_not_sent :
  let st := Auth.run Demo.broken_socket
              [Auth.RequestReady]
              (Auth.start Demo.connecting Demo.persistent) in
  Auth.settled st = Some (Auth.Rejected (External "WebSocket is not open"))
  /\ Auth.listeners st = [(1%nat, Auth.Other 0)]
  /\ Auth.authTimeout st = false.
Proof. repeat split. Qed.

(** A signature that arrives after the handshake timed out changes
    nothing of that. *)
Example handshake_late_signature :
  let st := Auth.run (Demo.world 0 0)
              [Auth.RequestReady; Auth.Message 1%nat (Parsed Demo.challenge);
               Auth.TimerFired; Auth.SignatureReady; Auth.Message 1%nat (Parsed Demo.verified)]
              (Auth.start Demo.connecting Demo.persistent) in
  Auth.settled st = Some (Auth.Rejected AuthTimeout)
  /\ authenticated (Auth.service st) = false
  /\ Auth.listeners st = [(1%nat, Auth.Other 0)].
Proof. repeat split. Qed.

(* ================================================================= *)
(** * Part III: further properties of the service *)

(* ================================================================= *)
(** ** Batches of tips *)




(* ================================================================= *)
(** ** Spending limit, and the end of a session *)


Lemma num_gt_false a b : num_gt a b = false <-> (a <= b)%Q.
Proof.
  unfold num_gt. rewrite negb_false_iff. apply Qle_bool_iff.
Qed.







(** [endStreamSession] on an active session, whatever the withdrawal
    does. *)
Lemma endStreamSession_run env s x :
  activeStreamSession s = Some x ->
  exists withdrawn s1,
    endStreamSession env s
    = (Ok (summary_of x (now env (log s)) withdrawn),
       set_activeStreamSession None
         (set_log (log s1 ++ [Event onSessionClosed
                     (SummaryData (summary_of x (now env (log s)) withdrawn))]) s1))
    /\ (nitroliteClient s = None -> withdrawn = None /\ log s1 = log s).
Proof.
  intros Hx. unfold endStreamSession at 1. unfold bind at 1, get at 1. rewrite Hx.
  unfold try_catch at 1. unfold bind at 1, ask at 1. unfold bind at 1, modify at 1.
  unfold bind at 1.
  destruct (nitroliteClient s) as [c|] eqn:Hc; unfold is_some; cbv iota.
  - unfold try_catch at 1.
    match goal with |- context [closeChannelAndWithdraw env ?s1] =>
      destruct (closeChannelAndWithdraw env s1) as [[w|e] s2] end.
    all: exec.
    + exists w, s2. split; [reflexivity|]; discriminate.
    + exists None, s2. split; [reflexivity|]; discriminate.
  - exec.
    exists None, (set_activeStreamSession (Some (close_session (now env (log s)) x)) s).
    split; [reflexivity|]. auto.
Qed.

(** X4.  [endStreamSession] on an active session never throws, whatever the
    collaborators answer: a withdrawal that fails is swallowed.  It returns
    the summary of the session (budget, spent, remaining), emits
    [onSessionClosed] with that summary as its last effect, and leaves no
    active session, so that a second call throws.  Without an on-chain
    client the event is the only effect and the summary has no hashes. *)
Theorem endStreamSession_closes env s x :
  activeStreamSession s = Some x ->
  exists summary s' before,
    endStreamSession env s = (Ok summary, s')
    /\ activeStreamSession s' = None
    /\ log s' = before ++ [Event onSessionClosed (SummaryData summary)]
    /\ sum_totalDeposited summary = initialDeposit x
    /\ sum_totalSpent summary = spent x
    /\ sum_unusedBalance summary = currentBalance x
    /\ (nitroliteClient s = None ->
        before = log s
        /\ sum_closeTxHash summary = None /\ sum_withdrawHash summary = None)
    /\ endStreamSession env s' = (Throw NoSessionToEnd, s').
Proof.
  intros Hx.
  destruct (endStreamSession_run env s x Hx) as (withdrawn & s1 & Hrun & Hnone).
  rewrite Hrun. do 3 eexists. split; [reflexivity|].
  do 5 (split; [reflexivity|]). split; [|reflexivity].
  intros Hc; apply Hnone in Hc; destruct Hc as [-> Hlog]; auto.
Qed.




(** The fresh session of 5, ended twice. *)
Lemma endStreamSession_closes_witness :
  activeStreamSession Demo.funded = Some (snd (Demo.open_session 5))
  /\ exists summary s',
       endStreamSession (Demo.world 0 0) Demo.funded = (Ok summary, s')
       /\ activeStreamSession s' = None
       /\ endStreamSession (Demo.world 0 0) s' = (Throw NoSessionToEnd, s').
Proof.
  assert (Hx : activeStreamSession Demo.funded = Some (snd (Demo.open_session 5)))
    by reflexivity.
  split; [exact Hx|].
  destruct (endStreamSession_closes (Demo.world 0 0) Demo.funded _ Hx)
    as (summary & s' & before & Hrun & Hnone & _ & _ & _ & _ & _ & Hagain).
  exists summary, s'. auto.
Defined.



(** X7.  A balance reported by the node, as a push or as the answer to a
    ledger query nobody awaits, replaces the remaining balance of the active
    session by the amount of the first entry for the default asset, and is
    passed on as [onBalanceUpdate].  From then on the remaining balance that
    [sendTip] checks is the node's figure, whatever the budget of the session
    was: a positive tip is accepted exactly when it is within that amount. *)
Theorem balance_update_replaces_remaining s x r balances bal :
  activeStreamSession s = Some x ->
  r_method r = BalanceUpdate \/ r_method r = GetLedgerBalances ->
  PendingMap.get (r_method r) (_pendingRequests s) = None ->
  r_balances r = Some balances ->
  asset_balance s balances = Some bal ->
  exists s',
    _handleMessage (Parsed r) s = (Ok tt, s')
    /\ activeStreamSession s' = Some (set_currentBalance bal x)
    /\ (exists data, log s' = log s ++ [Event onBalanceUpdate data])
    /\ forall env tip message,
         (0 < tip)%Q ->
         ((tip <= bal)%Q ->
          exists res s'',
            sendTip env tip (streamerAddress x) message s' = (Ok res, s''))
         /\ ((bal < tip)%Q ->
             sendTip env tip (streamerAddress x) message s'
             = (Throw InsufficientBalance, s')).
Proof.
  intros Hx Hm Hp Hb Ha.
  assert (Hrun : _handleMessage (Parsed r) s
                 = (Ok tt,
                    set_log (log s ++ [Event onBalanceUpdate (BalanceData (Some balances))])
                      (set_activeStreamSession (Some (set_currentBalance bal x)) s))).
  { unfold _handleMessage. exec. rewrite Hp.
    assert (He : method_eqb (r_method r) RpcError = false)
      by (destruct Hm as [-> | ->]; reflexivity).
    rewrite He. simpl.
    assert (Hs : standing_handler r = on_balances r)
      by (unfold standing_handler; destruct Hm as [-> | ->]; reflexivity).
    rewrite Hs. unfold on_balances. exec. rewrite Hb, Ha, Hx. exec. reflexivity. }
  rewrite Hrun. eexists. split; [reflexivity|]. split; [reflexivity|].
  split; [eexists; reflexivity|]. intros env tip message Htip.
  set (s' := set_log _ _).
  assert (Hx' : activeStreamSession s' = Some (set_currentBalance bal x)) by reflexivity.
  assert (Hnle : num_le tip 0 = false).
  { destruct (num_le tip 0) eqn:E; auto. apply num_le_spec in E. lra. }
  split; intros Hcmp.
  - destruct (sendTip_accepts env tip (streamerAddress x) message s' _ Hx')
      as (attempt & Heq & _); [|eauto].
    unfold tip_rejection. rewrite Hx'. simpl. rewrite String.eqb_refl, Hnle. simpl.
    assert (Hg : num_gt tip bal = false) by (apply num_gt_false; lra).
    now rewrite Hg.
  - apply sendTip_rejects. unfold tip_rejection. rewrite Hx'. simpl.
    rewrite String.eqb_refl, Hnle. simpl.
    assert (Hg : num_gt tip bal = true) by (apply num_gt_spec; lra).
    now rewrite Hg.
Qed.

(** A session opened with a budget of 5; the node reports 100; a tip of
    50 is accepted. *)
Lemma balance_update_replaces_remaining_witness :
  let push :=
    {| r_method := BalanceUpdate; r_state := None; r_error := None;
       r_success := None; r_jwtToken := None;
       r_brokerAddress := None; r_networks := None;
       r_balances := Some [("eth", 1); ("usdc", 100)]; r_channels := [] |} in
  (activeStreamSession Demo.funded = Some (snd (Demo.open_session 5))
   /\ PendingMap.get BalanceUpdate (_pendingRequests Demo.funded) = None
   /\ asset_balance Demo.funded [("eth", 1); ("usdc", 100)] = Some 100)
  /\ exists s',
       _handleMessage (Parsed push) Demo.funded = (Ok tt, s')
       /\ exists res s'',
            sendTip (Demo.world 0 0) 50 "0xstreamer" "hi" s' = (Ok res, s'').
Proof.
  intros push.
  assert (Hx : activeStreamSession Demo.funded = Some (snd (Demo.open_session 5)))
    by reflexivity.
  assert (Hp : PendingMap.get (r_method push) (_pendingRequests Demo.funded) = None)
    by reflexivity.
  assert (Ha : asset_balance Demo.funded [("eth", 1); ("usdc", 100)] = Some 100)
    by reflexivity.
  split; [auto|].
  destruct (balance_update_replaces_remaining Demo.funded _ push _ 100
              Hx (or_introl eq_refl) Hp eq_refl Ha)
    as (s' & Hrun & _ & _ & Htips).
  exists s'. split; [exact Hrun|].
  apply (Htips (Demo.world 0 0) 50 "hi"); [reflexivity | unfold Qle; simpl; lia].
Defined.


(* ================================================================= *)
(** ** The connection under its events *)


(** The loop of [disconnect] over the pending requests. *)
Lemma clear_timers_run (m : PendingMap.t) : forall s,
  fold_right (fun kv k => record (ClearTimeout (promise (snd kv))) ;; k) (ret tt) m s
  = (Ok tt, set_log (log s ++ pending_timers m) s).
Proof.
  induction m as [|kv m IH]; intros s; simpl.
  - unfold ret. now rewrite app_nil_r, set_log_same.
  - exec. rewrite IH. simpl. now rewrite <- app_assoc.
Qed.

(** What [disconnect] does to the service. *)
Lemma disconnect_effect s :
  exists s',
    disconnect s = (Ok tt, s')
    /\ (ws s' = None /\ connected s' = false /\ authenticated s' = false
        /\ channelId s' = None /\ nitroliteClient s' = None
        /\ isDeposited s' = false /\ _pendingRequests s' = []
        /\ _keepAliveInterval s' = false)
    /\ (activeStreamSession s' = activeStreamSession s
        /\ _existingChannelId s' = _existingChannelId s
        /\ tokenAddress s' = tokenAddress s
        /\ reconnectAttempts s' = reconnectAttempts s
        /\ networkConfig s' = networkConfig s)
    /\ log s'
       = log s
           ++ (if _keepAliveInterval s then [ClearInterval KeepAlive] else [])
           ++ match ws s with Some w => [CloseSocket w] | None => [] end
           ++ pending_timers (_pendingRequests s).
Proof.
  unfold disconnect. exec.
  destruct (_keepAliveInterval s) eqn:Hk; exec; destruct (ws s) as [w|] eqn:Hw; exec.
  all: rewrite clear_timers_run; simpl.
  all: eexists; split; [reflexivity|]; simpl.
  all: repeat split; rewrite <- ?app_assoc, ?app_nil_r; auto.
Qed.

(** On a service that is already disconnected, [disconnect] does
    nothing. *)
Lemma disconnect_idle s :
  ws s = None -> connected s = false -> authenticated s = false ->
  channelId s = None -> nitroliteClient s = None -> isDeposited s = false ->
  _pendingRequests s = [] -> _keepAliveInterval s = false ->
  disconnect s = (Ok tt, s).
Proof.
  destruct s; simpl. intros. subst. reflexivity.
Qed.

(** X8.  [disconnect] never throws.  Afterwards there is no socket, no
    channel id, no on-chain client and no pending request, and the service
    is neither connected, authenticated nor deposited; the session, the
    observed channel id, the token, the network configuration and the
    counter of reconnect attempts are kept.  Its effects are, in this order:
    the keep-alive interval cleared if one was set, the socket closed if
    there was one, and the timer of every pending request cleared.  It
    settles no promise: a request that was pending is neither resolved nor
    rejected. *)
Theorem disconnect_resets s :
  let s' := state_of (disconnect s) in
  result_of (disconnect s) = Ok tt
  /\ (ws s' = None /\ connected s' = false /\ authenticated s' = false
      /\ channelId s' = None /\ nitroliteClient s' = None
      /\ isDeposited s' = false /\ _pendingRequests s' = []
      /\ _keepAliveInterval s' = false)
  /\ (activeStreamSession s' = activeStreamSession s
      /\ _existingChannelId s' = _existingChannelId s
      /\ tokenAddress s' = tokenAddress s
      /\ reconnectAttempts s' = reconnectAttempts s
      /\ networkConfig s' = networkConfig s)
  /\ log s'
     = log s
         ++ (if _keepAliveInterval s then [ClearInterval KeepAlive] else [])
         ++ match ws s with Some w => [CloseSocket w] | None => [] end
         ++ pending_timers (_pendingRequests s)
  /\ filter is_settlement (log s') = filter is_settlement (log s).
Proof.
  intros s'. unfold s'.
  destruct (disconnect_effect s) as (s1 & Hrun & Hreset & Hkept & Hlog).
  rewrite Hrun. simpl. repeat split; try apply Hreset; try apply Hkept; auto.
  rewrite Hlog, !filter_app.
  assert (Ht : filter is_settlement (pending_timers (_pendingRequests s)) = []).
  { unfold pending_timers. generalize (_pendingRequests s).
    intros m. induction m; simpl; auto. }
  rewrite Ht. destruct (_keepAliveInterval s), (ws s); simpl; now rewrite ?app_nil_r.
Qed.

(** X9.  A second [disconnect] changes nothing and has no effect. *)
Theorem disconnect_idempotent s :
  disconnect (state_of (disconnect s)) = (Ok tt, state_of (disconnect s)).
Proof.
  destruct (disconnect_effect s) as (s1 & Hrun & Hreset & _).
  rewrite Hrun. simpl.
  destruct Hreset as (H1 & H2 & H3 & H4 & H5 & H6 & H7 & H8).
  now apply disconnect_idle.
Qed.

(** X10.  After [disconnect], [createStreamSession], [depositAndOpenChannel]
    and [deepCleanup] throw the not-connected error and
    [closeChannelAndWithdraw] returns [null], each leaving the service as it
    is; the session is still there, and [sendTip] still accepts a tip within
    its remaining balance, charging the session without sending anything to
    the node. *)
Theorem disconnected_service_works_locally env s x tip message :
  let s' := state_of (disconnect s) in
  activeStreamSession s = Some x ->
  (0 < tip)%Q -> (tip <= currentBalance x)%Q ->
  (forall streamer B partner,
      createStreamSession env streamer B partner s' = (Throw NotConnected, s'))
  /\ (forall amount chain token,
      depositAndOpenChannel env amount chain token s' = (Throw NotConnected, s'))
  /\ (forall chain token, deepCleanup env chain token s' = (Throw NotConnected, s'))
  /\ closeChannelAndWithdraw env s' = (Ok None, s')
  /\ exists r s'',
       sendTip env tip (streamerAddress x) message s' = (Ok r, s'')
       /\ activeStreamSession s'' = Some (spend tip x)
       /\ filter is_send (log s'') = filter is_send (log s').
Proof.
  intros s' Hx Hpos Hle. unfold s'.
  destruct (disconnect_effect s) as (s1 & Hrun & Hreset & Hkept & Hlog).
  rewrite Hrun. simpl.
  destruct Hreset as (Hws & Hcon & Hau & Hch & Hnc & _).
  destruct Hkept as (Hsess & _).
  split; [|split; [|split; [|split]]].
  - intros. unfold createStreamSession. exec. now rewrite Hcon.
  - intros. unfold depositAndOpenChannel. exec. now rewrite Hcon.
  - intros. unfold deepCleanup. exec. now rewrite Hcon.
  - unfold closeChannelAndWithdraw. exec. now rewrite Hnc.
  - rewrite Hx in Hsess.
    assert (Hr : tip_rejection s1 tip (streamerAddress x) = None).
    { unfold tip_rejection. rewrite Hsess, String.eqb_refl. simpl.
      assert (H1 : num_le tip 0 = false).
      { destruct (num_le tip 0) eqn:E; auto. apply num_le_spec in E. lra. }
      assert (H2 : num_gt tip (currentBalance x) = false) by (apply num_gt_false; lra).
      now rewrite H1, H2. }
    destruct (sendTip_accepts env tip (streamerAddress x) message s1 x Hsess Hr)
      as (attempt & Heq & Hat).
    rewrite Heq. do 2 eexists. split; [reflexivity|]. split; [reflexivity|].
    simpl. destruct Hat as [-> | (w & Hw & _)]; [|congruence].
    simpl. rewrite filter_app. simpl. now rewrite app_nil_r.
Qed.

(** A tip of 2 on the session of 5, after [disconnect]. *)
Lemma disconnected_service_works_locally_witness :
  activeStreamSession Demo.funded = Some (snd (Demo.open_session 5))
  /\ (0 < 2)%Q /\ (2 <= 5)%Q
  /\ exists r s'',
       sendTip (Demo.world 0 0) 2 "0xstreamer" "hi" (state_of (disconnect Demo.funded))
       = (Ok r, s'')
       /\ filter is_send (log s'')
          = filter is_send (log (state_of (disconnect Demo.funded))).
Proof.
  assert (Hx : activeStreamSession Demo.funded = Some (snd (Demo.open_session 5)))
    by reflexivity.
  assert (Hpos : (0 < 2)%Q) by reflexivity.
  assert (Hle : (2 <= currentBalance (snd (Demo.open_session 5)))%Q)
    by (unfold Qle; simpl; lia).
  repeat split; auto.
  destruct (disconnected_service_works_locally (Demo.world 0 0) Demo.funded _ 2 "hi"
              Hx Hpos Hle) as (_ & _ & _ & _ & r & s'' & Hrun & _ & Hsend).
  exists r, s''. auto.
Defined.

(* ----------------------------------------------------------------- *)

Lemma reconnect_delay_range k :
  (1 <= k)%nat -> (2000 <= reconnect_delay k <= 30000)%Z.
Proof.
  intros H. unfold reconnect_delay.
  assert (2 ^ 1 <= 2 ^ Z.of_nat k)%Z by (apply Z.pow_le_mono_r; lia).
  change (2 ^ 1)%Z with 2%Z in *. lia.
Qed.


Lemma intervals_set_app l1 l2 :
  intervals_set (l1 ++ l2) = (intervals_set l1 + intervals_set l2)%nat.
Proof. unfold intervals_set. now rewrite filter_app, length_app. Qed.

Lemma intervals_cleared_app l1 l2 :
  intervals_cleared (l1 ++ l2) = (intervals_cleared l1 + intervals_cleared l2)%nat.
Proof. unfold intervals_cleared. now rewrite filter_app, length_app. Qed.

Lemma pending_timers_quiet m :
  intervals_set (pending_timers m) = 0%nat
  /\ intervals_cleared (pending_timers m) = 0%nat
  /\ reconnect_delays (pending_timers m) = [].
Proof. unfold intervals_set, intervals_cleared. induction m; simpl; auto. Qed.

Ltac conn_log :=
  rewrite ?reconnect_delays_app;
  unfold intervals_set, intervals_cleared in *;
  rewrite ?filter_app, ?length_app; simpl;
  rewrite ?app_nil_r.

(** Every event keeps the invariant of the connection, and no handler
    throws. *)
Lemma conn_step_invariant e s :
  conn_invariant s ->
  result_of (conn_step e s) = Ok tt /\ conn_invariant (state_of (conn_step e s)).
Proof.
  intros [Hk Hbal Hatt Hdel]. destruct e; simpl conn_step.
  - (* a new socket *)
    exec. split; [reflexivity|]. constructor; simpl; auto; conn_log; auto; lia.
  - (* open *)
    exec. destruct (_keepAliveInterval s) eqn:Hflag; exec.
    all: split; [reflexivity|]; constructor; simpl; rewrite ?Hflag; auto;
      conn_log; rewrite ?Hflag; auto; unfold maxReconnectAttempts; lia.
  - (* error *)
    exec. split; [reflexivity|]. constructor; simpl; auto; conn_log; auto; lia.
  - (* close *)
    exec. destruct (_keepAliveInterval s) eqn:Hflag; exec.
    all: destruct (reconnectAttempts s <? maxReconnectAttempts)%nat eqn:Hlt; exec.
    all: try apply Nat.ltb_lt in Hlt.
    all: split; [reflexivity|]; constructor; simpl; rewrite ?Hflag; auto;
      conn_log; rewrite ?Hflag; auto; try lia.
    all: apply Forall_app; split; auto; constructor; auto.
    all: apply reconnect_delay_range; lia.
  - (* disconnect *)
    destruct (disconnect_effect s) as (s' & Hrun & Hreset & Hkept & Hlog).
    rewrite Hrun. simpl. split; [reflexivity|].
    destruct Hreset as (_ & Hcon & _ & _ & _ & _ & _ & Hflag).
    destruct Hkept as (_ & _ & _ & Hsame & _).
    destruct (pending_timers_quiet (_pendingRequests s)) as (Hq1 & Hq2 & Hq3).
    unfold intervals_set, intervals_cleared in Hq1, Hq2.
    constructor; rewrite ?Hlog, ?Hflag, ?Hcon, ?Hsame; auto; conn_log.
    + rewrite Hq1, Hq2. destruct (_keepAliveInterval s), (ws s); simpl; lia.
    + rewrite Hq3, app_nil_r.
      assert (Hn : reconnect_delays
                (match ws s with Some w => [CloseSocket w] | None => [] end) = [])
        by (destruct (ws s); reflexivity).
      rewrite Hn. destruct (_keepAliveInterval s); simpl; now rewrite app_nil_r.
Qed.

Lemma conn_run_invariant es : forall s,
  conn_invariant s ->
  result_of (conn_run es s) = Ok tt /\ conn_invariant (state_of (conn_run es s)).
Proof.
  induction es as [|e es IH]; intros s H; simpl; [auto|].
  destruct (conn_step_invariant e s H) as [Hok Hinv].
  unfold bind. destruct (conn_step e s) as [[[]|err] s1]; simpl in *; [|discriminate].
  apply IH, Hinv.
Qed.

Lemma new_service_invariant c : conn_invariant (new_YellowTokService c).
Proof. constructor; simpl; auto. unfold maxReconnectAttempts. lia. Qed.

(** X11.  From the constructor on, under every sequence of connects, socket
    events and disconnects, no handler throws, the keep-alive interval is
    set exactly while the service is connected, and every interval ever set
    has been cleared except the one of the current connection: there is
    never more than one. *)
Theorem keepalive_exactly_while_connected c es :
  let run := conn_run es (new_YellowTokService c) in
  result_of run = Ok tt
  /\ _keepAliveInterval (state_of run) = connected (state_of run)
  /\ intervals_set (log (state_of run))
     = (intervals_cleared (log (state_of run))
        + (if connected (state_of run) then 1 else 0))%nat.
Proof.
  intros run.
  destruct (conn_run_invariant es _ (new_service_invariant c)) as [Hok [Hk Hbal _ _]].
  fold run in Hok, Hk, Hbal. rewrite <- Hk. auto.
Qed.

(** X12.  From the constructor on, under every sequence of connects, socket
    events and disconnects, the counter of reconnect attempts never exceeds
    its maximum of 5, and every reconnect timer ever set has a delay between
    2000 and 30000 ms. *)
Theorem reconnect_timers_bounded c es :
  let run := conn_run es (new_YellowTokService c) in
  (reconnectAttempts (state_of run) <= maxReconnectAttempts)%nat
  /\ Forall (fun d => (2000 <= d <= 30000)%Z) (reconnect_delays (log (state_of run))).
Proof.
  intros run.
  destruct (conn_run_invariant es _ (new_service_invariant c)) as [_ [_ _ Hatt Hdel]].
  auto.
Qed.

(** X13.  An open resets the back-off.  Whatever the counter of attempts was,
    also when it was exhausted, a socket that opens and then closes leaves
    the service disconnected with one reconnect timer of 2000 ms, the
    counter at 1, and no terminal error. *)
Theorem backoff_restarts_after_open s :
  let s' := state_of ((ws_onopen ;; ws_onclose) s) in
  exists l,
    log s' = log s ++ l
    /\ reconnect_delays l = [2000%Z]
    /\ terminal_errors l = 0%nat
    /\ reconnectAttempts s' = 1%nat
    /\ connected s' = false /\ authenticated s' = false.
Proof.
  intros s'. unfold s'. exec.
  destruct (_keepAliveInterval s); exec.
  all: eexists; split; [norm_log; reflexivity|]; repeat split.
Qed.

(** X14.  [disconnect] closes the socket but leaves its close handler in
    place and the counter of attempts as it is.  When the close event of
    that socket arrives and attempts are left, the handler schedules a
    reconnect with the next delay, and when that timer fires a new socket is
    opened and held by the service. *)
Theorem disconnect_does_not_stop_reconnect s :
  (reconnectAttempts s < maxReconnectAttempts)%nat ->
  let s' := state_of ((disconnect ;; ws_onclose ;; _connectToClearNode) s) in
  exists l socket,
    log s' = log (state_of (disconnect s)) ++ l
    /\ reconnect_delays l = [reconnect_delay (S (reconnectAttempts s))]
    /\ sockets_opened l = 1%nat
    /\ ws s' = Some socket
    /\ reconnectAttempts s' = S (reconnectAttempts s).
Proof.
  intros Hlt s'. unfold s'. clear s'.
  destruct (disconnect_effect s) as (s1 & Hrun & Hreset & Hkept & Hlog).
  exec. rewrite Hrun. simpl.
  destruct Hreset as (_ & _ & _ & _ & _ & _ & _ & Hflag).
  destruct Hkept as (_ & _ & _ & Hsame & _).
  exec. rewrite Hflag. exec. rewrite Hsame.
  apply Nat.ltb_lt in Hlt. rewrite Hlt. exec.
  do 2 eexists. split; [norm_log; reflexivity|]. repeat split.
Qed.

(** The connected service, disconnected: a reconnect after 2000 ms. *)
Lemma disconnect_does_not_stop_reconnect_witness :
  (reconnectAttempts Demo.online < maxReconnectAttempts)%nat
  /\ exists l socket,
       log (state_of ((disconnect ;; ws_onclose ;; _connectToClearNode) Demo.online))
       = log (state_of (disconnect Demo.online)) ++ l
       /\ reconnect_delays l = [2000%Z]
       /\ ws (state_of ((disconnect ;; ws_onclose ;; _connectToClearNode) Demo.online))
          = Some socket.
Proof.
  assert (Hlt : (reconnectAttempts Demo.online < maxReconnectAttempts)%nat)
    by (unfold maxReconnectAttempts; simpl; lia).
  split; [exact Hlt|].
  destruct (disconnect_does_not_stop_reconnect Demo.online Hlt)
    as (l & socket & Hlog & Hdelay & _ & Hws & _).
  exists l, socket. auto.
Defined.

(* ================================================================= *)
(** ** Requests, responses and the configuration *)

(** Lookups after [set] and [delete]. *)
Lemma get_set_same k v m : PendingMap.get k (PendingMap.set k v m) = Some v.
Proof.
  induction m as [|[k' v'] m IH]; simpl.
  - now rewrite method_eqb_refl.
  - destruct (method_eqb k k') eqn:E; simpl; rewrite ?method_eqb_refl, ?E; auto.
Qed.

Lemma get_set_other k k' v m :
  k' <> k -> PendingMap.get k' (PendingMap.set k v m) = PendingMap.get k' m.
Proof.
  intros N. induction m as [|[k2 v2] m IH]; simpl.
  - now rewrite method_eqb_neq.
  - unfold method_eqb at 1. destruct (RPCMethod_eq_dec k k2) as [<-|N2]; simpl.
    + now rewrite (method_eqb_neq k' k N).
    + destruct (method_eqb k' k2); auto.
Qed.

Lemma get_delete_other k k' m :
  k' <> k -> PendingMap.get k' (PendingMap.delete k m) = PendingMap.get k' m.
Proof.
  intros N. unfold PendingMap.delete.
  induction m as [|[k2 v2] m IH]; simpl; [reflexivity|].
  unfold method_eqb at 1. destruct (RPCMethod_eq_dec k k2) as [<-|N2]; simpl.
  - now rewrite (method_eqb_neq k' k N).
  - destruct (method_eqb k' k2); auto.
Qed.

(** X15.  [_sendRPC] and its entry in the map of pending requests.  The entry
    is registered before the message is sent.  When the send throws, also
    for want of a socket, the call rejects with that error and the entry
    stays in the map, with its timer; when the message is sent, the call
    settles as the reply does, and the entry is gone either way.  Entries
    under other methods are never touched. *)
Theorem sendRPC_pending_entry env message k timeout s :
  let run := _sendRPC env message k timeout s in
  let entry := {| promise := length (log s) |} in
  let pending := _pendingRequests (state_of run) in
  (forall k', k' <> k -> PendingMap.get k' pending = PendingMap.get k' (_pendingRequests s))
  /\ match ws s with
     | None =>
         result_of run = Throw (TypeError "this.ws is null")
         /\ PendingMap.get k pending = Some entry
     | Some w =>
         match socket_send env (log s ++ [Send w message]) w message with
         | Throw e =>
             result_of run = Throw e /\ PendingMap.get k pending = Some entry
         | Ok _ =>
             result_of run = rpc_reply env (log s ++ [Send w message]) k timeout
             /\ PendingMap.get k pending = None
         end
     end.
Proof.
  intros run entry pending. unfold pending, run, entry. clear run entry pending.
  unfold _sendRPC. exec.
  destruct (ws s) as [w|] eqn:Hw; exec.
  - destruct (socket_send env (log s ++ [Send w message]) w message) as [[]|e]; exec.
    + destruct (rpc_reply env (log s ++ [Send w message]) k timeout) as [r|e]; exec.
      all: split; [intros k' N; now rewrite get_delete_other, get_set_other|].
      all: split; [reflexivity|apply get_delete].
    + split; [intros k' N; now rewrite get_set_other|].
      split; [reflexivity|apply get_set_same].
  - split; [intros k' N; now rewrite get_set_other|].
    split; [reflexivity|apply get_set_same].
Qed.

(** X16.  The entry a failed send leaves behind takes the next error of the
    node.  With no other request pending, an error message that arrives
    after such a call is routed to the dead entry: its timer is cleared, its
    promise, already rejected, is rejected again, and the entry is deleted;
    no [onError] event is triggered, so the error reaches nobody. *)
Theorem failed_send_swallows_next_error env message k timeout s response :
  _pendingRequests s = [] ->
  k <> RpcError ->
  r_method response = RpcError ->
  let s1 := state_of (_sendRPC env message k timeout s) in
  PendingMap.get k (_pendingRequests s1) <> None ->
  let p := length (log s) in
  (exists e, result_of (_sendRPC env message k timeout s) = Throw e)
  /\ _handleMessage (Parsed response) s1
     = (Ok tt,
        set_log (log s1 ++ [ClearTimeout p;
                            Reject p (RpcFailed (or_else (r_error response) None))])
          (set_pendingRequests [] s1))
  /\ filter is_event (log (state_of (_handleMessage (Parsed response) s1)))
     = filter is_event (log s).
Proof.
  intros Hempty Hk Hm s1 Hleft p. unfold s1 in *. clear s1.
  revert Hleft. unfold _sendRPC. exec. rewrite Hempty. simpl PendingMap.set.
  assert (Hke : method_eqb RpcError k = false) by (apply method_eqb_neq; congruence).
  destruct (ws s) as [w|] eqn:Hw; exec.
  - destruct (socket_send env (log s ++ [Send w message]) w message) as [[]|e]; exec.
    + destruct (rpc_reply env (log s ++ [Send w message]) k timeout) as [r|e]; exec.
      all: unfold PendingMap.delete; simpl; rewrite method_eqb_refl; simpl.
      all: intros H; now contradiction H.
    + intros _. split; [eauto|].
      unfold _handleMessage. exec. rewrite Hm, Hke. exec.
      unfold PendingMap.delete. simpl. rewrite method_eqb_refl. simpl.
      split; [norm_log; reflexivity|].
      rewrite !filter_app. simpl. now rewrite !app_nil_r.
  - intros _. split; [eauto|].
    unfold _handleMessage. exec. rewrite Hm, Hke. exec.
    unfold PendingMap.delete. simpl. rewrite method_eqb_refl. simpl.
    split; [norm_log; reflexivity|].
    rewrite !filter_app. simpl. now rewrite !app_nil_r.
Qed.

(** A configuration request on a socket that throws, then an error
    message. *)
Lemma failed_send_swallows_next_error_witness :
  (_pendingRequests Demo.online = []
   /\ GetConfig <> RpcError
   /\ r_method Demo.failure = RpcError
   /\ PendingMap.get GetConfig
        (_pendingRequests
           (state_of (_sendRPC Demo.broken_socket GetConfigMsg GetConfig 15000 Demo.online)))
      <> None)
  /\ (exists e,
        result_of (_sendRPC Demo.broken_socket GetConfigMsg GetConfig 15000 Demo.online)
        = Throw e)
  /\ filter is_event
       (log (state_of
               (_handleMessage (Parsed Demo.failure)
                  (state_of (_sendRPC Demo.broken_socket GetConfigMsg GetConfig 15000
                               Demo.online)))))
     = filter is_event (log Demo.online).
Proof.
  assert (H1 : _pendingRequests Demo.online = []) by reflexivity.
  assert (H2 : GetConfig <> RpcError) by discriminate.
  assert (H3 : r_method Demo.failure = RpcError) by reflexivity.
  assert (H4 : PendingMap.get GetConfig
                 (_pendingRequests
                    (state_of (_sendRPC Demo.broken_socket GetConfigMsg GetConfig 15000
                                 Demo.online))) <> None) by discriminate.
  split; [auto|].
  destruct (failed_send_swallows_next_error Demo.broken_socket GetConfigMsg GetConfig
              15000 Demo.online Demo.failure H1 H2 H3 H4) as (He & _ & Hev).
  split; [exact He | exact Hev].
Defined.

(** X17.  A response whose method is awaited goes to that request and to
    nothing else: the timer of the entry is cleared, the entry is deleted,
    its promise is resolved with the response; the entries under other
    methods stay; no standing handler runs, so the session, the observed
    channel id and the events triggered are as before. *)
Theorem handleMessage_resolves_pending s response p :
  PendingMap.get (r_method response) (_pendingRequests s) = Some p ->
  let s' := state_of (_handleMessage (Parsed response) s) in
  _handleMessage (Parsed response) s
  = (Ok tt,
     set_log (log s ++ [ClearTimeout (promise p); Resolve (promise p) response])
       (set_pendingRequests
          (PendingMap.delete (r_method response) (_pendingRequests s)) s))
  /\ PendingMap.get (r_method response) (_pendingRequests s') = None
  /\ (forall k, k <> r_method response ->
        PendingMap.get k (_pendingRequests s') = PendingMap.get k (_pendingRequests s))
  /\ activeStreamSession s' = activeStreamSession s
  /\ _existingChannelId s' = _existingChannelId s
  /\ filter is_event (log s') = filter is_event (log s).
Proof.
  intros Hp s'.
  assert (Hrun : _handleMessage (Parsed response) s
    = (Ok tt,
       set_log (log s ++ [ClearTimeout (promise p); Resolve (promise p) response])
         (set_pendingRequests
            (PendingMap.delete (r_method response) (_pendingRequests s)) s))).
  { unfold _handleMessage. exec. rewrite Hp. exec. norm_log. reflexivity. }
  unfold s'. rewrite Hrun. simpl. split; [reflexivity|]. split; [apply get_delete|].
  split; [intros k N; now apply get_delete_other|].
  repeat split. rewrite filter_app. simpl. now rewrite app_nil_r.
Qed.

(** X18.  [_getConfig] never throws.  When the request is built, sent and
    answered, the answer becomes the network configuration and the broker
    address of the service, and [onConfigReady] is triggered last, with the
    networks and the broker now held.  When any of these fails it returns
    [null]: configuration and broker address stay what they were and no
    event is triggered. *)
Theorem getConfig_never_throws env s :
  let run := _getConfig env s in
  let s' := state_of run in
  exists outcome,
    result_of run = Ok outcome
    /\ match outcome with
       | Some response =>
           networkConfig s' = r_networks response
           /\ brokerAddress s' = r_brokerAddress response
           /\ exists before,
                log s' = before ++ [Event onConfigReady
                                      (ConfigData (networks s') (brokerAddress s'))]
       | None =>
           networkConfig s' = networkConfig s
           /\ brokerAddress s' = brokerAddress s
           /\ filter is_event (log s') = filter is_event (log s)
       end.
Proof.
  intros run s'. unfold s', run. clear run s'.
  unfold _getConfig. exec.
  destruct (sdk_create env (log s) GetConfigMsg) as [[]|e]; exec.
  - destruct (ws s) as [w|] eqn:Hw; exec.
    + destruct (socket_send env (log s ++ [Send w GetConfigMsg]) w GetConfigMsg)
        as [[]|e]; exec.
      * destruct (rpc_reply env (log s ++ [Send w GetConfigMsg]) GetConfig 15000)
          as [r|e]; exec.
        -- exists (Some r). split; [reflexivity|]. simpl. repeat split.
           eexists. unfold networks. simpl. reflexivity.
        -- exists None. repeat split. rewrite filter_app. simpl. now rewrite app_nil_r.
      * exists None. repeat split. rewrite filter_app. simpl. now rewrite app_nil_r.
    + exists None. repeat split.
  - exists None. repeat split.
Qed.

(** Two requests pending; the configuration arrives. *)
Lemma handleMessage_resolves_pending_witness :
  PendingMap.get (r_method (Demo.reply GetConfig)) (_pendingRequests Demo.two_pending)
  = Some {| promise := 1 |}
  /\ _handleMessage (Parsed (Demo.reply GetConfig)) Demo.two_pending
     = (Ok tt,
        set_log [ClearTimeout 1; Resolve 1 (Demo.reply GetConfig)]
          (set_pendingRequests [(CloseChannel, {| promise := 2 |})] Demo.two_pending)).
Proof.
  assert (Hp : PendingMap.get (r_method (Demo.reply GetConfig))
                 (_pendingRequests Demo.two_pending) = Some {| promise := 1 |})
    by reflexivity.
  split; [exact Hp|].
  exact (proj1 (handleMessage_resolves_pending Demo.two_pending (Demo.reply GetConfig)
                  _ Hp)).
Defined.

(** X19.  [isChainSupported] and [_findNetworkForChain] agree: a chain is
    supported exactly when a network is found for it; the network found is
    one of the configuration and has that chain id; and before a
    configuration was fetched no chain is supported. *)
Theorem isChainSupported_iff_network s chain :
  (isChainSupported s chain = true <-> exists n, _findNetworkForChain s chain = Some n)
  /\ (forall n, _findNetworkForChain s chain = Some n ->
        chainId n = chain /\ In n (networks s))
  /\ (networkConfig s = None -> isChainSupported s chain = false).
Proof.
  unfold isChainSupported, _findNetworkForChain, getSupportedChainIds.
  split; [|split].
  - induction (networks s) as [|n l IH]; simpl.
    + split; [discriminate|intros [n H]; discriminate].
    + rewrite (Z.eqb_sym chain). destruct (Z.eqb (chainId n) chain); simpl; [|exact IH].
      split; eauto.
  - intros n H. apply find_some in H. destruct H as [Hin Heq].
    apply Z.eqb_eq in Heq. auto.
  - unfold networks. intros ->. reflexivity.
Qed.

(* ================================================================= *)
(** ** Authenticator: outcome and liveness *)

Module AuthOutcome.
Import Auth.




Lemma cleanup_keeps st :
  settled (cleanup st) = settled st /\ service (cleanup st) = service st.
Proof. unfold cleanup. simpl. destruct (ws (service st)); simpl; auto. Qed.






(** A settled promise stays as it is, and a pending one has its timer. *)
Lemma settle_settles o st : exists o', settled (settle o st) = Some o'.
Proof. unfold settle. destruct (settled st) eqn:E; simpl; eauto. Qed.

Lemma settle_cleanup_stable o st o' :
  settled st = Some o' -> settled (settle o (cleanup st)) = Some o'.
Proof.
  intros H. destruct (cleanup_keeps st) as [Hs _].
  unfold settle. rewrite Hs, H. now rewrite Hs.
Qed.

Lemma step_settled_stable env i st o :
  settled st = Some o -> settled (step env i st) = Some o.
Proof.
  intros H. destruct i as [w data|w| | |]; simpl.
  - destruct (registered w onAuthMessage st); [|exact H].
    destruct data as [| |response]; try exact H.
    unfold on_response. destruct (r_method response); try exact H.
    + destruct (r_success response) as [[|]|].
      2: exact H.
      all: set (st1 := set_service (set_authenticated true (service st)) st).
      all: destruct (cleanup_keeps st1) as [Hs _].
      all: destruct (truthy_str (r_jwtToken response)); unfold settle; simpl.
      all: rewrite Hs; simpl; rewrite H; simpl; rewrite ?Hs; exact H.
    + now apply settle_cleanup_stable.
  - destruct (registered w onClose st); [|exact H]. now apply settle_cleanup_stable.
  - destruct (authTimeout st); [|exact H]. now apply settle_cleanup_stable.
  - destruct (requesting st); [|exact H]. simpl.
    destruct ((authPayload <- create env AuthRequestMsg;; ws_send env authPayload)
                (service st)) as [[[]|err] s']; [exact H|].
    now apply settle_cleanup_stable.
  - destruct (signing st) as [|n]; [exact H|]. simpl.
    destruct ((verifyPayload <- create env AuthVerifyMsg;; ws_send env verifyPayload)
                (service st)) as [[[]|err] s']; [exact H|].
    now apply settle_cleanup_stable.
Qed.

Lemma run_settled_stable env inputs : forall st o,
  settled st = Some o -> settled (run env inputs st) = Some o.
Proof.
  induction inputs as [|i inputs IH]; intros st o H; simpl; [exact H|].
  apply IH. now apply step_settled_stable.
Qed.

Lemma settled_armed st o : settled st = Some o -> armed st.
Proof. unfold armed. congruence. Qed.

Lemma step_armed env i st : armed st -> armed (step env i st).
Proof.
  intros Ha.
  assert (Hdone : forall o st', armed (settle o st')).
  { intros o st'. destruct (settle_settles o st') as [o' E]. eapply settled_armed; eauto. }
  destruct i as [w data|w| | |]; simpl.
  - destruct (registered w onAuthMessage st); [|exact Ha].
    destruct data as [| |response]; try exact Ha.
    unfold on_response. destruct (r_method response); try exact Ha; auto.
    destruct (r_success response) as [[|]|]; auto.
  - destruct (registered w onClose st); auto.
  - destruct (authTimeout st); auto.
  - destruct (requesting st); [|exact Ha]. simpl.
    destruct ((authPayload <- create env AuthRequestMsg;; ws_send env authPayload)
                (service st)) as [[[]|err] s']; auto.
  - destruct (signing st) as [|n]; [exact Ha|]. simpl.
    destruct ((verifyPayload <- create env AuthVerifyMsg;; ws_send env verifyPayload)
                (service st)) as [[[]|err] s']; auto.
Qed.

Lemma run_armed env inputs : forall st, armed st -> armed (run env inputs st).
Proof.
  induction inputs as [|i inputs IH]; intros st H; simpl; [exact H|].
  apply IH. now apply step_armed.
Qed.

Lemma start_armed s others : armed (start s others).
Proof.
  unfold armed, start.
  destruct (negb (walletClient s) || negb (sessionKey s)); simpl; [discriminate|].
  destruct (ws s); reflexivity.
Qed.

End AuthOutcome.


(** X21.  No handshake hangs.  Whatever reached it before, once its timer has
    fired its promise is settled, and nothing that reaches it later changes
    the outcome. *)
Theorem handshake_settles_by_timeout env s others inputs more :
  let st := Auth.run env (inputs ++ [Auth.TimerFired]) (Auth.start s others) in
  exists outcome,
    Auth.settled st = Some outcome
    /\ Auth.settled (Auth.run env more st) = Some outcome.
Proof.
  intros st. unfold st, Auth.run. rewrite fold_left_app. simpl.
  fold (Auth.run env inputs (Auth.start s others)).
  set (st0 := Auth.run env inputs (Auth.start s others)).
  assert (Ha : armed st0)
    by (apply AuthOutcome.run_armed, AuthOutcome.start_armed).
  assert (Hs : exists o, Auth.settled (Auth.step env Auth.TimerFired st0) = Some o).
  { destruct (Auth.settled st0) as [o|] eqn:E.
    - exists o. now apply AuthOutcome.step_settled_stable.
    - simpl. rewrite (Ha E). apply AuthOutcome.settle_settles. }
  destruct Hs as [o Ho]. exists o. split; [exact Ho|].
  fold (Auth.run env more (Auth.step env Auth.TimerFired st0)).
  now apply AuthOutcome.run_settled_stable.
Qed.


(* ================================================================= *)
(** ** Channel lifecycle: what every run keeps *)

(** Rules to specify a run from the runs of its parts. *)
Section SatRules.
Context {A B : Type}.

Lemma sat_bind (m : M A) (k : A -> M B) s (Q : Result B -> Service -> Prop) :
  sat m s (fun r s1 =>
             match r with
             | Ok a => sat (k a) s1 Q
             | Throw e => Q (Throw e) s1
             end) ->
  sat (bind m k) s Q.
Proof.
  unfold sat, bind, result_of, state_of. destruct (m s) as [[a|e] s1]; simpl; auto.
Qed.

Lemma sat_try (m : M A) (h : Error -> M A) s (Q : Result A -> Service -> Prop) :
  sat m s (fun r s1 =>
             match r with
             | Ok a => Q (Ok a) s1
             | Throw e => sat (h e) s1 Q
             end) ->
  sat (try_catch m h) s Q.
Proof.
  unfold sat, try_catch, result_of, state_of. destruct (m s) as [[a|e] s1]; simpl; auto.
Qed.

Lemma sat_conseq (m : M A) s (P Q : Result A -> Service -> Prop) :
  sat m s P -> (forall r s1, P r s1 -> Q r s1) -> sat m s Q.
Proof. unfold sat. auto. Qed.

End SatRules.

Lemma sat_ret {A} (a : A) s (Q : Result A -> Service -> Prop) :
  Q (Ok a) s -> sat (ret a) s Q.
Proof. auto. Qed.

Lemma sat_throw {A} e s (Q : Result A -> Service -> Prop) :
  Q (Throw e) s -> sat (throw e) s Q.
Proof. auto. Qed.

Lemma sat_get s (Q : Result Service -> Service -> Prop) :
  Q (Ok s) s -> sat get s Q.
Proof. auto. Qed.

Lemma sat_modify f s (Q : Result unit -> Service -> Prop) :
  Q (Ok tt) (f s) -> sat (modify f) s Q.
Proof. auto. Qed.

Lemma sat_record e s (Q : Result unit -> Service -> Prop) :
  Q (Ok tt) (set_log (log s ++ [e]) s) -> sat (record e) s Q.
Proof. auto. Qed.

Lemma sat_when b (m : M unit) s (Q : Result unit -> Service -> Prop) :
  (b = true -> sat m s Q) -> (b = false -> Q (Ok tt) s) -> sat (when b m) s Q.
Proof. destruct b; unfold when; intros H1 H2; [apply H1 | apply H2]; reflexivity. Qed.

(** Follow every path of a run: simplify as far as the answers are known,
    then take the cases of what the run asks next. *)
Ltac known :=
  match goal with
  | H : ?x = _ |- context [match ?x with _ => _ end] => rewrite H
  end.

Ltac next_case :=
  match goal with
  | |- context [match ?x with _ => _ end] =>
      lazymatch x with
      | context [match _ with _ => _ end] => fail
      | _ => destruct x eqn:?
      end
  end.

Ltac paths :=
  repeat (exec; repeat known; exec; try next_case);
  repeat match goal with u : unit |- _ => destruct u end.

(** What the stages of the flows leave alone. *)
Lemma closeStale_outcome env channel chain custody adjudicator s :
  sat (_closeStaleChannel env channel chain custody adjudicator) s
    (fun r s' =>
       isDeposited s' = isDeposited s
       /\ channelId s' = channelId s
       /\ _existingChannelId s' = _existingChannelId s
       /\ activeStreamSession s' = activeStreamSession s
       /\ tokenAddress s' = tokenAddress s).
Proof.
  unfold sat, result_of, state_of.
  destruct (_closeStaleChannel env channel chain custody adjudicator s) as [r s'] eqn:E.
  revert E. unfold _closeStaleChannel. paths.
  all: intros [= <- <-]; simpl; auto.
Qed.

(** The same for a stage [f] stated with [sat]. *)
Ltac by_paths f :=
  unfold sat, result_of, state_of;
  match goal with
  | |- context [snd (?m ?s)] =>
      let r := fresh "r" in
      let s1 := fresh "s" in
      let E := fresh "E" in
      destruct (m s) as [r s1] eqn:E; revert E
  end;
  unfold f; paths;
  intros [= <- <-]; unfold untouched; simpl; repeat split; auto; try discriminate.

Lemma step0_outcome env chain custody adjudicator s :
  sat (step0_close_stale env chain custody adjudicator) s
    (fun r s' =>
       r = Ok tt
       /\ activeStreamSession s' = activeStreamSession s
       /\ tokenAddress s' = tokenAddress s
       /\ if truthy_str (or_else (channelId s) (_existingChannelId s))
          then channelId s' = None /\ _existingChannelId s' = None
               /\ isDeposited s' = false
          else s' = s).
Proof.
  unfold sat, result_of, state_of, step0_close_stale. exec.
  destruct (or_else (channelId s) (_existingChannelId s)) as [stale|] eqn:Hst;
    [|simpl; auto].
  destruct (truthy_str (Some stale)) eqn:Htr; [|simpl; auto].
  exec.
  pose proof (closeStale_outcome env stale chain custody adjudicator
                (set_log (log s ++ [Event onDepositProgress
                                      (Progress 0 TOTAL_STEPS TxtClosingPrevious false)]) s))
    as Hc.
  unfold sat, result_of, state_of in Hc.
  destruct (_closeStaleChannel env stale chain custody adjudicator _) as [[[]|e] s1];
    simpl in *; destruct Hc as (_ & _ & _ & Hs & Ht); repeat split; auto.
Qed.

Lemma step1_outcome env chain token custody adjudicator s :
  sat (step1_setup env chain token custody adjudicator) s
    (fun r s' =>
       r = Ok tt
       /\ untouched s s'
       /\ nitroliteClient s' = Some (new_NitroliteClient custody adjudicator chain)).
Proof. by_paths step1_setup. Qed.

Lemma step2_outcome env amount units token custody s :
  sat (step2_approve env amount units token custody) s (fun _ s' => untouched s s').
Proof. by_paths step2_approve. Qed.

Lemma step3_outcome env amount units token s :
  sat (step3_deposit env amount units token) s (fun _ s' => untouched s s').
Proof. by_paths step3_deposit. Qed.

Lemma step4_outcome env chain token s :
  sat (step4_create_channel env chain token) s
    (fun r s' =>
       isDeposited s' = isDeposited s
       /\ activeStreamSession s' = activeStreamSession s
       /\ tokenAddress s' = tokenAddress s
       /\ _existingChannelId s' = _existingChannelId s
       /\ match r with
          | Ok created => channelId s' = Some (fst created)
          | Throw _ => channelId s' = channelId s
          end).
Proof. by_paths step4_create_channel. Qed.

Lemma step5_outcome env channel units s :
  sat (step5_resize env channel units) s (fun _ s' => untouched s s').
Proof. by_paths step5_resize. Qed.

Lemma step6_outcome env channel units s :
  sat (step6_allocate env channel units) s (fun _ s' => untouched s s').
Proof. by_paths step6_allocate. Qed.

Lemma step7_outcome amount s :
  sat (step7_confirm amount) s
    (fun r s' =>
       r = Ok tt /\ isDeposited s' = true
       /\ channelId s' = channelId s
       /\ activeStreamSession s' = activeStreamSession s
       /\ tokenAddress s' = tokenAddress s
       /\ _existingChannelId s' = _existingChannelId s).
Proof. by_paths step7_confirm. Qed.

(** The deposit as a whole, from its stages. *)
Lemma deposit_outcome env amount chain token s :
  sat (depositAndOpenChannel env amount chain token) s
    (fun r s' =>
       activeStreamSession s' = activeStreamSession s
       /\ match r with
          | Ok result =>
              isDeposited s' = true
              /\ channelId s' = Some (dep_channelId result)
              /\ tokenAddress s' = Some token
          | Throw _ => isDeposited s = false -> isDeposited s' = false
          end
       /\ (connected s = true -> authenticated s = true -> publicClient s = true ->
           _findNetworkForChain s chain <> None ->
           truthy_str (_existingChannelId s') = false)).
Proof.
  unfold depositAndOpenChannel.
  apply sat_bind, sat_get.
  destruct (connected s); simpl;
    [|apply sat_throw; repeat split; auto; discriminate].
  destruct (authenticated s); simpl;
    [|apply sat_throw; repeat split; auto; discriminate].
  destruct (publicClient s); simpl;
    [|apply sat_throw; repeat split; auto; discriminate].
  destruct (_findNetworkForChain s chain) as [network|];
    [|apply sat_throw; repeat split; auto; congruence].
  apply sat_bind, sat_modify.
  apply sat_bind. eapply sat_conseq; [apply step0_outcome|].
  intros r s0 (-> & Hs0 & Ht0 & H0). simpl in Hs0, Ht0, H0.
  assert (Hd0 : isDeposited s = false -> isDeposited s0 = false).
  { destruct (truthy_str _); [intros _; apply H0 | subst s0; auto]. }
  assert (He0 : truthy_str (_existingChannelId s0) = false).
  { destruct (truthy_str (or_else (channelId s) (_existingChannelId s))) eqn:Hst.
    - destruct H0 as (_ & -> & _). reflexivity.
    - subst s0. simpl. unfold or_else in Hst.
      destruct (truthy_str (channelId s)) eqn:Hc; [congruence|exact Hst]. }
  clear H0.
  apply sat_bind. eapply sat_conseq; [apply step1_outcome|].
  intros r s1 (-> & (Hd1 & _ & Hs1 & Ht1 & He1) & _).
  apply sat_bind. eapply sat_conseq; [apply step2_outcome|].
  intros r s2 (Hd2 & _ & Hs2 & Ht2 & He2).
  destruct r as [[]|e]; [|repeat split; intros; try (pose proof (Hd0 ltac:(assumption))); congruence].
  apply sat_bind. eapply sat_conseq; [apply step3_outcome|].
  intros r s3 (Hd3 & _ & Hs3 & Ht3 & He3).
  destruct r as [depositHash|e]; [|repeat split; intros; try (pose proof (Hd0 ltac:(assumption))); congruence].
  apply sat_bind. eapply sat_conseq; [apply step4_outcome|].
  intros r s4 (Hd4 & Hs4 & Ht4 & He4 & Hc4).
  destruct r as [created|e]; [|repeat split; intros; try (pose proof (Hd0 ltac:(assumption))); congruence].
  apply sat_bind. eapply sat_conseq; [apply step5_outcome|].
  intros r s5 (Hd5 & Hc5 & Hs5 & Ht5 & He5).
  destruct r as [resizeTxHash|e]; [|repeat split; intros; try (pose proof (Hd0 ltac:(assumption))); congruence].
  apply sat_bind. eapply sat_conseq; [apply step6_outcome|].
  intros r s6 (Hd6 & Hc6 & Hs6 & Ht6 & He6).
  destruct r as [allocateTxHash|e]; [|repeat split; intros; try (pose proof (Hd0 ltac:(assumption))); congruence].
  apply sat_bind. eapply sat_conseq; [apply step7_outcome|].
  intros r s7 (-> & Hd7 & Hc7 & Hs7 & Ht7 & He7).
  apply sat_ret. simpl. repeat split; intros; congruence.
Qed.

(** X22.  [depositAndOpenChannel] marks the service as deposited exactly when
    it returns.  On a service that is not marked deposited, a call that
    returns leaves it marked, with the channel id it returns recorded and
    the token address set; a call that throws, at whichever guard or stage
    and whatever was submitted before, leaves it unmarked.  The session of
    tips is never touched. *)
Theorem deposit_marks_deposited_on_success_only env amount chain token s :
  isDeposited s = false ->
  let run := depositAndOpenChannel env amount chain token s in
  activeStreamSession (state_of run) = activeStreamSession s
  /\ match result_of run with
     | Ok result =>
         isDeposited (state_of run) = true
         /\ channelId (state_of run) = Some (dep_channelId result)
         /\ tokenAddress (state_of run) = Some token
     | Throw _ => isDeposited (state_of run) = false
     end.
Proof.
  intros Hdep run. unfold run. clear run.
  pose proof (deposit_outcome env amount chain token s) as H. unfold sat in H.
  destruct H as (Hs & Hr & _). split; [exact Hs|].
  destruct (result_of (depositAndOpenChannel env amount chain token s)); auto.
Qed.


(** A deposit of 5 in a world where every call succeeds. *)
Lemma deposit_marks_deposited_on_success_only_witness :
  isDeposited Demo.online = false
  /\ exists result,
       result_of (depositAndOpenChannel (Demo.world 0 0) 5 8453%Z "0xusdc" Demo.online)
       = Ok result
       /\ isDeposited
            (state_of (depositAndOpenChannel (Demo.world 0 0) 5 8453%Z "0xusdc" Demo.online))
          = true
       /\ channelId
            (state_of (depositAndOpenChannel (Demo.world 0 0) 5 8453%Z "0xusdc" Demo.online))
          = Some (dep_channelId result).
Proof.
  assert (Hd : isDeposited Demo.online = false) by reflexivity.
  split; [exact Hd|].
  pose proof (deposit_marks_deposited_on_success_only (Demo.world 0 0) 5 8453%Z "0xusdc"
                Demo.online Hd) as H.
  cbv zeta in H. destruct H as (_ & H).
  destruct (result_of (depositAndOpenChannel (Demo.world 0 0) 5 8453%Z "0xusdc" Demo.online))
    as [result|e] eqn:E; [|discriminate E].
  exists result. destruct H as (H1 & H2 & _). auto.
Defined.


(** The loop of the cleanup: every channel is closed or reported. *)
Lemma close_all_outcome env channels : forall results s,
  sat (close_all env channels results) s
    (fun r s' =>
       exists results',
         r = Ok results'
         /\ closes_accounted results' = (length channels + closes_accounted results)%nat
         /\ custodyDrained results' = custodyDrained results
         /\ ledgerBalance results' = ledgerBalance results
         /\ tokenAddress s' = tokenAddress s).
Proof.
  induction channels as [|chId rest IH]; intros results s; simpl close_all.
  - apply sat_ret. exists results. auto.
  - apply sat_bind.
    eapply sat_conseq with
      (P := fun r s1 =>
              tokenAddress s1 = tokenAddress s
              /\ exists results1,
                   r = Ok results1
                   /\ ((exists c, results1 = push_closed c results)
                       \/ (exists e, results1 = push_error (CloseFailed chId e) results))).
    + unfold sat, result_of, state_of.
      match goal with
      | |- context [snd (?m ?s)] =>
          destruct (m s) as [r s1] eqn:E; revert E
      end.
      paths; intros [= <- <-]; simpl; split; eauto.
    + intros r s1 (Ht & results1 & -> & Hcase).
      eapply sat_conseq; [apply IH|].
      intros r s2 (results2 & -> & Hcount & Hdrain & Hledger & Ht2).
      exists results2. split; [reflexivity|].
      unfold closes_accounted in *.
      destruct Hcase as [(c & ->)|(e & ->)]; simpl in *;
        rewrite ?length_app, ?filter_app, ?length_app in Hcount; simpl in Hcount;
        repeat split; try congruence; lia.
Qed.

(** X24.  Past its guards [deepCleanup] never throws, whatever the
    collaborators answer.  Every channel it set out to close is reported,
    as closed or with the error of its close; the custody is reported as
    drained, or the error of the drain is; the ledger balance of the summary
    is always [null].  Afterwards no channel id is tracked or observed, the
    service is not marked deposited, has no on-chain client and no active
    session, and the token address is the one passed. *)
Theorem deepCleanup_always_completes env chain token s network :
  connected s = true -> authenticated s = true -> publicClient s = true ->
  _findNetworkForChain s chain = Some network ->
  let run := deepCleanup env chain token s in
  let s' := state_of run in
  exists results,
    result_of run = Ok results
    /\ closes_accounted results = length (channelsToClose s)
    /\ (custodyDrained results <> None
        \/ exists e, In (DrainFailed e) (errors results))
    /\ ledgerBalance results = None
    /\ (channelId s' = None /\ _existingChannelId s' = None
        /\ isDeposited s' = false /\ nitroliteClient s' = None
        /\ activeStreamSession s' = None)
    /\ tokenAddress s' = Some token.
Proof.
  intros Hcon Hau Hpc Hnet run s'. unfold s', run. clear run s'.
  change (sat (deepCleanup env chain token) s
            (fun r s' =>
               exists results,
                 r = Ok results
                 /\ closes_accounted results = length (channelsToClose s)
                 /\ (custodyDrained results <> None
                     \/ exists e, In (DrainFailed e) (errors results))
                 /\ ledgerBalance results = None
                 /\ (channelId s' = None /\ _existingChannelId s' = None
                     /\ isDeposited s' = false /\ nitroliteClient s' = None
                     /\ activeStreamSession s' = None)
                 /\ tokenAddress s' = Some token)).
  unfold deepCleanup.
  apply sat_bind, sat_get. rewrite Hcon, Hau, Hpc, Hnet. simpl.
  apply sat_bind, sat_modify.
  apply sat_bind, sat_record.
  apply sat_bind, sat_when; intros _; [apply sat_modify|].
  all: apply sat_bind, sat_record.
  all: apply sat_bind; (eapply sat_conseq; [apply close_all_outcome|]).
  all: intros r s1 (results1 & -> & Hcount & Hdrain & Hledger & Ht1).
  all: apply sat_bind, sat_record.
  all: apply sat_bind.
  all: eapply sat_conseq with
      (P := fun r s2 =>
              tokenAddress s2 = tokenAddress s1
              /\ exists results2,
                   r = Ok results2
                   /\ ((exists d, results2 = set_custodyDrained d results1)
                       \/ (exists e, results2 = push_error (DrainFailed e) results1))).
  1, 3: unfold sat, result_of, state_of;
    match goal with
    | |- context [snd (?m ?s)] => destruct (m s) as [r s2] eqn:E; revert E
    end;
    paths; intros [= <- <-]; simpl; split; eauto.
  all: intros r s2 (Ht2 & results2 & -> & Hcase).
  all: apply sat_bind, sat_record.
  all: apply sat_bind.
  all: eapply sat_conseq with
      (P := fun r s3 => r = Ok tt /\ tokenAddress s3 = tokenAddress s2).
  1, 3: unfold sat, result_of, state_of;
    match goal with
    | |- context [snd (?m ?s)] => destruct (m s) as [r s3] eqn:E; revert E
    end;
    paths; intros [= <- <-]; simpl; split; eauto.
  all: intros r s3 (-> & Ht3).
  all: do 5 (apply sat_bind, sat_modify).
  all: apply sat_bind, sat_record.
  all: apply sat_ret.
  all: exists results2; split; [reflexivity|]; simpl.
  all: unfold closes_accounted in *; simpl in *.
  all: destruct Hcase as [(d & ->)|(e & ->)]; simpl;
    rewrite ?filter_app, ?length_app; simpl.
  all: repeat split; try congruence; try lia.
  all: try (left; discriminate).
  all: right; exists e; apply in_or_app; right; now left.
Qed.

(** X25.  With an on-chain client, [closeChannelAndWithdraw] forgets the
    channel exactly when it returns.  When it returns, it returns a result,
    the channel id is cleared and the service is not marked deposited, also
    when the withdrawal failed.  When it throws, a channel id was recorded
    and closing it failed: channel id and deposit mark are kept, nothing was
    withdrawn, and the last effect is the [onError] event of the failure.
    The client stays, and the session is not touched, either way. *)
Theorem closeChannelAndWithdraw_clears_on_return_only env s client :
  nitroliteClient s = Some client ->
  let run := closeChannelAndWithdraw env s in
  let s' := state_of run in
  nitroliteClient s' = Some client
  /\ activeStreamSession s' = activeStreamSession s
  /\ match result_of run with
     | Ok result =>
         result <> None /\ channelId s' = None /\ isDeposited s' = false
     | Throw e =>
         truthy_str (channelId s) = true
         /\ channelId s' = channelId s /\ isDeposited s' = isDeposited s
         /\ filter is_withdrawal (log s') = filter is_withdrawal (log s)
         /\ exists before,
              log s' = before ++ [Event onError (ErrorInfo withdraw_error (Some e))]
     end.
Proof.
  intros Hc run s'. unfold s', run, result_of, state_of. clear run s'.
  destruct (closeChannelAndWithdraw env s) as [r s1] eqn:E. revert E.
  unfold closeChannelAndWithdraw. exec. rewrite Hc. simpl.
  paths; intros [= <- <-]; simpl; repeat split; auto; try discriminate.
  all: rewrite ?filter_app; simpl; rewrite ?app_nil_r; auto.
  all: eexists; reflexivity.
Qed.

(** Two channels known, and a socket that throws: both closes fail and
    are reported, and the state is reset. *)
Lemma deepCleanup_always_completes_witness :
  let s := set_existingChannelId (Some "0xold") Demo.deposited in
  (connected s = true /\ authenticated s = true /\ publicClient s = true
   /\ _findNetworkForChain s 8453%Z = Some Demo.base_network)
  /\ length (channelsToClose s) = 2%nat
  /\ exists results,
       result_of (deepCleanup Demo.broken_socket 8453%Z "0xusdc" s) = Ok results
       /\ closes_accounted results = 2%nat
       /\ channelId (state_of (deepCleanup Demo.broken_socket 8453%Z "0xusdc" s)) = None.
Proof.
  intros s. split; [repeat split|]. split; [reflexivity|].
  destruct (deepCleanup_always_completes Demo.broken_socket 8453%Z "0xusdc" s
              Demo.base_network eq_refl eq_refl eq_refl eq_refl)
    as (results & Hrun & Hcount & _ & _ & (Hch & _) & _).
  exists results. auto.
Defined.

(** The deposited service: with a socket that throws the close fails
    and the channel is kept; in a world where every call succeeds the
    channel is cleared. *)
Lemma closeChannelAndWithdraw_clears_on_return_only_witness :
  nitroliteClient Demo.deposited = Some Demo.client
  /\ (exists e,
        result_of (closeChannelAndWithdraw Demo.broken_socket Demo.deposited) = Throw e)
  /\ channelId (state_of (closeChannelAndWithdraw Demo.broken_socket Demo.deposited))
     = Some "0xc1"
  /\ (exists result,
        result_of (closeChannelAndWithdraw (Demo.world 3 0) Demo.deposited) = Ok result)
  /\ channelId (state_of (closeChannelAndWithdraw (Demo.world 3 0) Demo.deposited))
     = None.
Proof.
  assert (Hc : nitroliteClient Demo.deposited = Some Demo.client) by reflexivity.
  split; [exact Hc|].
  pose proof (closeChannelAndWithdraw_clears_on_return_only Demo.broken_socket
                Demo.deposited Demo.client Hc) as Hbad.
  pose proof (closeChannelAndWithdraw_clears_on_return_only (Demo.world 3 0)
                Demo.deposited Demo.client Hc) as Hgood.
  cbv zeta in Hbad, Hgood.
  destruct Hbad as (_ & _ & Hbad). destruct Hgood as (_ & _ & Hgood).
  destruct (result_of (closeChannelAndWithdraw Demo.broken_socket Demo.deposited))
    as [r|e] eqn:E1; [discriminate E1|].
  destruct (result_of (closeChannelAndWithdraw (Demo.world 3 0) Demo.deposited))
    as [r|e'] eqn:E2; [|discriminate E2].
  destruct Hbad as (_ & Hch & _). destruct Hgood as (_ & Hch' & _).
  repeat split; eauto.
Defined.




(* ================================================================= *)
(** ** Opening a session, and channels the node reports *)

(** X26.  [createStreamSession] is local and does not look at the session in
    place.  On a connected and authenticated service, with a streamer address
    that is not empty and a budget that is not zero, it always returns,
    whatever the collaborators answer and whether a session is active or not:
    the new session, with nothing spent, the whole budget remaining and the
    commission rate of its kind, replaces the active session; the only
    effects are the ledger query, when it could be sent, and one
    [onSessionCreated] event.  A session that was active is dropped without
    a summary or an [onSessionClosed] event. *)
Theorem createStreamSession_replaces_session env s streamer B partner :
  connected s = true -> authenticated s = true ->
  streamer <> EmptyString -> ~ (B == 0)%Q ->
  let run := createStreamSession env streamer B partner s in
  let t := now env (log s) in
  let rate := if partner then partnerCommission (config s)
              else standardCommission (config s) in
  let session :=
    {| sessionId := t; streamerAddress := streamer; viewerAddress := userAddress s;
       initialDeposit := B; currentBalance := B; spent := 0;
       commissionRate := rate; isPartner := partner;
       createdAt := t; closedAt := None; status := active |} in
  result_of run
  = Ok {| created_sessionId := t; created_deposit := B;
          created_commissionRate := rate; created_session := session |}
  /\ activeStreamSession (state_of run) = Some session
  /\ exists query,
       log (state_of run) = log s ++ query ++ [Event onSessionCreated (SessionInfo t)]
       /\ (query = []
           \/ exists w, ws s = Some w
                /\ query = [Send w (GetLedgerBalancesMsg (userAddress s))]).
Proof.
  intros Hcon Hau Hstr HB run t rate session.
  assert (Htr : truthy_str (@Some Address streamer) = true).
  { unfold truthy_str. apply negb_true_iff. now apply String.eqb_neq. }
  assert (Hnum : truthy_num B = true).
  { unfold truthy_num. apply negb_true_iff.
    destruct (Qeq_bool B 0) eqn:E; [|reflexivity].
    apply Qeq_bool_iff in E. contradiction. }
  assert (Hrun : exists query,
    run = (Ok {| created_sessionId := t; created_deposit := B;
                 created_commissionRate := rate; created_session := session |},
           set_log (log s ++ query ++ [Event onSessionCreated (SessionInfo t)])
             (set_activeStreamSession (Some session) s))
    /\ (query = []
        \/ exists w, ws s = Some w
             /\ query = [Send w (GetLedgerBalancesMsg (userAddress s))])).
  { unfold run, createStreamSession. unfold bind at 1. unfold get at 1. cbv beta iota.
    rewrite Hcon, Hau, Htr, Hnum.
    change (negb true || negb true) with false. cbv beta iota.
    unfold try_catch at 1. unfold bind at 1. unfold ask at 1.
    unfold bind at 1. unfold modify at 1. unfold bind at 1.
    fold t. fold rate. fold session.
    destruct (sessionSigner s); unfold when.
    - match goal with |- context [try_catch ?m ?h ?s1] =>
        destruct (swallowed_send env (GetLedgerBalancesMsg (userAddress s)) s1)
        as (l & Heq & Hl)
      end.
      rewrite Heq. exec. exists l. split; [now rewrite <- app_assoc|exact Hl].
    - exec. exists []. auto. }
  destruct Hrun as (query & -> & Hq). simpl. repeat split. exists query. auto.
Qed.

(** A second session, with another streamer, over the session of 5, on
    a socket that throws. *)
Lemma createStreamSession_replaces_session_witness :
  (connected Demo.funded = true /\ authenticated Demo.funded = true
   /\ "0xother" <> EmptyString /\ ~ (7 == 0)%Q)
  /\ option_map streamerAddress (activeStreamSession Demo.funded) = Some "0xstreamer"
  /\ option_map (fun x => (streamerAddress x, initialDeposit x, spent x))
       (activeStreamSession
          (state_of (createStreamSession Demo.broken_socket "0xother" 7 true Demo.funded)))
     = Some ("0xother", 7, 0).
Proof.
  assert (H1 : "0xother" <> EmptyString) by discriminate.
  assert (H2 : ~ (7 == 0)%Q) by (intros H; discriminate H).
  split; [repeat split; assumption|]. split; [reflexivity|].
  destruct (createStreamSession_replaces_session Demo.broken_socket Demo.funded
              "0xother" 7 true eq_refl eq_refl H1 H2) as (_ & Hs & _).
  rewrite Hs. reflexivity.
Defined.

(** X27.  A channels update that nobody awaits and that lists an open or
    active channel: while a channel id is tracked the update changes nothing;
    otherwise the id of the first such channel becomes the observed channel
    id, which is then the one channel [deepCleanup] sets out to close.  No
    event is triggered either way. *)
Theorem observed_channel_is_remembered s response c :
  r_method response = ChannelsUpdate ->
  PendingMap.get ChannelsUpdate (_pendingRequests s) = None ->
  find is_open (r_channels response) = Some c ->
  let s' := state_of (_handleMessage (Parsed response) s) in
  result_of (_handleMessage (Parsed response) s) = Ok tt
  /\ log s' = log s
  /\ channelId s' = channelId s
  /\ (truthy_str (channelId s) = true -> s' = s)
  /\ (truthy_str (channelId s) = false ->
      _existingChannelId s' = ch_channelId c
      /\ (truthy_str (ch_channelId c) = true ->
          exists id, ch_channelId c = Some id /\ channelsToClose s' = [id])).
Proof.
  intros Hm Hp Hc s'. unfold s'. clear s'.
  assert (Hst : standing_handler response s
                = (Ok tt, if truthy_str (channelId s) then s
                          else set_existingChannelId (ch_channelId c) s)).
  { assert (Hlen : (0 <? length (r_channels response))%nat = true)
      by (destruct (r_channels response); [discriminate Hc|reflexivity]).
    unfold standing_handler. rewrite Hm. unfold bind, get. cbv beta iota zeta.
    rewrite Hlen, Hc.
    destruct (truthy_str (channelId s)); reflexivity. }
  unfold _handleMessage. exec. rewrite Hm, Hp. simpl. rewrite Hst. simpl.
  destruct (truthy_str (channelId s)) eqn:Hch; simpl.
  - repeat split; auto; discriminate.
  - repeat split; try discriminate.
    intros Hid. destruct (ch_channelId c) as [id|] eqn:Eid; [|discriminate].
    exists id. split; [reflexivity|].
    unfold channelsToClose. simpl. rewrite Hid.
    destruct (channelId s) as [x|]; [rewrite Hch|]; reflexivity.
Qed.

(** X28.  The channels [deepCleanup] sets out to close are the tracked and the
    observed channel id, as far as they are not empty, each once: when both
    name the same channel it is closed once. *)
Theorem channelsToClose_once_each s :
  NoDup (channelsToClose s)
  /\ (length (channelsToClose s) <= 2)%nat
  /\ forall c,
       In c (channelsToClose s)
       <-> c <> EmptyString /\ (channelId s = Some c \/ _existingChannelId s = Some c).
Proof.
  unfold channelsToClose.
  assert (Htruthy : forall c : string, truthy_str (Some c) = true <-> c <> EmptyString).
  { intros c. unfold truthy_str. rewrite negb_true_iff. apply String.eqb_neq. }
  assert (Hfalsy : forall c : string, truthy_str (Some c) = false -> c = EmptyString).
  { intros c. unfold truthy_str. rewrite negb_false_iff. apply String.eqb_eq. }
  destruct (channelId s) as [a|]; destruct (_existingChannelId s) as [b|].
  - destruct (truthy_str (Some a)) eqn:Ha; destruct (truthy_str (Some b)) eqn:Hb; simpl.
    + destruct (String.eqb_spec b a) as [->|N]; simpl.
      * split; [repeat constructor; auto|]. split; [lia|].
        intros c. apply Htruthy in Ha. split.
        -- intros [<-|[]]. auto.
        -- intros [_ [[= <-]|[= <-]]]; auto.
      * split; [repeat constructor; simpl; intuition congruence|]. split; [lia|].
        intros c. apply Htruthy in Ha, Hb. split.
        -- intros [<-|[<-|[]]]; auto.
        -- intros [_ [[= <-]|[= <-]]]; auto.
    + split; [repeat constructor; auto|]. split; [lia|].
      intros c. apply Htruthy in Ha. apply Hfalsy in Hb. split.
      * intros [<-|[]]. auto.
      * intros [Hc [[= <-]|[= <-]]]; [auto|congruence].
    + split; [repeat constructor; auto|]. split; [lia|].
      intros c. apply Htruthy in Hb. apply Hfalsy in Ha. split.
      * intros [<-|[]]. auto.
      * intros [Hc [[= <-]|[= <-]]]; [congruence|auto].
    + split; [constructor|]. split; [lia|].
      intros c. apply Hfalsy in Ha, Hb. split; [intros []|].
      intros [Hc [[= <-]|[= <-]]]; congruence.
  - destruct (truthy_str (Some a)) eqn:Ha; simpl.
    + split; [repeat constructor; auto|]. split; [lia|].
      intros c. apply Htruthy in Ha. split.
      * intros [<-|[]]. auto.
      * intros [_ [[= <-]|H]]; [auto|discriminate].
    + split; [constructor|]. split; [lia|].
      intros c. apply Hfalsy in Ha. split; [intros []|].
      intros [Hc [[= <-]|H]]; [congruence|discriminate].
  - destruct (truthy_str (Some b)) eqn:Hb; simpl.
    + split; [repeat constructor; auto|]. split; [lia|].
      intros c. apply Htruthy in Hb. split.
      * intros [<-|[]]. auto.
      * intros [_ [H|[= <-]]]; [discriminate|auto].
    + split; [constructor|]. split; [lia|].
      intros c. apply Hfalsy in Hb. split; [intros []|].
      intros [Hc [H|[= <-]]]; [discriminate|congruence].
  - simpl. split; [constructor|]. split; [lia|].
    intros c. split; [intros []|]. intros [_ [H|H]]; discriminate.
Qed.

(* ================================================================= *)
(** ** The session key across reloads *)

Module SessionKeyFacts.
Import SessionKey.

Lemma fingerprint_eqb_refl fp : fingerprint_eqb fp fp = true.
Proof. unfold fingerprint_eqb. now rewrite !String.eqb_refl. Qed.

Lemma fingerprint_eqb_eq a b : fingerprint_eqb a b = true <-> a = b.
Proof.
  unfold fingerprint_eqb. rewrite !andb_true_iff, !String.eqb_eq.
  destruct a, b; simpl. split.
  - intros [[-> ->] ->]. reflexivity.
  - intros [= -> -> ->]. auto.
Qed.

End SessionKeyFacts.

Arguments SessionKey.generate : simpl never.

(** X29.  With a storage that can be read and written, after
    [_initSessionKey] the service holds a key, a signer made from it, and
    the stored entry holds that key with the fingerprint of the
    configuration.  Running the method again under the same configuration
    restores the same key and leaves the entry alone, whatever fresh key was
    on offer; running it under a configuration with another fingerprint
    discards the key, installs the fresh one and stores it with the new
    fingerprint. *)
Theorem session_key_survives_reload storage address_of accepted fp fresh st :
  SessionKey.readable storage = true ->
  SessionKey.writable storage = true ->
  fresh <> EmptyString -> address_of fresh <> EmptyString ->
  accepted fresh = true ->
  let init := SessionKey._initSessionKey storage address_of accepted in
  let st1 := init fp fresh st in
  (exists key, SessionKey.sessionKey st1 = Some key
     /\ SessionKey.sessionSigner st1 = Some (SessionKey.privateKey key)
     /\ SessionKey.stored st1
        = SessionKey.Entry (Some (SessionKey.privateKey key))
            (Some (SessionKey.address key)) (Some fp))
  /\ (forall fresh', init fp fresh' st1 = st1)
  /\ (forall fp' fresh',
        fp' <> fp ->
        SessionKey.sessionKey (init fp' fresh' st1)
        = Some {| SessionKey.privateKey := fresh';
                  SessionKey.address := address_of fresh' |}
        /\ SessionKey.stored (init fp' fresh' st1)
           = SessionKey.Entry (Some fresh') (Some (address_of fresh')) (Some fp')).
Proof.
  intros Hr Hw Hfresh Haddr Hacc init st1.
  assert (Htf : truthy_str (Some fresh) = true)
    by (unfold truthy_str; apply negb_true_iff; now apply String.eqb_neq).
  assert (Hta : truthy_str (Some (address_of fresh)) = true)
    by (unfold truthy_str; apply negb_true_iff; now apply String.eqb_neq).
  assert (Hgen : forall st0,
            SessionKey.generate storage address_of fp fresh st0
            = {| SessionKey.sessionKey :=
                   Some {| SessionKey.privateKey := fresh;
                           SessionKey.address := address_of fresh |};
                 SessionKey.sessionSigner := Some fresh;
                 SessionKey.stored :=
                   SessionKey.Entry (Some fresh) (Some (address_of fresh)) (Some fp) |})
    by (intros; unfold SessionKey.generate; now rewrite Hw).
  assert (Hshape : exists pk addr,
            st1 = {| SessionKey.sessionKey :=
                       Some {| SessionKey.privateKey := pk; SessionKey.address := addr |};
                     SessionKey.sessionSigner := Some pk;
                     SessionKey.stored := SessionKey.Entry (Some pk) (Some addr) (Some fp) |}
            /\ truthy_str (Some pk) = true /\ truthy_str (Some addr) = true
            /\ accepted pk = true).
  { unfold st1, init, SessionKey._initSessionKey. rewrite Hr. simpl.
    destruct (SessionKey.stored st) as [| | |[pk|] [addr|] sfp] eqn:Est;
      rewrite ?Hgen; try solve [exists fresh, (address_of fresh); auto].
    destruct (truthy_str (Some pk)) eqn:Hp; simpl;
      [|solve [exists fresh, (address_of fresh); auto]].
    destruct (truthy_str (Some addr)) eqn:Ha; simpl;
      [|solve [exists fresh, (address_of fresh); auto]].
    destruct (SessionKey.matches fp sfp) eqn:Hm;
      [|solve [exists fresh, (address_of fresh); auto]].
    destruct (accepted pk) eqn:Hok;
      [|solve [exists fresh, (address_of fresh); auto]].
    exists pk, addr. repeat split; auto.
    unfold SessionKey.matches in Hm. destruct sfp as [fp0|]; [|discriminate].
    apply SessionKeyFacts.fingerprint_eqb_eq in Hm. now subst fp0. }
  destruct Hshape as (pk & addr & Hst1 & Hp & Ha & Hok).
  split; [|split].
  - rewrite Hst1. eexists. simpl. repeat split.
  - intros fresh'. rewrite Hst1. unfold init, SessionKey._initSessionKey.
    rewrite Hr. simpl. rewrite Hp, Ha. simpl.
    now rewrite SessionKeyFacts.fingerprint_eqb_refl, Hok.
  - intros fp' fresh' Hne. rewrite Hst1. unfold init, SessionKey._initSessionKey.
    rewrite Hr. simpl. rewrite Hp, Ha. simpl.
    assert (Hm : SessionKey.fingerprint_eqb fp fp' = false).
    { destruct (SessionKey.fingerprint_eqb fp fp') eqn:E; [|reflexivity].
      apply SessionKeyFacts.fingerprint_eqb_eq in E. congruence. }
    rewrite Hm. unfold SessionKey.generate. simpl. rewrite Hw. auto.
Qed.

(** An empty storage: the first run stores its key, the second restores
    it. *)
Lemma session_key_survives_reload_witness :
  let storage :=
    {| SessionKey.readable := true; SessionKey.removable := true;
       SessionKey.writable := true |} in
  let address_of := fun pk => String.append "0xaddress-of-" pk in
  let accepted := fun _ : string => true in
  let fp := {| SessionKey.fp_asset := "usdc"; SessionKey.fp_scope := "yellowtok.app";
               SessionKey.fp_app := "YellowTok" |} in
  let empty := {| SessionKey.sessionKey := None; SessionKey.sessionSigner := None;
                  SessionKey.stored := SessionKey.NoEntry |} in
  let init := SessionKey._initSessionKey storage address_of accepted in
  ("0xkey1" <> EmptyString /\ address_of "0xkey1" <> EmptyString)
  /\ init fp "0xkey2" (init fp "0xkey1" empty) = init fp "0xkey1" empty
  /\ SessionKey.sessionKey (init fp "0xkey2" (init fp "0xkey1" empty))
     = Some {| SessionKey.privateKey := "0xkey1";
               SessionKey.address := "0xaddress-of-0xkey1" |}.
Proof.
  intros storage address_of accepted fp empty init.
  assert (H1 : "0xkey1" <> EmptyString) by discriminate.
  assert (H2 : address_of "0xkey1" <> EmptyString) by discriminate.
  split; [auto|].
  destruct (session_key_survives_reload storage address_of accepted fp "0xkey1" empty
              eq_refl eq_refl H1 H2 eq_refl) as (_ & Hsame & _).
  fold init in Hsame. split; [apply Hsame|]. rewrite Hsame. reflexivity.
Defined.

(** A closed and an open channel reported to a service that tracks
    none. *)
Lemma observed_channel_is_remembered_witness :
  let update :=
    {| r_method := ChannelsUpdate; r_state := None; r_error := None;
       r_success := None; r_jwtToken := None;
       r_brokerAddress := None; r_networks := None; r_balances := None;
       r_channels := [ {| ch_channelId := Some "0xa"; ch_status := "closed" |};
                       {| ch_channelId := Some "0xb"; ch_status := "open" |} ] |} in
  (PendingMap.get ChannelsUpdate (_pendingRequests Demo.online) = None
   /\ find is_open (r_channels update)
      = Some {| ch_channelId := Some "0xb"; ch_status := "open" |}
   /\ truthy_str (channelId Demo.online) = false)
  /\ _existingChannelId (state_of (_handleMessage (Parsed update) Demo.online))
     = Some "0xb"
  /\ channelsToClose (state_of (_handleMessage (Parsed update) Demo.online)) = ["0xb"].
Proof.
  intros update. split; [repeat split|].
  destruct (observed_channel_is_remembered Demo.online update
              {| ch_channelId := Some "0xb"; ch_status := "open" |}
              eq_refl eq_refl eq_refl) as (_ & _ & _ & _ & Hnew).
  destruct (Hnew eq_refl) as (Hid & Hclose). split; [exact Hid|].
  destruct (Hclose eq_refl) as (id & Eid & Hl). injection Eid as <-. exact Hl.
Defined.

(* ================================================================= *)
(** ** Initialisation *)

(** [_getConfig] returns. *)
Lemma getConfig_returns env s :
  exists outcome s', _getConfig env s = (Ok outcome, s').
Proof.
  unfold _getConfig, try_catch.
  match goal with |- context [match ?m s with _ => _ end] =>
    destruct (m s) as [[o|e] s1] end; do 2 eexists; reflexivity.
Qed.

(** X30.  [initialize] never throws, whatever connecting and
    authenticating do.  It reports success exactly when the address is
    accepted and connecting and authenticating both succeed, whether the
    configuration could be fetched afterwards or not; otherwise it reports
    the error of the first of the three that failed, and its last effect is
    the [onError] event of that error. *)
Theorem initialize_never_throws env getAddress connecting authenticating
    userAddress wallet reader s :
  let run := initialize env getAddress connecting authenticating
               userAddress wallet reader s in
  exists r,
    result_of run = Ok r
    /\ match getAddress userAddress with
       | Throw e => r = InitFailed e
       | Ok checksummed =>
           match connecting (with_wallet checksummed wallet reader s) with
           | (Throw e, _) => r = InitFailed e
           | (Ok _, s1) =>
               match authenticating s1 with
               | (Throw e, _) => r = InitFailed e
               | (Ok _, _) => r = InitOk userAddress
               end
           end
       end
    /\ match r with
       | InitOk _ => True
       | InitFailed e =>
           exists before,
             log (state_of run)
             = before ++ [Event onError (ErrorInfo initialization_error (Some e))]
       end.
Proof.
  intros run. unfold run, initialize. clear run.
  unfold try_catch, bind, ask, modify, ret, _triggerEvent, record, result_of, state_of.
  destruct (getAddress userAddress) as [checksummed|e]; simpl.
  - destruct (connecting (with_wallet checksummed wallet reader s)) as [[[]|e] s1]; simpl.
    + destruct (authenticating s1) as [[[]|e] s2]; simpl.
      * destruct (getConfig_returns env s2) as (o & s3 & ->). simpl.
        exists (InitOk userAddress). auto.
      * exists (InitFailed e). repeat split. eexists. reflexivity.
    + exists (InitFailed e). repeat split. eexists. reflexivity.
  - exists (InitFailed e). repeat split. eexists. reflexivity.
Qed.
